(** * keepassc/editor.py: the wrap-aware text buffer of the curses editor

    A shallow embedding of [keepassc.editor.Editor] and of the part of
    Python it runs on (list indexing with negative indices and
    [IndexError], slices, a handful of [str] methods and
    [textwrap.wrap] with its default options, as shipped with CPython
    3.10 and later).

    Conventions.
    - Python [int] is [Z].
    - Python [str] is [list ascii]: the strings whose code points are
      below 256, one [ascii] per code point.
    - An exception that leaves a method is a [Raise]; the object is
      lost with it, as the exception leaves [run] too ([run] catches
      [KeyboardInterrupt] only).
    - The curses windows are not part of the state. What [display]
      and [run] ask of them is a call, and the calls [display] makes
      are returned as a list. A call raises [curses.error] or returns:
      which, is not for the editor to say, and is a parameter, the
      terminal. The calls that make and draw the windows ([subwin]
      and the calls of [box_init] and [help]) and the functions of
      the module [curses] ([endwin], [flushinp], [noecho],
      [curs_set]) are taken to return. *)

From Stdlib Require Import Ascii String.
From Stdlib Require Import ZArith List Bool Lia.
From Stdlib Require DecimalString.
Import ListNotations.
Local Open Scope Z_scope.

Definition str := list ascii.

(** A Python string literal. *)
Definition lit (s : string) : str := list_ascii_of_string s.

(** [len(l)] *)
Definition len {A : Type} (l : list A) : Z := Z.of_nat (length l).

Definition is_nil {A : Type} (l : list A) : bool :=
  match l with [] => true | _ => false end.

(** [x or y] on lists. *)
Definition lor_ {A : Type} (x y : list A) : list A :=
  if is_nil x then y else x.

(** ** Exceptions *)

Inductive exn := IndexError | ValueError | TypeError | CursesError.

Inductive result (A : Type) :=
| Ok (a : A)
| Raise (e : exn).
Arguments Ok {A} a.
Arguments Raise {A} e.

Definition bind {A B : Type} (m : result A) (k : A -> result B) : result B :=
  match m with
  | Ok a => k a
  | Raise e => Raise e
  end.

Notation "x <- m ;; k" := (bind m (fun x => k))
  (at level 61, m at next level, right associativity).
Notation "' p <- m ;; k" := (bind m (fun x => let p := x in k))
  (at level 61, p pattern, m at next level, right associativity).

(** [try: m  except IndexError: h] *)
Definition try_IndexError {A : Type} (m : result A) (h : result A) : result A :=
  match m with
  | Raise IndexError => h
  | r => r
  end.

(** ** Python lists *)
Module Py.

(** The position a subscript [l[i]] designates. *)
Definition norm_index {A : Type} (l : list A) (i : Z) : result nat :=
  let j := if i <? 0 then i + len l else i in
  if (0 <=? j) && (j <? len l) then Ok (Z.to_nat j) else Raise IndexError.

(** [l[i]] *)
Definition getitem {A : Type} (l : list A) (i : Z) : result A :=
  k <- norm_index l i ;;
  match nth_error l k with
  | Some x => Ok x
  | None => Raise IndexError
  end.

(** [l[i] = v] *)
Definition setitem {A : Type} (l : list A) (i : Z) (v : A) : result (list A) :=
  k <- norm_index l i ;;
  Ok (firstn k l ++ v :: skipn (S k) l).

(** [del l[i]] *)
Definition delitem {A : Type} (l : list A) (i : Z) : result (list A) :=
  k <- norm_index l i ;;
  Ok (firstn k l ++ skipn (S k) l).

(** The position a slice bound designates: negative bounds count from
    the end, and the result is clipped to [[0, len(l)]]. *)
Definition clip {A : Type} (l : list A) (i : Z) : nat :=
  let j := if i <? 0 then i + len l else i in
  Z.to_nat (Z.max 0 (Z.min j (len l))).

(** [l[:i]] *)
Definition slice_to {A : Type} (l : list A) (i : Z) : list A :=
  firstn (clip l i) l.

(** [l[i:]] *)
Definition slice_from {A : Type} (l : list A) (i : Z) : list A :=
  skipn (clip l i) l.

(** [l[a:b]] *)
Definition slice {A : Type} (l : list A) (a b : Z) : list A :=
  firstn (clip l b - clip l a) (skipn (clip l a) l).

(** [l.insert(i, v)] *)
Definition insert {A : Type} (l : list A) (i : Z) (v : A) : list A :=
  firstn (clip l i) l ++ v :: skipn (clip l i) l.

(** [sum(l)] and [max(l)] on a non-empty list. *)
Definition sum (l : list Z) : Z := fold_left Z.add l 0.

Definition max (l : list Z) : result Z :=
  match l with
  | [] => Raise ValueError
  | x :: l' => Ok (fold_left Z.max l' x)
  end.

(** *** [str] *)

Definition code (c : ascii) : Z := Z.of_N (N_of_ascii c).

(** [c.isspace()] for a code point below 256. *)
Definition isspace (c : ascii) : bool :=
  let n := code c in
  ((9 <=? n) && (n <=? 13)) || ((28 <=? n) && (n <=? 32))
  || (n =? 133) || (n =? 160).

Fixpoint lstrip (s : str) : str :=
  match s with
  | c :: s' => if isspace c then lstrip s' else s
  | [] => []
  end.

(** [s.rstrip()] *)
Definition rstrip (s : str) : str := rev (lstrip (rev s)).

(** [s.strip()] *)
Definition strip (s : str) : str := rstrip (lstrip s).

Fixpoint startswith (s p : str) : bool :=
  match p, s with
  | [], _ => true
  | a :: p', b :: s' => Ascii.eqb a b && startswith s' p'
  | _ :: _, [] => false
  end.

Definition endswith (s p : str) : bool := startswith (rev s) (rev p).

(** [sep.join(l)] *)
Fixpoint join (sep : str) (l : list str) : str :=
  match l with
  | [] => []
  | [x] => x
  | x :: l' => x ++ sep ++ join sep l'
  end.

(** [s.split(' ')]: never empty. *)
Fixpoint split_space (s : str) : list str :=
  match s with
  | [] => [[]]
  | c :: s' =>
      if Ascii.eqb c " "%char then [] :: split_space s'
      else match split_space s' with
           | w :: ws => (c :: w) :: ws
           | [] => [[c]]
           end
  end.

(** [" " * n] *)
Definition spaces (n : Z) : str := repeat " "%char (Z.to_nat n).

Definition str_eqb (a b : str) : bool :=
  if list_eq_dec ascii_dec a b then true else false.

(** The line boundaries of [str.splitlines] below code point 256,
    [\r\n] apart. *)
Definition is_linebreak (c : ascii) : bool :=
  let n := code c in
  ((10 <=? n) && (n <=? 13)) || ((28 <=? n) && (n <=? 30)) || (n =? 133).

(** [s.splitlines(True)]: [cur] is the line being read, reversed. *)
Fixpoint splitlines_from (cur : str) (s : str) : list str :=
  match s with
  | [] => if is_nil cur then [] else [rev cur]
  | c :: s' =>
      if Ascii.eqb c "013"%char then
        match s' with
        | d :: s'' =>
            if Ascii.eqb d "010"%char
            then rev (d :: c :: cur) :: splitlines_from [] s''
            else rev (c :: cur) :: splitlines_from [] s'
        | [] => [rev (c :: cur)]
        end
      else if is_linebreak c then rev (c :: cur) :: splitlines_from [] s'
      else splitlines_from (c :: cur) s'
  end.

Definition splitlines_keepends (s : str) : list str := splitlines_from [] s.

(** [s.expandtabs(tabsize)]: [col] is the column reached. *)
Fixpoint expandtabs_from (tabsize : Z) (col : Z) (s : str) : str :=
  match s with
  | [] => []
  | c :: s' =>
      if Ascii.eqb c "009"%char then
        if 0 <? tabsize then
          let incr := tabsize - col mod tabsize in
          spaces incr ++ expandtabs_from tabsize (col + incr) s'
        else expandtabs_from tabsize col s'
      else if Ascii.eqb c "010"%char || Ascii.eqb c "013"%char
           then c :: expandtabs_from tabsize 0 s'
           else c :: expandtabs_from tabsize (col + 1) s'
  end.

Definition expandtabs (tabsize : Z) (s : str) : str :=
  expandtabs_from tabsize 0 s.

(** [str(n)] *)
Definition str_of_int (n : Z) : str :=
  lit (DecimalString.NilZero.string_of_int (Z.to_int n)).

End Py.

(** ** [textwrap.wrap]

    [wrap(text, width)] is [TextWrapper(width=width).wrap(text)] with
    the defaults [expand_tabs], [replace_whitespace], [drop_whitespace],
    [break_long_words] and [break_on_hyphens] on, [tabsize = 8], empty
    indents, and [fix_sentence_endings] and [max_lines] off. *)
Module Textwrap.

(** [_whitespace = '\t\n\x0b\x0c\r '] *)
Definition whitespace (c : ascii) : bool :=
  let n := Py.code c in ((9 <=? n) && (n <=? 13)) || (n =? 32).

(** [_munge_whitespace] *)
Definition _munge_whitespace (text : str) : str :=
  map (fun c => if whitespace c then " "%char else c) (Py.expandtabs 8 text).

(** The classes of [wordsep_re] below code point 256: [\d], [\w],
    [letter], which is a [\w] that is no [\d], and [word_punct], which
    is a [\w] or one of the marks ! & . , ? and the two quotes. *)
Definition digit (c : ascii) : bool :=
  let n := Py.code c in (48 <=? n) && (n <=? 57).

Definition word_char (c : ascii) : bool :=
  let n := Py.code c in
  digit c || ((65 <=? n) && (n <=? 90)) || (n =? 95)
  || ((97 <=? n) && (n <=? 122))
  || (n =? 170) || (n =? 178) || (n =? 179) || (n =? 181) || (n =? 185)
  || (n =? 186) || ((188 <=? n) && (n <=? 190))
  || ((192 <=? n) && (n <=? 214)) || ((216 <=? n) && (n <=? 246))
  || ((248 <=? n) && (n <=? 255)).

Definition letter (c : ascii) : bool := word_char c && negb (digit c).

Definition word_punct (c : ascii) : bool :=
  let n := Py.code c in
  word_char c || (n =? 33) || (n =? 34) || (n =? 39) || (n =? 38)
  || (n =? 46) || (n =? 44) || (n =? 63).

Definition hyphen (c : ascii) : bool := Ascii.eqb c "-"%char.

Fixpoint count_hyphens (s : str) : nat :=
  match s with
  | c :: s' => if hyphen c then S (count_hyphens s') else O
  | [] => O
  end.

(** [-{2,}] followed by [\w] matches at the head of [s]: the number
    of hyphens it takes. *)
Definition emdash (s : str) : option nat :=
  let k := count_hyphens s in
  if (2 <=? k)%nat then
    match nth_error s k with
    | Some c => if word_char c then Some k else None
    | None => None
    end
  else None.

Definition emdash_ahead (s : str) : bool :=
  match emdash s with Some _ => true | None => false end.

(** The lookbehind of the em-dash alternatives: [prev] is the text
    before the position, last character first. *)
Definition after_word_punct (prev : str) : bool :=
  match prev with
  | c :: _ => word_punct c
  | [] => false
  end.

(** A hyphen at the head of [s] closes a chunk: the lookbehinds
    [letter{2}-] or [letter-letter-] and the lookahead
    [letter -? letter]. *)
Definition hyphen_break (prev s : str) : bool :=
  match s with
  | h :: s' =>
      hyphen h
      && (match prev with
          | a :: b :: rest =>
              (letter a && letter b)
              || (letter a && hyphen b
                  && match rest with c :: _ => letter c | [] => false end)
          | _ => false
          end)
      && (match s' with
          | x :: y :: rest =>
              letter x
              && ((hyphen y && match rest with z :: _ => letter z | [] => false end)
                  || letter y)
          | _ => false
          end)
  | [] => false
  end.

(** The third alternative of [wordsep_re], past its first character:
    how many more characters the lazy [nowhitespace+?] and its closing
    group take. *)
Fixpoint word_rest (prev s : str) : nat :=
  match s with
  | [] => O
  | c :: s' =>
      if hyphen_break prev s then 1%nat
      else if whitespace c then O
      else if after_word_punct prev && emdash_ahead s then O
      else S (word_rest (c :: prev) s')
  end.

Fixpoint count_whitespace (s : str) : nat :=
  match s with
  | c :: s' => if whitespace c then S (count_whitespace s') else O
  | [] => O
  end.

(** The length of the match of [wordsep_re] at the head of a
    non-empty [s]. *)
Definition match_length (prev s : str) : nat :=
  match s with
  | [] => O
  | c :: s' =>
      if whitespace c then count_whitespace s
      else match (if after_word_punct prev then emdash s else None) with
           | Some k => k
           | None => S (word_rest (c :: prev) s')
           end
  end.

(** [wordsep_re.split(text)] without its empty strings: the
    consecutive matches. Every match takes a character, so
    [length text] rounds are enough. *)
Fixpoint split_from (fuel : nat) (prev s : str) : list str :=
  match fuel with
  | O => []
  | S fuel' =>
      match s with
      | [] => []
      | _ :: _ =>
          let n := match_length prev s in
          firstn n s :: split_from fuel' (rev (firstn n s) ++ prev) (skipn n s)
      end
  end.

Definition _split (text : str) : list str :=
  split_from (length text) [] text.

(** [chunk.strip() == ''] *)
Definition blank (chunk : str) : bool := is_nil (Py.strip chunk).


(** [chunk.rfind('-', 0, stop)] *)
Fixpoint rfind_hyphen_from (i : Z) (s : str) : Z :=
  match s with
  | [] => -1
  | c :: s' =>
      let r := rfind_hyphen_from (i + 1) s' in
      if 0 <=? r then r else if hyphen c then i else -1
  end.

Definition rfind_hyphen (chunk : str) (stop : Z) : Z :=
  rfind_hyphen_from 0 (Py.slice_to chunk stop).

(** [_handle_long_word], called with [chunks] not empty: the line and
    the chunks it leaves. The chunks are kept in reading order, so the
    last item of the reversed list of the source is the head here. *)
Definition _handle_long_word (chunks cur_line : list str) (cur_len width : Z)
  : list str * list str :=
  let space_left := if width <? 1 then 1 else width - cur_len in
  match chunks with
  | [] => (cur_line, chunks)
  | chunk :: rest =>
      let end_ :=
        if space_left <? len chunk then
          let hyphen_at := rfind_hyphen chunk space_left in
          if (0 <? hyphen_at)
             && existsb (fun c => negb (hyphen c)) (Py.slice_to chunk hyphen_at)
          then hyphen_at + 1
          else space_left
        else space_left in
      (cur_line ++ [Py.slice_to chunk end_], Py.slice_from chunk end_ :: rest)
  end.

(** The inner [while chunks] of [_wrap_chunks]: chunks go to the line
    while they fit. *)
Fixpoint fill_line (width cur_len : Z) (cur_line chunks : list str)
  : list str * Z * list str :=
  match chunks with
  | [] => (cur_line, cur_len, [])
  | c :: rest =>
      if cur_len + len c <=? width
      then fill_line width (cur_len + len c) (cur_line ++ [c]) rest
      else (cur_line, cur_len, chunks)
  end.

(** The line without its last chunk, if that is all whitespace. *)
Definition drop_last_blank (cur_line : list str) : list str :=
  match rev cur_line with
  | c :: before => if blank c then rev before else cur_line
  | [] => cur_line
  end.

(** One round of the outer [while chunks] of [_wrap_chunks], on
    [chunks] not empty: the lines and the chunks it leaves. *)
Definition wrap_line (width : Z) (lines chunks : list str)
  : list str * list str :=
  let chunks :=
    match chunks with
    | c :: rest => if blank c && negb (is_nil lines) then rest else chunks
    | [] => chunks
    end in
  let '(cur_line, cur_len, chunks) := fill_line width 0 [] chunks in
  let '(cur_line, chunks) :=
    match chunks with
    | c :: _ =>
        if width <? len c
        then _handle_long_word chunks cur_line cur_len width
        else (cur_line, chunks)
    | [] => (cur_line, chunks)
    end in
  let cur_line := drop_last_blank cur_line in
  (if is_nil cur_line then lines else lines ++ [concat cur_line], chunks).

Fixpoint wrap_lines (fuel : nat) (width : Z) (lines chunks : list str)
  : list str :=
  match fuel with
  | O => lines
  | S fuel' =>
      match chunks with
      | [] => lines
      | _ :: _ =>
          let '(lines, chunks) := wrap_line width lines chunks in
          wrap_lines fuel' width lines chunks
      end
  end.

(** [_wrap_chunks]. Every round takes a character off the chunks, so
    one round per character is enough. *)
Definition _wrap_chunks (width : Z) (chunks : list str) : result (list str) :=
  if width <=? 0 then Raise ValueError
  else Ok (wrap_lines (length (concat chunks)) width [] chunks).

(** [textwrap.wrap(text, width)] *)
Definition wrap (text : str) (width : Z) : result (list str) :=
  _wrap_chunks width (_split (_munge_whitespace text)).

End Textwrap.

(** * The editor

    ** State

    The attributes of [Editor] that the buffer, the cursor and the
    session read or write. The curses windows ([scr], [stdscr],
    [boxscr]), the window location, [line_idx] and [row_idx] (set to 0
    and never read) and [text_orig] (never read) are left out. *)

(** What [get_wch] returns: an [int] for a special key, a [str] for a
    character. *)
Inductive key :=
| KInt (n : Z)
| KStr (c : str).

(** [self.text]: the document, a list of lines, each a list of rows;
    [False] after [quit_nosave]; [-1] after [close]. *)
Inductive text_t :=
| Doc (d : list (list str))
| TextFalse
| TextMinus1.

Record editor := mkEditor {
  space_counter : Z;
  title : str;
  box : bool;
  max_text_size : Z;
  pw_mode : bool;
  resize_flag : bool;
  win_size_orig_y : Z;
  win_size_orig_x : Z;
  win_size_y : Z;
  win_size_x : Z;
  x_scroll : bool;
  max_win_size_y : Z;
  max_win_size_x : Z;
  cur_pos_y : Z;
  cur_pos_x : Z;
  y_offset : Z;
  x_offset : Z;
  buffer_idx_y : Z;
  buffer_idx_x : Z;
  text : text_t;
  max_cols : Z;
  num_rows : Z;
  buffer_list : list (Z * Z * str);
  buf_length : Z
}.

Definition set_space_counter (v : Z) (s : editor) : editor :=
  {| space_counter := v;
     title := title s;
     box := box s;
     max_text_size := max_text_size s;
     pw_mode := pw_mode s;
     resize_flag := resize_flag s;
     win_size_orig_y := win_size_orig_y s;
     win_size_orig_x := win_size_orig_x s;
     win_size_y := win_size_y s;
     win_size_x := win_size_x s;
     x_scroll := x_scroll s;
     max_win_size_y := max_win_size_y s;
     max_win_size_x := max_win_size_x s;
     cur_pos_y := cur_pos_y s;
     cur_pos_x := cur_pos_x s;
     y_offset := y_offset s;
     x_offset := x_offset s;
     buffer_idx_y := buffer_idx_y s;
     buffer_idx_x := buffer_idx_x s;
     text := text s;
     max_cols := max_cols s;
     num_rows := num_rows s;
     buffer_list := buffer_list s;
     buf_length := buf_length s |}.

Definition set_max_text_size (v : Z) (s : editor) : editor :=
  {| space_counter := space_counter s;
     title := title s;
     box := box s;
     max_text_size := v;
     pw_mode := pw_mode s;
     resize_flag := resize_flag s;
     win_size_orig_y := win_size_orig_y s;
     win_size_orig_x := win_size_orig_x s;
     win_size_y := win_size_y s;
     win_size_x := win_size_x s;
     x_scroll := x_scroll s;
     max_win_size_y := max_win_size_y s;
     max_win_size_x := max_win_size_x s;
     cur_pos_y := cur_pos_y s;
     cur_pos_x := cur_pos_x s;
     y_offset := y_offset s;
     x_offset := x_offset s;
     buffer_idx_y := buffer_idx_y s;
     buffer_idx_x := buffer_idx_x s;
     text := text s;
     max_cols := max_cols s;
     num_rows := num_rows s;
     buffer_list := buffer_list s;
     buf_length := buf_length s |}.

Definition set_cur_pos_y (v : Z) (s : editor) : editor :=
  {| space_counter := space_counter s;
     title := title s;
     box := box s;
     max_text_size := max_text_size s;
     pw_mode := pw_mode s;
     resize_flag := resize_flag s;
     win_size_orig_y := win_size_orig_y s;
     win_size_orig_x := win_size_orig_x s;
     win_size_y := win_size_y s;
     win_size_x := win_size_x s;
     x_scroll := x_scroll s;
     max_win_size_y := max_win_size_y s;
     max_win_size_x := max_win_size_x s;
     cur_pos_y := v;
     cur_pos_x := cur_pos_x s;
     y_offset := y_offset s;
     x_offset := x_offset s;
     buffer_idx_y := buffer_idx_y s;
     buffer_idx_x := buffer_idx_x s;
     text := text s;
     max_cols := max_cols s;
     num_rows := num_rows s;
     buffer_list := buffer_list s;
     buf_length := buf_length s |}.

Definition set_cur_pos_x (v : Z) (s : editor) : editor :=
  {| space_counter := space_counter s;
     title := title s;
     box := box s;
     max_text_size := max_text_size s;
     pw_mode := pw_mode s;
     resize_flag := resize_flag s;
     win_size_orig_y := win_size_orig_y s;
     win_size_orig_x := win_size_orig_x s;
     win_size_y := win_size_y s;
     win_size_x := win_size_x s;
     x_scroll := x_scroll s;
     max_win_size_y := max_win_size_y s;
     max_win_size_x := max_win_size_x s;
     cur_pos_y := cur_pos_y s;
     cur_pos_x := v;
     y_offset := y_offset s;
     x_offset := x_offset s;
     buffer_idx_y := buffer_idx_y s;
     buffer_idx_x := buffer_idx_x s;
     text := text s;
     max_cols := max_cols s;
     num_rows := num_rows s;
     buffer_list := buffer_list s;
     buf_length := buf_length s |}.

Definition set_y_offset (v : Z) (s : editor) : editor :=
  {| space_counter := space_counter s;
     title := title s;
     box := box s;
     max_text_size := max_text_size s;
     pw_mode := pw_mode s;
     resize_flag := resize_flag s;
     win_size_orig_y := win_size_orig_y s;
     win_size_orig_x := win_size_orig_x s;
     win_size_y := win_size_y s;
     win_size_x := win_size_x s;
     x_scroll := x_scroll s;
     max_win_size_y := max_win_size_y s;
     max_win_size_x := max_win_size_x s;
     cur_pos_y := cur_pos_y s;
     cur_pos_x := cur_pos_x s;
     y_offset := v;
     x_offset := x_offset s;
     buffer_idx_y := buffer_idx_y s;
     buffer_idx_x := buffer_idx_x s;
     text := text s;
     max_cols := max_cols s;
     num_rows := num_rows s;
     buffer_list := buffer_list s;
     buf_length := buf_length s |}.

Definition set_text (v : text_t) (s : editor) : editor :=
  {| space_counter := space_counter s;
     title := title s;
     box := box s;
     max_text_size := max_text_size s;
     pw_mode := pw_mode s;
     resize_flag := resize_flag s;
     win_size_orig_y := win_size_orig_y s;
     win_size_orig_x := win_size_orig_x s;
     win_size_y := win_size_y s;
     win_size_x := win_size_x s;
     x_scroll := x_scroll s;
     max_win_size_y := max_win_size_y s;
     max_win_size_x := max_win_size_x s;
     cur_pos_y := cur_pos_y s;
     cur_pos_x := cur_pos_x s;
     y_offset := y_offset s;
     x_offset := x_offset s;
     buffer_idx_y := buffer_idx_y s;
     buffer_idx_x := buffer_idx_x s;
     text := v;
     max_cols := max_cols s;
     num_rows := num_rows s;
     buffer_list := buffer_list s;
     buf_length := buf_length s |}.

Definition set_resize_flag (v : bool) (s : editor) : editor :=
  {| space_counter := space_counter s;
     title := title s;
     box := box s;
     max_text_size := max_text_size s;
     pw_mode := pw_mode s;
     resize_flag := v;
     win_size_orig_y := win_size_orig_y s;
     win_size_orig_x := win_size_orig_x s;
     win_size_y := win_size_y s;
     win_size_x := win_size_x s;
     x_scroll := x_scroll s;
     max_win_size_y := max_win_size_y s;
     max_win_size_x := max_win_size_x s;
     cur_pos_y := cur_pos_y s;
     cur_pos_x := cur_pos_x s;
     y_offset := y_offset s;
     x_offset := x_offset s;
     buffer_idx_y := buffer_idx_y s;
     buffer_idx_x := buffer_idx_x s;
     text := text s;
     max_cols := max_cols s;
     num_rows := num_rows s;
     buffer_list := buffer_list s;
     buf_length := buf_length s |}.

(** The value a key handler returns to [get_key]: [None], [True],
    [False], or the [-1] of [close]. *)
Inductive ret := RNone | RTrue | RFalse | RMinus1.

(** What [exit] returns: the text, [False], or [-1]. *)
Inductive exit_value :=
| ExitText (t : str)
| ExitFalse
| ExitMinus1.

(** The document, where the code iterates over or indexes
    [self.text]; [False] and [-1] support neither. *)
Definition doc_of (s : editor) : result (list (list str)) :=
  match text s with
  | Doc d => Ok d
  | TextFalse | TextMinus1 => Raise TypeError
  end.

(** [d[ln][r]] and [d[ln][r] = v] *)
Definition get_row (d : list (list str)) (ln r : Z) : result str :=
  l <- Py.getitem d ln ;; Py.getitem l r.

Definition set_row (d : list (list str)) (ln r : Z) (v : str)
  : result (list (list str)) :=
  l <- Py.getitem d ln ;;
  l <- Py.setitem l r v ;;
  Py.setitem d ln l.

(** [wrap(" ".join(d[ln]), win_size_x - 1) or [""]], stored at [d[ln]]. *)
Definition rewrap (s : editor) (d : list (list str)) (ln : Z)
  : result (list (list str)) :=
  l <- Py.getitem d ln ;;
  w <- Textwrap.wrap (Py.join (lit " ") l) (win_size_x s - 1) ;;
  Py.setitem d ln (lor_ w [[]]).

(** ** The buffer index *)

(** The rows of one line, numbered from [idx_row]. *)
Fixpoint index_rows (idx_line idx_row : Z) (line : list str)
  : list (Z * Z * str) :=
  match line with
  | [] => []
  | row :: line' => (idx_line, idx_row, row) :: index_rows idx_line (idx_row + 1) line'
  end.

(** The rows of the lines, the lines numbered from [idx_line]. *)
Fixpoint index_lines (idx_line : Z) (d : list (list str)) : list (Z * Z * str) :=
  match d with
  | [] => []
  | line :: d' => index_rows idx_line 0 line ++ index_lines (idx_line + 1) d'
  end.

Definition buffer_set (s : editor) : result editor :=
  d <- doc_of s ;;
  max_cols' <- Py.max (lor_ (flat_map (fun i => map (fun j => len j) i) d)
                            [win_size_x s]) ;;
  let num_rows' := Py.sum (map (fun i => len i) d) in
  let buffer_idx_y' := cur_pos_y s + y_offset s in
  let buffer_list' := lor_ (index_lines 0 d) [(0, 0, [])] in
  e <- Py.getitem buffer_list' buffer_idx_y' ;;
  Ok {| space_counter := space_counter s; title := title s; box := box s;
        max_text_size := max_text_size s; pw_mode := pw_mode s;
        resize_flag := resize_flag s;
        win_size_orig_y := win_size_orig_y s;
        win_size_orig_x := win_size_orig_x s;
        win_size_y := win_size_y s; win_size_x := win_size_x s;
        x_scroll := x_scroll s;
        max_win_size_y := max_win_size_y s;
        max_win_size_x := max_win_size_x s;
        cur_pos_y := cur_pos_y s; cur_pos_x := cur_pos_x s;
        y_offset := y_offset s; x_offset := x_offset s;
        buffer_idx_y := buffer_idx_y';
        buffer_idx_x := cur_pos_x s + x_offset s;
        text := text s;
        max_cols := max_cols';
        num_rows := num_rows';
        buffer_list := buffer_list';
        buf_length := len (snd e) |}.

(** ** Construction *)

(** [win_init], as far as the sizes and the cursor go; [maxyx] is what
    [scr.getmaxyx()] returns. *)
Definition win_init (maxyx : Z * Z) (s : editor) : editor :=
  let '(wy, wx) :=
    if resize_flag s then (win_size_y s + 1, win_size_x s + 1)
    else (win_size_y s, win_size_x s) in
  let max_y := Z.max 0 (fst maxyx - 4) in
  let max_x := Z.max 0 (snd maxyx - 3) in
  let wy := if (max_y <? wy) || (wy <? win_size_orig_y s) then max_y else wy in
  let wx := if (max_x <? wx) || (wx <? win_size_orig_x s) then max_x else wx in
  {| space_counter := space_counter s; title := title s; box := box s;
     max_text_size := max_text_size s; pw_mode := pw_mode s;
     resize_flag := false;
     win_size_orig_y := win_size_orig_y s;
     win_size_orig_x := win_size_orig_x s;
     win_size_y := wy - 1; win_size_x := wx - 1;
     x_scroll := x_scroll s;
     max_win_size_y := max_y; max_win_size_x := max_x;
     cur_pos_y := 0; cur_pos_x := 0; y_offset := 0; x_offset := 0;
     buffer_idx_y := 0; buffer_idx_x := 0;
     text := text s; max_cols := max_cols s; num_rows := num_rows s;
     buffer_list := buffer_list s; buf_length := buf_length s |}.

(** [[f(i) for i in t]] where [f] may raise. *)
Fixpoint map_result {A B : Type} (f : A -> result B) (t : list A)
  : result (list B) :=
  match t with
  | [] => Ok []
  | x :: t' => y <- f x ;; ys <- map_result f t' ;; Ok (y :: ys)
  end.

Definition text_init (txt : str) (s : editor) : result editor :=
  let t := Py.splitlines_keepends txt in
  d <- (if x_scroll s then Ok [t]
        else map_result (fun i => w <- Textwrap.wrap i (win_size_x s - 1) ;;
                                  Ok (lor_ w [lit " "])) t) ;;
  s <- buffer_set (set_text (Doc d) s) ;;
  Ok (if (0 <? max_text_size s) && (max_text_size s <? num_rows s)
      then set_max_text_size (num_rows s) s
      else s).

(** The attributes [__init__] sets before it calls [win_init]. *)
Definition pre_init (title_ : str) (win_size : Z * Z) (box_ : bool)
    (max_text_size_ : Z) (pw_mode_ : bool) : editor :=
  {| space_counter := 0; title := title_; box := box_;
     max_text_size := max_text_size_; pw_mode := pw_mode_;
     resize_flag := false;
     win_size_orig_y := fst win_size; win_size_orig_x := snd win_size;
     win_size_y := fst win_size; win_size_x := snd win_size;
     x_scroll := (fst win_size <? 2) && (max_text_size_ =? 1);
     max_win_size_y := 0; max_win_size_x := 0;
     cur_pos_y := 0; cur_pos_x := 0; y_offset := 0; x_offset := 0;
     buffer_idx_y := 0; buffer_idx_x := 0;
     text := Doc []; max_cols := 0; num_rows := 0;
     buffer_list := []; buf_length := 0 |}.

(** ** Navigation *)

Definition end_of_line_check (s : editor) : result editor :=
  s <- buffer_set s ;;
  Ok (if buf_length s <? cur_pos_x s then set_cur_pos_x (buf_length s) s else s).

Definition up (s : editor) : result editor :=
  end_of_line_check
    (if 0 <? cur_pos_y s then set_cur_pos_y (cur_pos_y s - 1) s
     else set_y_offset (Z.max 0 (y_offset s - 1)) s).

Definition down (s : editor) : result editor :=
  if (cur_pos_y s <? win_size_y s - 1) && (buffer_idx_y s <? num_rows s - 1)
  then end_of_line_check (set_cur_pos_y (cur_pos_y s + 1) s)
  else if buffer_idx_y s =? num_rows s - 1 then Ok s
  else end_of_line_check
         (set_y_offset (Z.min (num_rows s - win_size_y s) (y_offset s + 1)) s).

Definition left (s : editor) : result editor :=
  if 0 <? cur_pos_x s then Ok (set_cur_pos_x (cur_pos_x s - 1) s)
  else if 0 <? cur_pos_y s then
    s <- up s ;;
    end_of_line_check (set_cur_pos_x (max_cols s) s)
  else Ok s.

Definition right (s : editor) : result editor :=
  if cur_pos_x s <? buf_length s then Ok (set_cur_pos_x (cur_pos_x s + 1) s)
  else if buffer_idx_y s <? num_rows s - 1 then down (set_cur_pos_x 0 s)
  else Ok s.

Definition end_ (s : editor) : editor := set_cur_pos_x (buf_length s) s.

Definition home (s : editor) : editor := set_cur_pos_x 0 s.

Definition page_up (s : editor) : result editor :=
  end_of_line_check (set_y_offset (Z.max 0 (y_offset s - win_size_y s)) s).

Definition page_down (s : editor) : result editor :=
  let y := Z.min (num_rows s - win_size_y s - 1) (y_offset s + win_size_y s) in
  end_of_line_check (set_y_offset (Z.max 0 y) s).

(** ** Editing *)

(** [get_cur_word(text, forward)]: [split(' ')] is never empty, so
    its items [-1] and [0] are the last and the first. *)
Definition get_cur_word (s : editor) (text_ : str) (forward : bool) : str :=
  let words := Py.split_space (Py.slice_to text_ (buffer_idx_x s)) in
  if forward then last words [] else hd [] words.

Definition word_wrap_jump (cur_word cur_word_wrapd : str) (s : editor)
  : result editor :=
  if negb (Py.str_eqb cur_word cur_word_wrapd) && negb (is_nil cur_word) then
    above <- Py.getitem (buffer_list s) (buffer_idx_y s - 1) ;;
    if Py.endswith (snd above) cur_word
       || Py.endswith (snd above) (Py.slice_to cur_word (-1))
    then
      s <- up s ;;
      Ok (end_ s)
    else
      here <- Py.getitem (buffer_list s) (buffer_idx_y s) ;;
      if Py.startswith (snd here) cur_word
         || Py.startswith (snd here) (Py.slice_to cur_word (-1))
      then Ok (set_cur_pos_x (len cur_word + 1) s)
      else Ok s
  else Ok s.

Definition insert_char (c : key) (s : editor) : result editor :=
  match c with
  | KInt _ => Ok s
  | KStr c =>
      '(ln, r, line) <- Py.getitem (buffer_list s) (buffer_idx_y s) ;;
      let line := lor_ (map (fun a => [a]) line) [[]] in
      let line := Py.insert line (buffer_idx_x s) c in
      d <- doc_of s ;;
      d <- set_row d ln r (concat line) ;;
      row <- get_row d ln r ;;
      let s := set_space_counter (len row - len (Py.rstrip row) + 1) s in
      let cur_word := get_cur_word s row true in
      d <- rewrap s d ln ;;
      row <- get_row d ln r ;;
      let cur_word_wrapd := get_cur_word s row true in
      d <- (if space_counter s =? 0 then Ok d
            else
              '(ln, r, line) <- Py.getitem (buffer_list s) (buffer_idx_y s) ;;
              row <- get_row d ln r ;;
              set_row d ln r (row ++ Py.spaces (space_counter s))) ;;
      s <- buffer_set (set_text (Doc d) s) ;;
      s <- right s ;;
      word_wrap_jump cur_word cur_word_wrapd s
  end.

Definition insert_tab (s : editor) : result editor :=
  let tab_size := 4%nat in
  fold_left (fun m _ => s <- m ;; insert_char (KStr (lit " ")) s)
            (seq 0 tab_size) (Ok s).

Definition insert_line_or_quit (s : editor) : result (ret * editor) :=
  if max_text_size s =? 1 then Ok (RFalse, s)
  else if num_rows s =? max_text_size s then Ok (RNone, s)
  else
    '(ln, r, line) <- Py.getitem (buffer_list s) (buffer_idx_y s) ;;
    let newline := Py.slice_from line (cur_pos_x s) in
    let line := Py.slice_to line (cur_pos_x s) in
    d <- doc_of s ;;
    l <- Py.getitem d ln ;;
    let oldline1 := Py.slice_to l r ++ [line] in
    let oldline2 := Py.insert (Py.slice_from l (r + 1)) 0 newline in
    d <- Py.delitem d ln ;;
    let d := Py.insert d ln oldline2 in
    let d := Py.insert d ln oldline1 in
    s <- buffer_set (set_text (Doc d) s) ;;
    s <- down (set_cur_pos_x 0 s) ;;
    Ok (RNone, s).

Definition backspace (s : editor) : result (ret * editor) :=
  '(ln, r, line) <- Py.getitem (buffer_list s) (buffer_idx_y s) ;;
  d <- doc_of s ;;
  (* the three branches: the state, the document, [ln], and whether
     the method goes on after them *)
  '(s, d, ln, goes_on) <-
    (if 0 <? cur_pos_x s then
       '(line, s) <-
         try_IndexError
           (line <- Py.delitem line (buffer_idx_x s - 1) ;; Ok (line, s))
           (let line :=
              line ++ Py.spaces (if space_counter s =? 0 then 1
                                 else space_counter s) in
            line <- Py.delitem line (buffer_idx_x s - 1) ;;
            Ok (lor_ line (lit " "),
                set_space_counter (Z.max 0 (space_counter s - 1)) s)) ;;
       d <- set_row d ln r line ;;
       s <- left (set_text (Doc d) s) ;;
       Ok (s, d, ln, true)
     else if (cur_pos_x s =? 0) && (0 <? buffer_idx_y s) then
       s <- left s ;;
       let s := set_cur_pos_x (Z.max 0 (cur_pos_x s - 1)) s in
       '(ln0, r0, line0) <- Py.getitem (buffer_list s) (buffer_idx_y s) ;;
       d <- (if negb (is_nil line0) then
               d <- set_row d ln0 r0 (removelast line0) ;;
               if ln0 <? ln then
                 l0 <- Py.getitem d ln0 ;;
                 l <- Py.getitem d ln ;;
                 d <- Py.setitem d ln0 (l0 ++ l) ;;
                 Py.delitem d ln
               else Ok d
             else Py.delitem d ln0) ;;
       Ok (set_text (Doc d) s, d, ln0, true)
     else if (cur_pos_x s =? 0) && (buffer_idx_y s =? 0) && is_nil line then
       d <- Py.delitem d ln ;;
       Ok (set_text (Doc d) s, d, ln, false)
     else Ok (s, d, ln, true)) ;;
  if goes_on then
    row <- get_row d ln r ;;
    let cur_word := get_cur_word s row false in
    d <- rewrap s d ln ;;
    cur_word_wrapd <-
      try_IndexError (row <- get_row d ln r ;; Ok (get_cur_word s row false))
                     (Ok []) ;;
    s <- buffer_set (set_text (Doc d) s) ;;
    s <- word_wrap_jump cur_word cur_word_wrapd s ;;
    Ok (RNone, s)
  else Ok (RNone, s).

Definition del_char (s : editor) : result editor :=
  '(ln, r, line) <- Py.getitem (buffer_list s) (buffer_idx_y s) ;;
  line <- (if negb (is_nil line) && (cur_pos_x s <? len line)
           then Py.delitem line (buffer_idx_x s)
           else Ok line) ;;
  d <- doc_of s ;;
  d <- set_row d ln r line ;;
  d <- rewrap s d ln ;;
  Ok (set_text (Doc d) s).

Definition del_to_eol (s : editor) : result editor :=
  '(ln, r, line) <- Py.getitem (buffer_list s) (buffer_idx_y s) ;;
  d <- doc_of s ;;
  d <- set_row d ln r (Py.slice_to line (cur_pos_x s)) ;;
  Ok (set_text (Doc d) s).

Definition del_to_bol (s : editor) : result editor :=
  '(ln, r, line) <- Py.getitem (buffer_list s) (buffer_idx_y s) ;;
  d <- doc_of s ;;
  d <- set_row d ln r (Py.slice_from line (cur_pos_x s)) ;;
  Ok (set_cur_pos_x 0 (set_text (Doc d) s)).

(** ** The session *)

Definition quit (s : editor) : ret * editor := (RFalse, s).

Definition quit_nosave (s : editor) : ret * editor :=
  (RFalse, set_text TextFalse s).

Definition exit (s : editor) : exit_value :=
  match text s with
  | TextMinus1 => ExitMinus1
  | TextFalse => ExitFalse
  | Doc d => ExitText (Py.join ["010"%char] (map (Py.join (lit " ")) d))
  end.

(** [close]: [curses.endwin()], then [exit] on the text [-1]. *)
Definition close (s : editor) : ret * editor :=
  (RMinus1, set_text TextMinus1 s).

(** [help] draws a popup, waits for a key and redraws the box: the
    state is left as it is. *)
Definition help (s : editor) : ret * editor := (RNone, s).

Definition resize (maxyx : Z * Z) (s : editor) : result editor :=
  let s := win_init maxyx (set_resize_flag true s) in
  d <- doc_of s ;;
  text_init (Py.join ["010"%char] (map (Py.join (lit " ")) d)) s.

(** The methods [keys_init] binds to keys. *)
Inductive handler :=
| h_backspace | h_down | h_end | h_insert_line_or_quit | h_home | h_del_char
| h_left | h_page_down | h_page_up | h_right | h_up | h_help | h_quit
| h_quit_nosave | h_resize | h_del_to_bol | h_del_to_eol | h_close
| h_insert_tab.

(** [self.keys]: the curses key codes, the control characters and the
    characters newline and tab; [None] is a [KeyError]. *)
Definition keys (c : key) : option handler :=
  match c with
  | KInt n =>
      if n =? 263 then Some h_backspace              (* KEY_BACKSPACE *)
      else if n =? 258 then Some h_down              (* KEY_DOWN *)
      else if n =? 360 then Some h_end               (* KEY_END *)
      else if n =? 343 then Some h_insert_line_or_quit (* KEY_ENTER *)
      else if n =? 262 then Some h_home              (* KEY_HOME *)
      else if n =? 330 then Some h_del_char          (* KEY_DC *)
      else if n =? 260 then Some h_left              (* KEY_LEFT *)
      else if n =? 338 then Some h_page_down         (* KEY_NPAGE *)
      else if n =? 339 then Some h_page_up           (* KEY_PPAGE *)
      else if n =? 261 then Some h_right             (* KEY_RIGHT *)
      else if n =? 259 then Some h_up                (* KEY_UP *)
      else if n =? 265 then Some h_help              (* KEY_F1 *)
      else if n =? 266 then Some h_quit              (* KEY_F2 *)
      else if n =? 269 then Some h_quit_nosave       (* KEY_F5 *)
      else if n =? 410 then Some h_resize            (* KEY_RESIZE *)
      else if n =? -1 then Some h_resize
      else None
  | KStr [ch] =>
      let n := Py.code ch in
      if n =? 24 then Some h_quit                    (* ctrl-x *)
      else if n =? 21 then Some h_del_to_bol         (* ctrl-u *)
      else if n =? 11 then Some h_del_to_eol         (* ctrl-k *)
      else if n =? 4 then Some h_close               (* ctrl-d *)
      else if n =? 127 then Some h_backspace         (* DEL *)
      else if n =? 10 then Some h_insert_line_or_quit (* NL, LF *)
      else if n =? 8 then Some h_backspace           (* BS *)
      else if n =? 27 then Some h_quit_nosave        (* ESC *)
      else if n =? 3 then Some h_close               (* ETX *)
      else if n =? 9 then Some h_insert_tab          (* tab *)
      else None
  | KStr _ => None
  end.

Definition returns_None (m : result editor) : result (ret * editor) :=
  s <- m ;; Ok (RNone, s).

(** The call [self.keys[c]()]. *)
Definition call (maxyx : Z * Z) (h : handler) (s : editor)
  : result (ret * editor) :=
  match h with
  | h_backspace => backspace s
  | h_down => returns_None (down s)
  | h_end => Ok (RNone, end_ s)
  | h_insert_line_or_quit => insert_line_or_quit s
  | h_home => Ok (RNone, home s)
  | h_del_char => returns_None (del_char s)
  | h_left => returns_None (left s)
  | h_page_down => returns_None (page_down s)
  | h_page_up => returns_None (page_up s)
  | h_right => returns_None (right s)
  | h_up => returns_None (up s)
  | h_help => Ok (help s)
  | h_quit => Ok (quit s)
  | h_quit_nosave => Ok (quit_nosave s)
  | h_resize => returns_None (resize maxyx s)
  | h_del_to_bol => returns_None (del_to_bol s)
  | h_del_to_eol => returns_None (del_to_eol s)
  | h_close => Ok (close s)
  | h_insert_tab => returns_None (insert_tab s)
  end.

(** [get_key], [get_wch] returning [c]. No handler raises [KeyError],
    so the [except KeyError] is the miss of the lookup. *)
Definition get_key (maxyx : Z * Z) (c : key) (s : editor)
  : result (ret * editor) :=
  match keys c with
  | Some h => call maxyx h s
  | None => s <- insert_char c s ;; Ok (RTrue, s)
  end.

(** ** Display *)

(** The calls [display] and [run] make on the windows. *)
Inductive draw :=
| stdscr_move (y x : Z)
| stdscr_clrtoeol
| stdscr_addstr (y x : Z) (t : str)
| boxscr_addstr (y x : Z) (t : str)
| boxscr_clrtoeol
| stdscr_refresh
| boxscr_refresh
| scr_refresh.

(** The terminal: [crs s c] says that the call [c], made in the state
    [s], raises [curses.error]. *)
Definition terminal := editor -> draw -> bool.

(** The terminal on which no call raises. *)
Definition quiet : terminal := fun _ _ => false.

(** [win_init] makes the window [boxscr] where the editor has a box
    or a title; where it has neither, [self.boxscr] is an
    [AttributeError]. *)
Definition has_boxscr (s : editor) : bool := box s || negb (is_nil (title s)).

(** ["{},{},{},{}".format(a, b, c, d)] *)
Definition format4 (a b c d : Z) : str :=
  Py.str_of_int a ++ lit "," ++ Py.str_of_int b ++ lit ","
  ++ Py.str_of_int c ++ lit "," ++ Py.str_of_int d.

(** The calls of the [try] block of [display] for the row [line], on
    the line [y] of the window; without [boxscr] the block stops at
    [self.boxscr]. *)
Definition row_calls (s : editor) (y : Z) (line : Z * Z * str) : list draw :=
  [stdscr_move y 0; stdscr_clrtoeol]
  ++ (if pw_mode s then [] else [stdscr_addstr y 0 (snd line)])
  ++ (if has_boxscr s
      then [boxscr_addstr 0 0 (format4 (space_counter s) (cur_pos_x s)
                                       (buffer_idx_x s) (buf_length s));
            boxscr_clrtoeol]
      else []).

(** The calls made of [cs], the first that raises being the last, and
    whether one raised. *)
Fixpoint attempt (raises : draw -> bool) (cs : list draw) : list draw * bool :=
  match cs with
  | [] => ([], false)
  | c :: cs' =>
      if raises c then ([c], true)
      else let '(made, raised) := attempt raises cs' in (c :: made, raised)
  end.

(** The [for] loop of [display]: the calls it makes and the state it
    leaves. Where the [try] block raises, by a call or for want of
    [boxscr], the bare [except] calls [close], which sets the text to
    [-1], and the loop goes on. *)
Fixpoint display_rows (crs : terminal) (s : editor) (y : Z)
    (rows : list (Z * Z * str)) : list draw * editor :=
  match rows with
  | [] => ([], s)
  | line :: rows' =>
      let '(made, raised) := attempt (crs s) (row_calls s y line) in
      let s := if raised || negb (has_boxscr s) then snd (close s) else s in
      let '(made', s) := display_rows crs s (y + 1) rows' in
      (made ++ made', s)
  end.

(** [display]: the calls it makes, and the state it leaves or the
    [curses.error] of a [refresh], which is outside the [try]. *)
Definition display (crs : terminal) (s : editor) : list draw * result editor :=
  let stop := y_offset s + win_size_y s in
  let rows := Py.slice (buffer_list s) (y_offset s)
                       (if stop =? 0 then 1 else stop) in
  let '(made, s) := display_rows crs s 0 rows in
  let '(made', raised) :=
    attempt (crs s)
            ([stdscr_refresh] ++ (if box s then [boxscr_refresh] else [])
             ++ [scr_refresh]) in
  (made ++ made', if raised then Raise CursesError else Ok s).

(** ** The constructor *)

(** [Editor(scr, title, inittext, win_location, win_size, box,
    max_text_size, pw_mode)], [scr.getmaxyx()] returning [maxyx]:
    [win_init], [text_init] and [display]. ([box_init] draws the box
    and the title, [keys_init] is [keys].) *)
Definition init (crs : terminal) (maxyx : Z * Z) (title_ inittext : str)
    (win_size : Z * Z) (box_ : bool) (max_text_size_ : Z) (pw_mode_ : bool)
  : result editor :=
  s <- text_init (lor_ inittext (lit " "))
         (win_init maxyx
            (pre_init title_ win_size box_ max_text_size_ pw_mode_)) ;;
  snd (display crs s).

(** ** The main loop *)

(** What a round of the loop of [run] leaves: the session goes on in
    a new state, or ends with the value of [exit]. *)
Inductive outcome :=
| Editing (s : editor)
| Finished (v : exit_value).

(** The key [c] read and handled, as the loop of [run] does between
    [stdscr.move] and [display]: [get_key], then the [break] or
    [buffer_set]. *)
Definition step (maxyx : Z * Z) (c : key) (s : editor) : result outcome :=
  '(loop, s) <- get_key maxyx c s ;;
  match loop with
  | RFalse | RMinus1 => Ok (Finished (exit s))
  | RNone | RTrue =>
      s <- buffer_set s ;;
      Ok (Editing s)
  end.

(** One round of the loop of [run] on the key [c]: [stdscr.move] to
    the cursor, whose [curses.error] nothing catches, the key, and
    [display]. *)
Definition round (crs : terminal) (maxyx : Z * Z) (c : key) (s : editor)
  : result outcome :=
  if crs s (stdscr_move (cur_pos_y s) (cur_pos_x s)) then Raise CursesError
  else
    o <- step maxyx c s ;;
    match o with
    | Editing s => s <- snd (display crs s) ;; Ok (Editing s)
    | Finished v => Ok (Finished v)
    end.

(** [run] on the keys [cs]: the state it is in when the keys are
    used up, or the value it returned. *)
Fixpoint run (crs : terminal) (maxyx : Z * Z) (cs : list key) (s : editor)
  : result outcome :=
  match cs with
  | [] => Ok (Editing s)
  | c :: cs' =>
      o <- round crs maxyx c s ;;
      match o with
      | Editing s' => run crs maxyx cs' s'
      | Finished v => Ok (Finished v)
      end
  end.

(** The states of a session: the one the constructor builds, and the
    ones the loop of [run] is in after a round. *)
Inductive reachable : editor -> Prop :=
| reachable_init crs maxyx title_ inittext win_size box_ cap pw s :
    init crs maxyx title_ inittext win_size box_ cap pw = Ok s ->
    reachable s
| reachable_round crs maxyx c s s' :
    reachable s ->
    round crs maxyx c s = Ok (Editing s') ->
    reachable s'.

(** The keys of the examples. *)
Definition KEY_BACKSPACE := KInt 263.
Definition KEY_END := KInt 360.
Definition KEY_ENTER := KInt 343.
Definition KEY_DC := KInt 330.
Definition KEY_RIGHT := KInt 261.
Definition char (c : string) : key := KStr (lit c).

(** The editor of the examples: a terminal of 24 rows and 80 columns
    on which no call raises, a box, the title [t], a window of 20
    rows and 40 columns, no row cap. *)
Definition screen : Z * Z := (24, 80).

Definition editor_on (inittext : string) : result editor :=
  init quiet screen (lit "t") (lit inittext) (20, 40) true 0 false.

Definition session (inittext : string) (cs : list key) : result outcome :=
  s <- editor_on inittext ;; run quiet screen cs s.

(** * Properties *)

(** ** Generalities *)

Lemma bind_Ok {A B : Type} (m : result A) (k : A -> result B) (b : B) :
  (x <- m ;; k x) = Ok b -> exists a, m = Ok a /\ k a = Ok b.
Proof.
  destruct m as [a|e]; simpl; intros H; [eauto | discriminate].
Qed.

Lemma run_app crs maxyx cs1 cs2 s s1 :
  run crs maxyx cs1 s = Ok (Editing s1) ->
  run crs maxyx (cs1 ++ cs2) s = run crs maxyx cs2 s1.
Proof.
  revert s. induction cs1 as [|c cs1 IH]; simpl; intros s H.
  - now inversion H.
  - destruct (round crs maxyx c s) as [[s'|v]|e]; simpl in *; try discriminate.
    now apply IH.
Qed.

Lemma reachable_run crs maxyx cs s s' :
  reachable s -> run crs maxyx cs s = Ok (Editing s') -> reachable s'.
Proof.
  revert s. induction cs as [|c cs IH]; simpl; intros s Hs H.
  - inversion H; now subst.
  - destruct (round crs maxyx c s) as [[s1|v]|e] eqn:E; simpl in H;
      try discriminate.
    eapply IH; [|exact H]. eapply reachable_round; eauto.
Qed.

Lemma reachable_session inittext cs s :
  session inittext cs = Ok (Editing s) -> reachable s.
Proof.
  unfold session, editor_on. intros H.
  apply bind_Ok in H as (s0 & H0 & H).
  eapply reachable_run; [|exact H]. eapply reachable_init; exact H0.
Qed.

(** *** What [display] does to the state *)

Lemma attempt_quiet (raises : draw -> bool) cs :
  (forall c, raises c = false) -> attempt raises cs = (cs, false).
Proof.
  intros Q. induction cs as [|c cs IH]; [reflexivity|].
  cbn [attempt]. now rewrite Q, IH.
Qed.

(** [display] changes nothing but the text, and that to [-1]. *)
Lemma display_rows_state crs : forall rows s y,
  snd (display_rows crs s y rows) = s
  \/ snd (display_rows crs s y rows) = set_text TextMinus1 s.
Proof.
  induction rows as [|line rows IH]; intros s y; [now left|].
  cbn [display_rows].
  destruct (attempt (crs s) (row_calls s y line)) as [made raised].
  set (s1 := if raised || negb (has_boxscr s) then snd (close s) else s).
  specialize (IH s1 (y + 1)).
  destruct (display_rows crs s1 (y + 1) rows) as [made' s2]. cbn [snd] in *.
  subst s1. destruct (raised || negb (has_boxscr s)); cbn [close snd] in IH.
  - right. destruct IH as [->| ->]; reflexivity.
  - exact IH.
Qed.

Lemma display_state crs s s' :
  snd (display crs s) = Ok s' -> s' = s \/ s' = set_text TextMinus1 s.
Proof.
  unfold display. intros H.
  pose proof (display_rows_state crs
                (Py.slice (buffer_list s) (y_offset s)
                   (if y_offset s + win_size_y s =? 0 then 1
                    else y_offset s + win_size_y s)) s 0) as D.
  destruct (display_rows crs s 0 _) as [made s1]. cbn [snd] in *.
  destruct (attempt (crs s1) _) as [made' raised]. cbn [snd] in H.
  destruct raised; [discriminate H|]. inversion H; subst s'. exact D.
Qed.

(** Where no call raises and the editor has the window [boxscr],
    [display] returns and leaves the state as it is. *)
Definition calm (crs : terminal) : Prop := forall s c, crs s c = false.

Lemma display_rows_calm crs : calm crs -> forall rows s y,
  has_boxscr s = true -> snd (display_rows crs s y rows) = s.
Proof.
  intros Q. induction rows as [|line rows IH]; intros s y B; [reflexivity|].
  cbn [display_rows]. rewrite (attempt_quiet (crs s)) by apply Q.
  rewrite B. cbn [orb negb]. specialize (IH s (y + 1) B).
  now destruct (display_rows crs s (y + 1) rows).
Qed.

Lemma display_calm crs s :
  calm crs -> has_boxscr s = true -> snd (display crs s) = Ok s.
Proof.
  intros Q B. unfold display.
  pose proof (display_rows_calm crs Q
                (Py.slice (buffer_list s) (y_offset s)
                   (if y_offset s + win_size_y s =? 0 then 1
                    else y_offset s + win_size_y s)) s 0 B) as D.
  destruct (display_rows crs s 0 _) as [made s1]. cbn [snd] in D. subst s1.
  rewrite (attempt_quiet (crs s)) by apply Q. reflexivity.
Qed.


(** The constructor, in its parts. *)
Lemma init_Ok crs maxyx title_ inittext win_size box_ cap pw s :
  init crs maxyx title_ inittext win_size box_ cap pw = Ok s ->
  exists s0,
    text_init (lor_ inittext (lit " "))
      (win_init maxyx (pre_init title_ win_size box_ cap pw)) = Ok s0
    /\ (s = s0 \/ s = set_text TextMinus1 s0).
Proof.
  unfold init. intros H. apply bind_Ok in H as (s0 & T & D).
  exists s0. split; [exact T|]. now apply display_state in D.
Qed.

(** The methods make no window and drop none: the editor has the
    window [boxscr] after them if it had it before. *)
Lemma buffer_set_boxscr s s' :
  buffer_set s = Ok s' -> has_boxscr s' = has_boxscr s.
Proof.
  unfold buffer_set. intros H.
  apply bind_Ok in H as (d & _ & H).
  apply bind_Ok in H as (m & _ & H).
  apply bind_Ok in H as (e & _ & H).
  inversion H; subst s'. reflexivity.
Qed.



(** A round of the loop, where no call raises and the editor has the
    window [boxscr], is [get_key] and [buffer_set]. *)
Lemma round_calm crs maxyx c s o :
  calm crs ->
  step maxyx c s = Ok o ->
  (forall s', o = Editing s' -> has_boxscr s' = true) ->
  round crs maxyx c s = Ok o.
Proof.
  intros Q S B. unfold round. rewrite Q, S. cbn [bind].
  destruct o as [s'|v]; [|reflexivity].
  rewrite display_calm; [reflexivity|exact Q|now apply B].
Qed.

(** ** A key that is not bound *)

(** C10. An [int] key code that [keys] does not bind falls through
    to [insert_char], which returns at once: [get_key] answers [True]
    and the state (document, cursor, offsets, space counter and all
    the rest) is the one it was given. *)
Theorem insert_char_int_is_noop maxyx n s :
  keys (KInt n) = None ->
  insert_char (KInt n) s = Ok s /\ get_key maxyx (KInt n) s = Ok (RTrue, s).
Proof.
  intros H. unfold get_key. rewrite H. simpl. split; reflexivity.
Qed.

Lemma insert_char_int_is_noop_witness :
  exists s, editor_on "a" = Ok s
    /\ insert_char (KInt 0) s = Ok s
    /\ get_key screen (KInt 0) s = Ok (RTrue, s).
Proof.
  eexists. split; [vm_compute; reflexivity|].
  apply insert_char_int_is_noop. reflexivity.
Defined.

(** ** Enter *)

(** [buffer_set] counts the rows of the document. *)
Lemma buffer_set_num_rows s s' d :
  buffer_set s = Ok s' -> text s' = Doc d ->
  num_rows s' = Py.sum (map (fun i => len i) d).
Proof.
  unfold buffer_set, doc_of. intros H Hd.
  destruct (text s) as [d0| |] eqn:E; simpl in H; try discriminate.
  apply bind_Ok in H as (m & _ & H).
  apply bind_Ok in H as (e & _ & H).
  inversion H; subst s'; simpl in *. congruence.
Qed.




(** C7. [insert_line_or_quit] compares the row count with the cap by
    [==], and [insert_char] does not look at the cap. With a cap of
    2, in a window that wraps at 5 columns, typing [x] at the end of
    the first of the lines [ab cd] and [ef] leaves three rows, one
    more than the cap. Enter there is no no-op: it breaks the line,
    the document has four rows, and the cursor has moved from (1, 3)
    to (2, 0). *)
Theorem enter_past_the_row_cap :
  exists s0 s s',
    init quiet screen (lit "t") (lit "ab cd" ++ ["010"%char] ++ lit "ef")
         (20, 7) true 2 false = Ok s0
    /\ run quiet screen [KEY_END; char "x"] s0 = Ok (Editing s)
    /\ text s = Doc [[lit "ab "; lit "cdx"]; [lit "ef"]]
    /\ (num_rows s, max_text_size s) = (3, 2)
    /\ (cur_pos_y s, cur_pos_x s) = (1, 3)
    /\ step screen KEY_ENTER s = Ok (Editing s')
    /\ text s' = Doc [[lit "ab "; lit "cdx"]; [[]]; [lit "ef"]]
    /\ (num_rows s', max_text_size s') = (4, 2)
    /\ (cur_pos_y s', cur_pos_x s') = (2, 0).
Proof.
  do 3 eexists. split; [vm_compute; reflexivity|].
  split; [vm_compute; reflexivity|].
  do 3 (split; [reflexivity|]).
  split; [vm_compute; reflexivity|]. repeat split.
Qed.

(** Where the document has exactly as many rows as the cap, in a
    state the loop has rebuilt and with a cap that is neither 1 nor
    0, [insert_line_or_quit] answers [None] and leaves the state
    (document, cursor, offsets) as it is, and so does the round of
    the loop on a key bound to it. *)
Lemma enter_at_the_row_cap maxyx c s d :
  keys c = Some h_insert_line_or_quit ->
  buffer_set s = Ok s ->
  text s = Doc d ->
  max_text_size s <> 1 ->
  max_text_size s <> 0 ->
  Py.sum (map (fun i => len i) d) = max_text_size s ->
  insert_line_or_quit s = Ok (RNone, s)
  /\ step maxyx c s = Ok (Editing s).
Proof.
  intros Hk Hb Hd H1 H0 Hn.
  assert (E : insert_line_or_quit s = Ok (RNone, s)).
  { unfold insert_line_or_quit.
    rewrite (buffer_set_num_rows s s d Hb Hd), Hn.
    destruct (Z.eqb_spec (max_text_size s) 1) as [?|_]; [contradiction|].
    now rewrite Z.eqb_refl. }
  split; [exact E|].
  unfold step, get_key. rewrite Hk. simpl. rewrite E. simpl. now rewrite Hb.
Qed.

(** Two lines, the cap 2. *)
Definition capped : result editor :=
  init quiet screen (lit "t") (lit "one" ++ ["010"%char] ++ lit "two") (20, 40) true 2 false.

Lemma enter_at_the_row_cap_witness :
  exists s, capped = Ok s
    /\ text s = Doc [[lit "one"]; [lit "two"]]
    /\ insert_line_or_quit s = Ok (RNone, s)
    /\ step screen KEY_ENTER s = Ok (Editing s).
Proof.
  eexists. split; [vm_compute; reflexivity|].
  split; [reflexivity|].
  match goal with |- insert_line_or_quit ?s = _ /\ _ =>
    apply (enter_at_the_row_cap screen KEY_ENTER s [[lit "one"]; [lit "two"]])
  end; try reflexivity; simpl; lia.
Defined.

(** ** Typing *)

(** C1. On the document [a] with the cursor at its start, typing [b]
    makes the row [ba]; the rewrap drops nothing, and [insert_char]
    still appends a space: the row is left as [ba ], one character
    more than was typed, and the space counter is 1. *)
Theorem insert_char_appends_a_space :
  exists s s',
    editor_on "a" = Ok s
    /\ text s = Doc [[lit "a"]] /\ cur_pos_x s = 0
    /\ insert_char (char "b") s = Ok s'
    /\ text s' = Doc [[lit "ba "]] /\ space_counter s' = 1
    /\ exit s' = ExitText (lit "ba ").
Proof.
  do 2 eexists. split; [vm_compute; reflexivity|].
  do 2 (split; [reflexivity|]).
  split; [vm_compute; reflexivity|].
  repeat split.
Qed.

(** C5. After [b] was typed into [a], the document is [ba ] and the
    cursor is at column 1, inside the row. Typing [c] and then
    Backspace leaves the cursor where it was but the document [ba]:
    the space at the end of the row is gone. *)
Theorem backspace_after_insert_changes_text :
  exists s s1 s2,
    session "a" [char "b"] = Ok (Editing s)
    /\ text s = Doc [[lit "ba "]]
    /\ (cur_pos_y s, cur_pos_x s, y_offset s) = (0, 1, 0)
    /\ step screen (char "c") s = Ok (Editing s1)
    /\ text s1 = Doc [[lit "bca  "]]
    /\ step screen KEY_BACKSPACE s1 = Ok (Editing s2)
    /\ text s2 = Doc [[lit "ba"]]
    /\ (cur_pos_y s2, cur_pos_x s2, y_offset s2) = (0, 1, 0).
Proof.
  do 3 eexists. split; [vm_compute; reflexivity|].
  do 2 (split; [reflexivity|]).
  split; [vm_compute; reflexivity|].
  split; [reflexivity|].
  split; [vm_compute; reflexivity|].
  repeat split.
Qed.

(** The same in a document that was only read in: in a window that
    wraps at 5 columns, [ab cd ef] is the rows [ab cd] and [ef]. With
    the cursor between [c] and [d], typing [x] wraps [cxd] down and
    sends the cursor to the end of the row above; Backspace then
    deletes the space there, and the [x] stays. *)
Example backspace_after_insert_keeps_the_char :
  exists s0 s s2,
    init quiet screen (lit "t") (lit "ab cd ef") (20, 7) true 0 false = Ok s0
    /\ text s0 = Doc [[lit "ab cd"; lit "ef"]]
    /\ run quiet screen [KEY_RIGHT; KEY_RIGHT; KEY_RIGHT; KEY_RIGHT] s0 = Ok (Editing s)
    /\ (cur_pos_y s, cur_pos_x s) = (0, 4)
    /\ run quiet screen [char "x"; KEY_BACKSPACE] s = Ok (Editing s2)
    /\ text s2 = Doc [[lit "ab"; lit "cxd"; lit "ef"]]
    /\ (cur_pos_y s2, cur_pos_x s2) = (0, 2).
Proof.
  do 3 eexists. split; [vm_compute; reflexivity|].
  split; [reflexivity|].
  split; [vm_compute; reflexivity|].
  split; [reflexivity|].
  split; [vm_compute; reflexivity|].
  repeat split.
Qed.

(** C9. The character [x] is not bound, so [get_key] hands it to
    [insert_char]. In the document [a], End and Backspace twice leave
    the document without a line; [x] typed then raises [IndexError],
    which leaves [get_key], the round of the loop and [run]. *)
Theorem unbound_key_raises_IndexError :
  keys (char "x") = None
  /\ exists s,
      session "a" [KEY_END; KEY_BACKSPACE; KEY_BACKSPACE] = Ok (Editing s)
      /\ text s = Doc []
      /\ insert_char (char "x") s = Raise IndexError
      /\ get_key screen (char "x") s = Raise IndexError
      /\ step screen (char "x") s = Raise IndexError
      /\ session "a" [KEY_END; KEY_BACKSPACE; KEY_BACKSPACE; char "x"]
         = Raise IndexError.
Proof.
  split; [reflexivity|].
  eexists. split; [vm_compute; reflexivity|].
  repeat split; vm_compute; reflexivity.
Qed.

(** A key that is not bound goes to [insert_char], and [get_key]
    answers [True] when [insert_char] returns. *)
Lemma get_key_unbound maxyx c s :
  keys c = None ->
  get_key maxyx c s = (s' <- insert_char c s ;; Ok (RTrue, s')).
Proof.
  intros H. unfold get_key. now rewrite H.
Qed.

(** ** The masked display *)

Definition set_pw_mode (v : bool) (s : editor) : editor :=
  {| space_counter := space_counter s; title := title s; box := box s;
     max_text_size := max_text_size s; pw_mode := v;
     resize_flag := resize_flag s;
     win_size_orig_y := win_size_orig_y s;
     win_size_orig_x := win_size_orig_x s;
     win_size_y := win_size_y s; win_size_x := win_size_x s;
     x_scroll := x_scroll s;
     max_win_size_y := max_win_size_y s;
     max_win_size_x := max_win_size_x s;
     cur_pos_y := cur_pos_y s; cur_pos_x := cur_pos_x s;
     y_offset := y_offset s; x_offset := x_offset s;
     buffer_idx_y := buffer_idx_y s; buffer_idx_x := buffer_idx_x s;
     text := text s; max_cols := max_cols s; num_rows := num_rows s;
     buffer_list := buffer_list s; buf_length := buf_length s |}.

(** The flag set in what a method leaves. *)
Definition masked (v : bool) (m : result editor) : result editor :=
  s <- m ;; Ok (set_pw_mode v s).



Section Masked.
Variable v : bool.










(** What the methods read is the same in both states, and the
    flag can be set after the attributes as well as before. *)
Lemma masked_fields s :
  (space_counter (set_pw_mode v s) = space_counter s)
  /\ (max_text_size (set_pw_mode v s) = max_text_size s)
  /\ (win_size_y (set_pw_mode v s) = win_size_y s)
  /\ (win_size_x (set_pw_mode v s) = win_size_x s)
  /\ (x_scroll (set_pw_mode v s) = x_scroll s)
  /\ (cur_pos_y (set_pw_mode v s) = cur_pos_y s)
  /\ (cur_pos_x (set_pw_mode v s) = cur_pos_x s)
  /\ (y_offset (set_pw_mode v s) = y_offset s)
  /\ (buffer_idx_y (set_pw_mode v s) = buffer_idx_y s)
  /\ (buffer_idx_x (set_pw_mode v s) = buffer_idx_x s)
  /\ (text (set_pw_mode v s) = text s)
  /\ (num_rows (set_pw_mode v s) = num_rows s)
  /\ (buffer_list (set_pw_mode v s) = buffer_list s)
  /\ (buf_length (set_pw_mode v s) = buf_length s)
  /\ (max_cols (set_pw_mode v s) = max_cols s).
Proof. repeat split. Qed.










Lemma masked_bind {A : Type} (m : result A) (k : A -> result editor) :
  masked v (x <- m ;; k x) = (x <- m ;; masked v (k x)).
Proof. now destruct m. Qed.
End Masked.


















(** The call that writes the text of a row. *)
Definition writes_row (d : draw) : bool :=
  match d with
  | stdscr_addstr _ _ _ => true
  | _ => false
  end.

(** *** The flag and [display] *)

Lemma attempt_made raises : forall cs c,
  In c (fst (attempt raises cs)) -> In c cs.
Proof.
  induction cs as [|c0 cs IH]; intros c H; [destruct H|].
  cbn [attempt] in H. destruct (raises c0).
  - destruct H as [H|[]]. now left.
  - destruct (attempt raises cs) as [made raised]. cbn [fst] in *.
    destruct H as [H|H]; [now left|right; now apply IH].
Qed.












(** What [display] writes where the flag is off: the rows in view. *)
Example display_unmasked :
  exists s, editor_on "pass" = Ok s
    /\ existsb writes_row (fst (display quiet s)) = true
    /\ In (stdscr_addstr 0 0 (lit "pass")) (fst (display quiet s)).
Proof.
  eexists. split; [vm_compute; reflexivity|].
  split; [reflexivity|]. vm_compute. tauto.
Qed.






(** ** What the navigation leaves alone *)

(** The attributes the cursor does not own: the document, the row
    cap, the window and the space counter. *)
Definition same_document (s s' : editor) : Prop :=
  text s' = text s
  /\ max_text_size s' = max_text_size s
  /\ win_size_y s' = win_size_y s
  /\ win_size_x s' = win_size_x s
  /\ x_offset s' = x_offset s
  /\ space_counter s' = space_counter s.

Lemma same_document_refl s : same_document s s.
Proof. repeat split. Qed.

Lemma same_document_trans s1 s2 s3 :
  same_document s1 s2 -> same_document s2 s3 -> same_document s1 s3.
Proof.
  unfold same_document. intros (?&?&?&?&?&?) (?&?&?&?&?&?).
  repeat split; congruence.
Qed.

Lemma buffer_set_same s s' : buffer_set s = Ok s' -> same_document s s'.
Proof.
  unfold buffer_set. intros H.
  apply bind_Ok in H as (d & _ & H).
  apply bind_Ok in H as (m & _ & H).
  apply bind_Ok in H as (e & _ & H).
  inversion H; subst s'. repeat split.
Qed.

Lemma end_of_line_check_same s s' :
  end_of_line_check s = Ok s' -> same_document s s'.
Proof.
  unfold end_of_line_check. intros H.
  apply bind_Ok in H as (s1 & H1 & H). apply buffer_set_same in H1.
  inversion H; subst s'.
  destruct (buf_length s1 <? cur_pos_x s1); [|exact H1].
  eapply same_document_trans; [exact H1|]. repeat split.
Qed.

Lemma up_same s s' : up s = Ok s' -> same_document s s'.
Proof.
  unfold up. intros H. apply end_of_line_check_same in H.
  destruct (0 <? cur_pos_y s); exact H.
Qed.

Lemma down_same s s' : down s = Ok s' -> same_document s s'.
Proof.
  unfold down. intros H.
  destruct ((cur_pos_y s <? win_size_y s - 1)
            && (buffer_idx_y s <? num_rows s - 1)).
  - apply end_of_line_check_same in H. exact H.
  - destruct (buffer_idx_y s =? num_rows s - 1).
    + inversion H. apply same_document_refl.
    + apply end_of_line_check_same in H. exact H.
Qed.

Lemma left_same s s' : left s = Ok s' -> same_document s s'.
Proof.
  unfold left. intros H.
  destruct (0 <? cur_pos_x s); [inversion H; repeat split|].
  destruct (0 <? cur_pos_y s); [|inversion H; apply same_document_refl].
  apply bind_Ok in H as (s1 & H1 & H).
  apply up_same in H1. apply end_of_line_check_same in H.
  eapply same_document_trans; [exact H1|exact H].
Qed.

Lemma right_same s s' : right s = Ok s' -> same_document s s'.
Proof.
  unfold right. intros H.
  destruct (cur_pos_x s <? buf_length s); [inversion H; repeat split|].
  destruct (buffer_idx_y s <? num_rows s - 1);
    [|inversion H; apply same_document_refl].
  apply down_same in H. exact H.
Qed.

Lemma page_up_same s s' : page_up s = Ok s' -> same_document s s'.
Proof. intros H. apply end_of_line_check_same in H. exact H. Qed.

Lemma page_down_same s s' : page_down s = Ok s' -> same_document s s'.
Proof. intros H. apply end_of_line_check_same in H. exact H. Qed.

Lemma word_wrap_jump_same w w' s s' :
  word_wrap_jump w w' s = Ok s' -> same_document s s'.
Proof.
  unfold word_wrap_jump. intros H.
  destruct (negb (Py.str_eqb w w') && negb (is_nil w));
    [|inversion H; apply same_document_refl].
  apply bind_Ok in H as (above & _ & H).
  destruct (Py.endswith (snd above) w
            || Py.endswith (snd above) (Py.slice_to w (-1))).
  - apply bind_Ok in H as (s1 & H1 & H). apply up_same in H1.
    inversion H; subst s'.
    eapply same_document_trans; [exact H1|]. repeat split.
  - apply bind_Ok in H as (here & _ & H).
    destruct (Py.startswith (snd here) w
              || Py.startswith (snd here) (Py.slice_to w (-1)));
      inversion H; repeat split.
Qed.

(** ** The lines of the document *)

(** The document has a line. *)
Definition has_a_line (s : editor) : Prop :=
  exists line d, text s = Doc (line :: d).

Lemma has_a_line_same s s' :
  same_document s s' -> has_a_line s -> has_a_line s'.
Proof.
  intros (T & _) (line & d & H). exists line, d. congruence.
Qed.

Lemma getitem_cons {A : Type} (l : list A) i x :
  Py.getitem l i = Ok x -> exists y l', l = y :: l'.
Proof.
  unfold Py.getitem. intros H. apply bind_Ok in H as (k & _ & H).
  destruct l as [|y l']; [now destruct k|eauto].
Qed.

Lemma setitem_cons {A : Type} (l : list A) i v l1 :
  Py.setitem l i v = Ok l1 -> exists y l', l1 = y :: l'.
Proof.
  unfold Py.setitem. intros H. apply bind_Ok in H as (k & _ & H).
  inversion H. destruct (firstn k l); simpl; eauto.
Qed.

Lemma insert_cons {A : Type} (l : list A) i v :
  exists y l', Py.insert l i v = y :: l'.
Proof.
  unfold Py.insert. destruct (firstn (Py.clip l i) l); simpl; eauto.
Qed.

Lemma set_row_cons d ln r v d1 :
  set_row d ln r v = Ok d1 -> exists y l', d1 = y :: l'.
Proof.
  unfold set_row. intros H.
  apply bind_Ok in H as (l & _ & H). apply bind_Ok in H as (l1 & _ & H).
  eapply setitem_cons; exact H.
Qed.

Lemma get_row_cons d ln r v :
  get_row d ln r = Ok v -> exists y l', d = y :: l'.
Proof.
  unfold get_row. intros H. apply bind_Ok in H as (l & H & _).
  eapply getitem_cons; exact H.
Qed.

Lemma rewrap_cons s d ln d1 :
  rewrap s d ln = Ok d1 -> exists y l', d1 = y :: l'.
Proof.
  unfold rewrap. intros H.
  apply bind_Ok in H as (l & _ & H). apply bind_Ok in H as (w & _ & H).
  eapply setitem_cons; exact H.
Qed.

(** A method that ends on a document that has a line, then rebuilds
    the index and moves the cursor. *)
Lemma has_a_line_set_text y d s s' :
  same_document (set_text (Doc (y :: d)) s) s' -> has_a_line s'.
Proof.
  intros H. eapply has_a_line_same; [exact H|]. now exists y, d.
Qed.

(** Whatever [insert_char] is given, what it leaves has a line,
    unless it is given an [int] and leaves what it was given. *)
Lemma insert_char_has_a_line c s s' :
  has_a_line s -> insert_char c s = Ok s' -> has_a_line s'.
Proof.
  intros L H. destruct c as [n|c]; [inversion H; now subst|].
  unfold insert_char in H.
  apply bind_Ok in H as ([[ln r] line] & _ & H). cbv zeta in H.
  apply bind_Ok in H as (d & _ & H).
  apply bind_Ok in H as (d1 & _ & H).
  apply bind_Ok in H as (row & _ & H).
  apply bind_Ok in H as (d2 & H2 & H).
  apply bind_Ok in H as (row2 & _ & H).
  apply bind_Ok in H as (d3 & H3 & H).
  apply bind_Ok in H as (s1 & B & H).
  apply bind_Ok in H as (s2 & R & H).
  apply buffer_set_same in B. apply right_same in R.
  apply word_wrap_jump_same in H.
  assert (C : exists y l', d3 = y :: l').
  { destruct (space_counter _ =? 0) in H3.
    - inversion H3; subst d3. eapply rewrap_cons; exact H2.
    - apply bind_Ok in H3 as ([[ln' r'] line'] & _ & H3).
      apply bind_Ok in H3 as (row3 & _ & H3).
      eapply set_row_cons; exact H3. }
  destruct C as (y & l' & ->).
  eapply has_a_line_set_text.
  eapply same_document_trans; [exact B|].
  eapply same_document_trans; [exact R|exact H].
Qed.

Lemma insert_tab_has_a_line s s' :
  has_a_line s -> insert_tab s = Ok s' -> has_a_line s'.
Proof.
  unfold insert_tab. cbn [seq fold_left bind]. intros L H.
  apply bind_Ok in H as (s3 & H & H4).
  apply bind_Ok in H as (s2 & H & H3).
  apply bind_Ok in H as (s1 & H1 & H2).
  eauto using insert_char_has_a_line.
Qed.

Lemma insert_line_or_quit_has_a_line s r s' :
  has_a_line s -> insert_line_or_quit s = Ok (r, s') -> has_a_line s'.
Proof.
  unfold insert_line_or_quit. intros L H.
  destruct (max_text_size s =? 1); [inversion H; now subst|].
  destruct (num_rows s =? max_text_size s); [inversion H; now subst|].
  apply bind_Ok in H as ([[ln r0] line] & _ & H). cbv zeta in H.
  apply bind_Ok in H as (d & _ & H).
  apply bind_Ok in H as (l & _ & H).
  apply bind_Ok in H as (d1 & _ & H).
  apply bind_Ok in H as (s1 & B & H).
  apply bind_Ok in H as (s2 & D & H).
  inversion H; subst s2 r.
  apply buffer_set_same in B. apply down_same in D.
  match type of B with
  | same_document (set_text (Doc ?x) _) _ =>
      destruct (insert_cons (Py.insert d1 ln (Py.insert (Py.slice_from l (r0 + 1)) 0
                                               (Py.slice_from line (cur_pos_x s))))
                            ln (Py.slice_to l r0 ++ [Py.slice_to line (cur_pos_x s)]))
        as (y & l' & E)
  end.
  rewrite E in B.
  eapply has_a_line_set_text.
  eapply same_document_trans; [exact B|].
  eapply same_document_trans; [|exact D]. repeat split.
Qed.

Lemma del_char_has_a_line s s' : del_char s = Ok s' -> has_a_line s'.
Proof.
  unfold del_char. intros H.
  apply bind_Ok in H as ([[ln r] line] & _ & H).
  apply bind_Ok in H as (line1 & _ & H).
  apply bind_Ok in H as (d & _ & H).
  apply bind_Ok in H as (d1 & _ & H).
  apply bind_Ok in H as (d2 & W & H).
  inversion H. apply rewrap_cons in W as (y & l' & ->). now exists y, l'.
Qed.

Lemma del_to_eol_has_a_line s s' : del_to_eol s = Ok s' -> has_a_line s'.
Proof.
  unfold del_to_eol. intros H.
  apply bind_Ok in H as ([[ln r] line] & _ & H).
  apply bind_Ok in H as (d & _ & H).
  apply bind_Ok in H as (d1 & W & H).
  inversion H. apply set_row_cons in W as (y & l' & ->). now exists y, l'.
Qed.

Lemma del_to_bol_has_a_line s s' : del_to_bol s = Ok s' -> has_a_line s'.
Proof.
  unfold del_to_bol. intros H.
  apply bind_Ok in H as ([[ln r] line] & _ & H).
  apply bind_Ok in H as (d & _ & H).
  apply bind_Ok in H as (d1 & W & H).
  inversion H. apply set_row_cons in W as (y & l' & ->). now exists y, l'.
Qed.

(** The cursor is at column 0 of buffer row 0, and that row is
    empty: the third branch of [backspace]. *)
Definition at_empty_top (s : editor) : bool :=
  (cur_pos_x s =? 0) && (buffer_idx_y s =? 0)
  && match Py.getitem (buffer_list s) (buffer_idx_y s) with
     | Ok e => is_nil (snd e)
     | Raise _ => false
     end.

Lemma backspace_has_a_line s r s' :
  at_empty_top s = false -> backspace s = Ok (r, s') -> has_a_line s'.
Proof.
  unfold backspace, at_empty_top. intros T H.
  apply bind_Ok in H as ([[ln r0] line] & G & H). rewrite G in T. simpl in T.
  apply bind_Ok in H as (d & _ & H).
  apply bind_Ok in H as ([[[s1 d1] ln1] goes_on] & Br & H).
  destruct goes_on.
  - apply bind_Ok in H as (row & _ & H). cbv zeta in H.
    apply bind_Ok in H as (d2 & W & H).
    apply bind_Ok in H as (w' & _ & H).
    apply bind_Ok in H as (s2 & B & H).
    apply bind_Ok in H as (s3 & J & H).
    inversion H; subst s3.
    apply rewrap_cons in W as (y & l' & ->).
    apply buffer_set_same in B. apply word_wrap_jump_same in J.
    eapply has_a_line_set_text.
    eapply same_document_trans; [exact B|exact J].
  - exfalso.
    destruct (0 <? cur_pos_x s).
    { apply bind_Ok in Br as ([line1 s2] & _ & Br).
      apply bind_Ok in Br as (d2 & _ & Br).
      apply bind_Ok in Br as (s3 & _ & Br). discriminate Br. }
    destruct ((cur_pos_x s =? 0) && (0 <? buffer_idx_y s)).
    { apply bind_Ok in Br as (s2 & _ & Br). cbv zeta in Br.
      apply bind_Ok in Br as ([[ln0 r1] line0] & _ & Br).
      apply bind_Ok in Br as (d2 & _ & Br). discriminate Br. }
    rewrite T in Br. discriminate Br.
Qed.

(** At the empty top row [backspace] deletes the line of the row,
    and nothing else. *)
Lemma backspace_at_empty_top s r s' :
  at_empty_top s = true -> backspace s = Ok (r, s') ->
  exists ln r0 d d',
    Py.getitem (buffer_list s) (buffer_idx_y s) = Ok (ln, r0, [])
    /\ text s = Doc d /\ Py.delitem d ln = Ok d'
    /\ r = RNone /\ s' = set_text (Doc d') s.
Proof.
  unfold backspace, at_empty_top. intros T H.
  apply bind_Ok in H as ([[ln r0] line] & G & H). rewrite G in T. simpl in T.
  apply andb_prop in T as (T & N). apply andb_prop in T as (X & Y).
  destruct line; [|discriminate N].
  apply bind_Ok in H as (d & D & H).
  assert (X0 : (0 <? cur_pos_x s) = false) by lia.
  assert (Y0 : (0 <? buffer_idx_y s) = false) by lia.
  rewrite X0, X, Y, Y0 in H. simpl in H.
  apply bind_Ok in H as ([[[s1 d1] ln1] goes_on] & Br & H).
  apply bind_Ok in Br as (d' & Del & Br). inversion Br; subst.
  inversion H; subst.
  exists ln1, r0, d, d1. repeat split; trivial.
  unfold doc_of in D. destruct (text s); now inversion D.
Qed.

Lemma splitlines_from_cons cur s :
  s <> [] \/ cur <> [] -> exists l t, Py.splitlines_from cur s = l :: t.
Proof.
  revert cur. induction s as [|c s IH]; intros cur H.
  - destruct H as [H|H]; [contradiction|].
    destruct cur; [contradiction|]. simpl. eauto.
  - simpl. destruct (Ascii.eqb c "013").
    + destruct s as [|d s']; [eauto|]. destruct (Ascii.eqb d "010"); eauto.
    + destruct (Py.is_linebreak c); [eauto|].
      apply IH. right. discriminate.
Qed.

Lemma map_result_cons {A B : Type} (f : A -> result B) x t l :
  map_result f (x :: t) = Ok l -> exists y l', l = y :: l' /\ f x = Ok y.
Proof.
  simpl. intros H. apply bind_Ok in H as (y & F & H).
  apply bind_Ok in H as (ys & _ & H). inversion H. eauto.
Qed.

Lemma text_init_has_a_line txt s s' :
  txt <> [] -> text_init txt s = Ok s' -> has_a_line s'.
Proof.
  unfold text_init, Py.splitlines_keepends. intros N H.
  destruct (splitlines_from_cons [] txt (or_introl N)) as (l & t & E).
  rewrite E in H.
  apply bind_Ok in H as (d & D & H).
  apply bind_Ok in H as (s1 & B & H).
  apply buffer_set_same in B.
  assert (C : exists y d', d = y :: d').
  { destruct (x_scroll s); [inversion D; eauto|].
    apply map_result_cons in D as (y & d' & -> & _). eauto. }
  destruct C as (y & d' & ->).
  assert (L : has_a_line s1) by (eapply has_a_line_set_text; exact B).
  inversion H.
  destruct ((0 <? max_text_size s1) && (max_text_size s1 <? num_rows s1));
    [|exact L].
  destruct L as (y0 & d0 & L). now exists y0, d0.
Qed.

(** The constructor returns with a document that has a line, or,
    where its [display] called [close], with the text [-1]. *)
Lemma init_has_a_line crs maxyx title_ inittext win_size box_ cap pw s :
  init crs maxyx title_ inittext win_size box_ cap pw = Ok s ->
  text s = TextMinus1 \/ has_a_line s.
Proof.
  intros H. apply init_Ok in H as (s0 & T & [->| ->]); [right|now left].
  eapply text_init_has_a_line; [|exact T].
  destruct inittext; discriminate.
Qed.

(** [del l[i]] takes [l[i]] out of the list, and nothing else. *)
Lemma nth_error_delete {A : Type} : forall (l : list A) k x,
  nth_error l k = Some x ->
  exists l1 l2, l = l1 ++ x :: l2 /\ firstn k l ++ skipn (S k) l = l1 ++ l2.
Proof.
  induction l as [|a l IH]; intros [|k] x N; try discriminate N.
  - inversion N; subst. exists [], l. split; reflexivity.
  - destruct (IH k x N) as (l1 & l2 & E & F).
    exists (a :: l1), l2. split; [now rewrite E|].
    change (a :: firstn k l ++ skipn (S k) l = a :: l1 ++ l2). now rewrite F.
Qed.

Lemma delitem_of_getitem {A : Type} (l : list A) i x l' :
  Py.getitem l i = Ok x -> Py.delitem l i = Ok l' ->
  exists l1 l2, l = l1 ++ x :: l2 /\ l' = l1 ++ l2.
Proof.
  unfold Py.getitem, Py.delitem. intros G D.
  destruct (Py.norm_index l i) as [k|e]; [|discriminate G]. cbn [bind] in *.
  destruct (nth_error l k) as [y|] eqn:N; [|discriminate G].
  inversion G; subst y. inversion D; subst l'.
  now apply nth_error_delete.
Qed.

(** At the top row, where it is the one row of its line and empty,
    [backspace] takes that line out of the document, and nothing
    else. *)
Lemma backspace_at_empty_line s r s' d ln r0 :
  at_empty_top s = true ->
  text s = Doc d ->
  Py.getitem (buffer_list s) (buffer_idx_y s) = Ok (ln, r0, []) ->
  Py.getitem d ln = Ok [[]] ->
  backspace s = Ok (r, s') ->
  exists d1 d2,
    d = d1 ++ [[]] :: d2 /\ r = RNone /\ s' = set_text (Doc (d1 ++ d2)) s.
Proof.
  intros T D G L H.
  destruct (backspace_at_empty_top s r s' T H)
    as (ln' & r0' & d0 & d' & G' & D' & Del & R & S).
  rewrite G in G'. inversion G'; subst ln' r0'.
  rewrite D in D'. inversion D'; subst d0.
  destruct (delitem_of_getitem d ln [[]] d' L Del) as (d1 & d2 & E & E').
  exists d1, d2. subst d'. repeat split; assumption.
Qed.

Lemma returns_None_Ok m r s :
  returns_None m = Ok (r, s) -> m = Ok s /\ r = RNone.
Proof.
  destruct m as [s1|e]; simpl; intros H; inversion H. now split.
Qed.

(** The keys bound to an editing method, and the keys that are not
    bound, which [insert_char] gets. *)
Definition edit_handler (h : handler) : bool :=
  match h with
  | h_backspace | h_insert_line_or_quit | h_del_char | h_del_to_bol
  | h_del_to_eol | h_insert_tab => true
  | _ => false
  end.

Definition edit_key (c : key) : bool :=
  match keys c with
  | Some h => edit_handler h
  | None => true
  end.

(** C4, as the specification states it, is not what the code does:
    in the document [a], End and Backspace leave one line with the
    one row [""], and Backspace there, an editing method in a state
    of the session, leaves a document without a line. *)
Lemma backspace_empties_the_document :
  ~ (forall maxyx c s s',
       reachable s -> edit_key c = true ->
       step maxyx c s = Ok (Editing s') -> has_a_line s').
Proof.
  intros H.
  assert (R : exists s, session "a" [KEY_END; KEY_BACKSPACE] = Ok (Editing s))
    by (eexists; vm_compute; reflexivity).
  destruct R as [s R].
  assert (S : exists s', step screen KEY_BACKSPACE s = Ok (Editing s')
                         /\ text s' = Doc []).
  { vm_compute in R. inversion R; subst s. eexists.
    split; [vm_compute; reflexivity|reflexivity]. }
  destruct S as (s' & S & E).
  destruct (H screen KEY_BACKSPACE s s') as (line & d & L).
  - eapply reachable_session; exact R.
  - reflexivity.
  - exact S.
  - congruence.
Qed.

(** C4, amended. The constructor returns with a document that has a
    line, or with the text [-1] where its [display] called [close].
    An editing method that returns leaves a document that has a line
    if it was given one, but for [backspace] at column 0 of buffer
    row 0 when that row is empty. There, if the row is the one row of
    its line, [backspace] takes that line out of the document and
    nothing else, which leaves no line if it was the only one. *)
Theorem edits_keep_a_line :
  (forall crs maxyx title_ inittext win_size box_ cap pw s,
      init crs maxyx title_ inittext win_size box_ cap pw = Ok s ->
      text s = TextMinus1 \/ has_a_line s)
  /\ (forall maxyx c s r s',
        edit_key c = true ->
        has_a_line s ->
        (keys c = Some h_backspace -> at_empty_top s = false) ->
        get_key maxyx c s = Ok (r, s') ->
        has_a_line s')
  /\ (forall s r s' d ln r0,
        at_empty_top s = true ->
        text s = Doc d ->
        Py.getitem (buffer_list s) (buffer_idx_y s) = Ok (ln, r0, []) ->
        Py.getitem d ln = Ok [[]] ->
        backspace s = Ok (r, s') ->
        exists d1 d2,
          d = d1 ++ [[]] :: d2
          /\ r = RNone /\ s' = set_text (Doc (d1 ++ d2)) s).
Proof.
  split; [exact init_has_a_line|]. split; [|exact backspace_at_empty_line].
  intros maxyx c s r s' E L T H.
  unfold get_key, edit_key in *.
  destruct (keys c) as [h|].
  - destruct h; try discriminate E; cbn [call] in H.
    + eapply backspace_has_a_line; [apply T; reflexivity|exact H].
    + eapply insert_line_or_quit_has_a_line; [exact L|exact H].
    + apply returns_None_Ok in H as (H & _).
      eapply del_char_has_a_line; exact H.
    + apply returns_None_Ok in H as (H & _).
      eapply del_to_bol_has_a_line; exact H.
    + apply returns_None_Ok in H as (H & _).
      eapply del_to_eol_has_a_line; exact H.
    + apply returns_None_Ok in H as (H & _).
      eapply insert_tab_has_a_line; [exact L|exact H].
  - destruct (insert_char c s) as [s1|e] eqn:I; [|discriminate H].
    inversion H; subst.
    eapply insert_char_has_a_line; [exact L|exact I].
Qed.

Lemma edits_keep_a_line_witness :
  (exists s s',
     editor_on "a" = Ok s
     /\ get_key screen (char "b") s = Ok (RTrue, s')
     /\ has_a_line s /\ has_a_line s')
  /\ (exists s s',
        session "a" [KEY_END; KEY_BACKSPACE] = Ok (Editing s)
        /\ text s = Doc [[[]]]
        /\ backspace s = Ok (RNone, s')
        /\ text s' = Doc []).
Proof.
  destruct edits_keep_a_line as (I & K & B). split.
  - assert (E : exists s, editor_on "a" = Ok s /\ text s = Doc [[lit "a"]])
      by (eexists; split; [vm_compute; reflexivity|reflexivity]).
    destruct E as (s & E & D).
    assert (G : exists s', get_key screen (char "b") s = Ok (RTrue, s')).
    { vm_compute in E. inversion E; subst s. eexists. vm_compute. reflexivity. }
    destruct G as [s' G].
    assert (L : has_a_line s).
    { unfold editor_on in E. apply I in E as [T|L]; [|exact L].
      rewrite D in T. discriminate T. }
    exists s, s'. repeat split; trivial.
    eapply (K screen (char "b") s RTrue s'); trivial; discriminate.
  - assert (E : exists s,
               session "a" [KEY_END; KEY_BACKSPACE] = Ok (Editing s)
               /\ text s = Doc [[[]]]
               /\ at_empty_top s = true
               /\ Py.getitem (buffer_list s) (buffer_idx_y s) = Ok (0, 0, [])
               /\ exists r s', backspace s = Ok (r, s')).
    { eexists. split; [vm_compute; reflexivity|]. split; [reflexivity|].
      split; [vm_compute; reflexivity|]. split; [vm_compute; reflexivity|].
      do 2 eexists. vm_compute. reflexivity. }
    destruct E as (s & E & T & A & G & r & s' & H).
    destruct (B s r s' [[[]]] 0 0 A T G eq_refl H) as (d1 & d2 & D & -> & ->).
    exists s. eexists. split; [exact E|]. split; [exact T|].
    split; [exact H|].
    destruct d1 as [|x d1].
    + destruct d2; [reflexivity|discriminate D].
    + destruct d1; discriminate D.
Defined.

(** At the empty top row of a line that has more rows the third
    branch of [backspace] deletes the line all the same: of the rows
    [ab cd] and [ef] of one line, Ctrl-K on the first and Backspace
    leave nothing. *)
Example backspace_deletes_the_rows_below :
  exists s s',
    init quiet screen (lit "t") (lit "ab cd ef") (20, 7) true 0 false = Ok s
    /\ text s = Doc [[lit "ab cd"; lit "ef"]]
    /\ run quiet screen [KStr ["011"%char]; KEY_BACKSPACE] s = Ok (Editing s')
    /\ text s' = Doc [].
Proof.
  do 2 eexists. split; [vm_compute; reflexivity|]. split; [reflexivity|].
  split; [vm_compute; reflexivity|reflexivity].
Qed.

(** ** The index of the rows *)

(** The rows of the document, in order. *)
Definition rows_of (d : list (list str)) : list str := concat d.

Lemma fold_left_add l a : fold_left Z.add l a = a + fold_left Z.add l 0.
Proof.
  revert a. induction l as [|x l IH]; intros a; simpl; [lia|].
  rewrite (IH (a + x)), (IH x). lia.
Qed.

Lemma sum_rows d : Py.sum (map (fun i => len i) d) = len (rows_of d).
Proof.
  unfold Py.sum, rows_of, len. induction d as [|l d IH]; simpl; [reflexivity|].
  rewrite fold_left_add, IH, length_app. lia.
Qed.

Lemma index_rows_snd i j line : map snd (index_rows i j line) = line.
Proof.
  revert j. induction line as [|row line IH]; intros j; simpl; [reflexivity|].
  now rewrite IH.
Qed.

Lemma index_lines_snd i d : map snd (index_lines i d) = rows_of d.
Proof.
  unfold rows_of. revert i. induction d as [|l d IH]; intros i; simpl;
    [reflexivity|].
  now rewrite map_app, index_rows_snd, IH.
Qed.

Lemma lens_rows d :
  flat_map (fun i => map (fun j => len j) i) d
  = map (fun j : str => len j) (rows_of d).
Proof.
  unfold rows_of. induction d as [|l d IH]; simpl; [reflexivity|].
  now rewrite map_app, IH.
Qed.

Lemma fold_left_max_ge l x : x <= fold_left Z.max l x.
Proof.
  revert x. induction l as [|y l IH]; intros x; simpl; [lia|].
  specialize (IH (Z.max x y)). lia.
Qed.

Lemma getitem_nth {A : Type} (l : list A) i :
  0 <= i < len l ->
  exists x, Py.getitem l i = Ok x /\ nth_error l (Z.to_nat i) = Some x.
Proof.
  unfold Py.getitem, Py.norm_index, len. intros H.
  destruct (Z.ltb_spec i 0); [lia|].
  destruct (Z.leb_spec 0 i); [|lia].
  destruct (Z.ltb_spec i (Z.of_nat (length l))); [|lia].
  simpl. destruct (nth_error l (Z.to_nat i)) as [x|] eqn:E; [eauto|].
  apply nth_error_None in E. lia.
Qed.

(** Where the document has the row the cursor is on, [buffer_set]
    returns, with the row count, the row index and the row length of
    the document and the cursor it was given. *)
Lemma buffer_set_rows s d :
  text s = Doc d ->
  0 <= cur_pos_y s + y_offset s < len (rows_of d) ->
  exists s' row,
    buffer_set s = Ok s'
    /\ nth_error (rows_of d) (Z.to_nat (cur_pos_y s + y_offset s)) = Some row
    /\ buf_length s' = len row
    /\ num_rows s' = len (rows_of d)
    /\ buffer_idx_y s' = cur_pos_y s + y_offset s
    /\ buffer_idx_x s' = cur_pos_x s + x_offset s
    /\ 0 <= max_cols s'
    /\ cur_pos_y s' = cur_pos_y s /\ cur_pos_x s' = cur_pos_x s
    /\ y_offset s' = y_offset s
    /\ buffer_list s' = index_lines 0 d
    /\ same_document s s'.
Proof.
  intros T R. unfold buffer_set, doc_of. rewrite T. cbn [bind].
  rewrite lens_rows, sum_rows.
  assert (N : exists e l, index_lines 0 d = e :: l).
  { pose proof (index_lines_snd 0 d) as E.
    destruct (index_lines 0 d) as [|e l]; [|eauto].
    simpl in E. rewrite <- E in R. unfold len in R. simpl in R. lia. }
  destruct N as (e0 & l0 & N).
  assert (L : len (index_lines 0 d) = len (rows_of d)).
  { unfold len. now rewrite <- (index_lines_snd 0 d), length_map. }
  destruct (getitem_nth (index_lines 0 d) (cur_pos_y s + y_offset s))
    as (e & G & Nth); [lia|].
  assert (M : exists m, Py.max (lor_ (map (fun j : str => len j) (rows_of d))
                                     [win_size_x s]) = Ok m /\ 0 <= m).
  { destruct (rows_of d) as [|r0 rs] eqn:E; [unfold len in R; simpl in R; lia|].
    simpl. eexists. split; [reflexivity|].
    pose proof (fold_left_max_ge (map (fun j : str => len j) rs) (len r0)).
    unfold len in *. lia. }
  destruct M as (m & M & M0). rewrite M. cbn [bind].
  unfold lor_ at 1. rewrite N. cbn [is_nil]. rewrite <- N, G. cbn [bind].
  eexists. exists (snd e). split; [reflexivity|]. cbn.
  rewrite <- (index_lines_snd 0 d).
  split; [now apply map_nth_error|].
  repeat split; trivial; cbn; try congruence.
  unfold lor_. now rewrite N.
Qed.

(** ** The bounds of the cursor *)

(** The claim of the specification: the buffer row of the cursor is
    a row of the document, and its column is within that row. *)
Definition cursor_in_bounds (s : editor) : Prop :=
  exists d row,
    text s = Doc d
    /\ 0 <= cur_pos_y s + y_offset s < len (rows_of d)
    /\ nth_error (rows_of d) (Z.to_nat (cur_pos_y s + y_offset s)) = Some row
    /\ 0 <= cur_pos_x s + x_offset s <= len row.

(** What the keys below keep, on the document [d]: the cursor is in
    bounds, on a screen row of the window, and [num_rows],
    [buffer_idx_y], [buf_length] and [buffer_list] are those of the
    document and of the cursor. *)
Record in_bounds (d : list (list str)) (s : editor) : Prop := {
  ib_text : text s = Doc d;
  ib_win : 0 <= win_size_y s;
  ib_y : 0 <= cur_pos_y s <= win_size_y s;
  ib_off : 0 <= y_offset s;
  ib_xoff : x_offset s = 0;
  ib_idx : buffer_idx_y s = cur_pos_y s + y_offset s;
  ib_rows : num_rows s = len (rows_of d);
  ib_row : buffer_idx_y s < num_rows s;
  ib_len : exists row,
      nth_error (rows_of d) (Z.to_nat (buffer_idx_y s)) = Some row
      /\ buf_length s = len row;
  ib_x : 0 <= cur_pos_x s <= buf_length s;
  ib_cols : 0 <= max_cols s;
  ib_list : buffer_list s = index_lines 0 d
}.

Lemma in_bounds_cursor d s : in_bounds d s -> cursor_in_bounds s.
Proof.
  intros []. destruct ib_len0 as (row & N & L).
  exists d, row. rewrite <- ib_idx0, ib_xoff0. repeat split; trivial; lia.
Qed.

Lemma in_bounds_set_cur_pos_x d s x :
  in_bounds d s -> 0 <= x <= buf_length s -> in_bounds d (set_cur_pos_x x s).
Proof. intros [] H. split; trivial. Qed.

(** [end_of_line_check] brings the column back within the row. *)
Lemma end_of_line_check_in_bounds d s :
  text s = Doc d ->
  0 <= win_size_y s ->
  0 <= cur_pos_y s <= win_size_y s ->
  0 <= y_offset s ->
  x_offset s = 0 ->
  cur_pos_y s + y_offset s < len (rows_of d) ->
  0 <= cur_pos_x s ->
  exists s', end_of_line_check s = Ok s' /\ in_bounds d s'.
Proof.
  intros T W Y O X R C.
  destruct (buffer_set_rows s d T) as
    (s1 & row & B & N & L & NR & IY & IX & MC & CY & CX & YO & BL & (T1 & _ & W1 & _ & X1 & _));
    [lia|].
  unfold end_of_line_check. rewrite B. cbn [bind].
  eexists. split; [reflexivity|].
  assert (I : forall x, 0 <= x <= buf_length s1 ->
                        cur_pos_x s1 = x \/ True ->
                        in_bounds d (set_cur_pos_x x s1)).
  { intros x Hx _. split; cbn; try congruence; try lia.
    exists row. split; congruence. }
  destruct (Z.ltb_spec (buf_length s1) (cur_pos_x s1)).
  - apply I; [|now right]. unfold len in L. lia.
  - replace s1 with (set_cur_pos_x (cur_pos_x s1) s1) by now destruct s1.
    apply I; [lia|now left].
Qed.

Lemma up_in_bounds d s :
  in_bounds d s -> exists s', up s = Ok s' /\ in_bounds d s'.
Proof.
  intros []. unfold up.
  destruct (Z.ltb_spec 0 (cur_pos_y s));
    apply end_of_line_check_in_bounds; cbn; trivial; lia.
Qed.

Lemma down_in_bounds d s :
  in_bounds d s -> exists s', down s = Ok s' /\ in_bounds d s'.
Proof.
  intros I. pose proof I as []. unfold down.
  destruct (Z.ltb_spec (cur_pos_y s) (win_size_y s - 1)); cbn [andb].
  - destruct (Z.ltb_spec (buffer_idx_y s) (num_rows s - 1)).
    + apply end_of_line_check_in_bounds; cbn; trivial; lia.
    + destruct (Z.eqb_spec (buffer_idx_y s) (num_rows s - 1)); [eauto|lia].
  - destruct (Z.eqb_spec (buffer_idx_y s) (num_rows s - 1)); [eauto|].
    apply end_of_line_check_in_bounds; cbn; trivial; lia.
Qed.

Lemma left_in_bounds d s :
  in_bounds d s -> exists s', left s = Ok s' /\ in_bounds d s'.
Proof.
  intros I. pose proof I as []. unfold left.
  destruct (Z.ltb_spec 0 (cur_pos_x s)).
  - eexists. split; [reflexivity|]. apply in_bounds_set_cur_pos_x; [exact I|lia].
  - destruct (Z.ltb_spec 0 (cur_pos_y s)); [|eauto].
    destruct (up_in_bounds d s I) as (s1 & U & []). rewrite U. cbn [bind].
    apply end_of_line_check_in_bounds; cbn; trivial; lia.
Qed.

Lemma right_in_bounds d s :
  in_bounds d s -> exists s', right s = Ok s' /\ in_bounds d s'.
Proof.
  intros I. pose proof I as []. unfold right.
  destruct (Z.ltb_spec (cur_pos_x s) (buf_length s)).
  - eexists. split; [reflexivity|]. apply in_bounds_set_cur_pos_x; [exact I|lia].
  - destruct (Z.ltb_spec (buffer_idx_y s) (num_rows s - 1)); [|eauto].
    apply down_in_bounds. apply in_bounds_set_cur_pos_x; [exact I|lia].
Qed.

Lemma page_up_in_bounds d s :
  in_bounds d s -> exists s', page_up s = Ok s' /\ in_bounds d s'.
Proof.
  intros []. unfold page_up.
  apply end_of_line_check_in_bounds; cbn; trivial; lia.
Qed.

Lemma page_down_in_bounds d s :
  in_bounds d s -> exists s', page_down s = Ok s' /\ in_bounds d s'.
Proof.
  intros []. unfold page_down.
  apply end_of_line_check_in_bounds; cbn; trivial; lia.
Qed.

Lemma end_in_bounds d s : in_bounds d s -> in_bounds d (end_ s).
Proof.
  intros I. pose proof I as []. apply in_bounds_set_cur_pos_x; [exact I|lia].
Qed.

Lemma home_in_bounds d s : in_bounds d s -> in_bounds d (home s).
Proof.
  intros I. pose proof I as []. apply in_bounds_set_cur_pos_x; [exact I|lia].
Qed.

(** The loop rebuilds the index after the key. *)
Lemma buffer_set_in_bounds d s :
  in_bounds d s ->
  exists s', buffer_set s = Ok s' /\ in_bounds d s'
             /\ buffer_idx_x s' = cur_pos_x s'.
Proof.
  intros [].
  destruct (buffer_set_rows s d ib_text0) as
    (s1 & row & B & N & L & NR & IY & IX & MC & CY & CX & YO & BL & (T1 & _ & W1 & _ & X1 & _));
    [lia|].
  exists s1. split; [exact B|]. split; [|lia].
  destruct ib_len0 as (row0 & N0 & L0).
  rewrite ib_idx0 in N0. assert (row0 = row) by congruence. subst row0.
  split; try congruence; try lia.
  exists row. split; congruence.
Qed.

(** *** The row under the cursor *)

Lemma index_rows_nth ln line : forall j i e,
  nth_error (index_rows ln j line) i = Some e ->
  exists row, e = (ln, j + Z.of_nat i, row) /\ nth_error line i = Some row.
Proof.
  induction line as [|row line IH]; intros j i e H; [now destruct i|].
  destruct i as [|i]; simpl in H.
  - inversion H. exists row. split; [f_equal; f_equal; lia|reflexivity].
  - apply IH in H as (row' & -> & N). exists row'.
    split; [f_equal; f_equal; lia|exact N].
Qed.

Lemma index_rows_length ln j line :
  length (index_rows ln j line) = length line.
Proof.
  revert j. induction line as [|row line IH]; intros j; simpl; [reflexivity|].
  now rewrite IH.
Qed.

(** An entry of the index is a row of a line of the document, and
    its position is the number of rows before it. *)
Lemma index_lines_nth d : forall k i e,
  nth_error (index_lines k d) i = Some e ->
  exists a b l row,
    e = (k + Z.of_nat a, Z.of_nat b, row)
    /\ nth_error d a = Some l
    /\ nth_error l b = Some row
    /\ i = (length (concat (firstn a d)) + b)%nat.
Proof.
  induction d as [|line d IH]; intros k i e H; [now destruct i|].
  cbn [index_lines] in H.
  destruct (Nat.lt_ge_cases i (length line)) as [Lt|Ge].
  - rewrite nth_error_app1 in H by now rewrite index_rows_length.
    apply index_rows_nth in H as (row & -> & N).
    exists 0%nat, i, line, row. repeat split; trivial.
    f_equal. f_equal. lia.
  - rewrite nth_error_app2, index_rows_length in H
      by now rewrite index_rows_length.
    apply IH in H as (a & b & l & row & -> & Na & Nb & E).
    exists (S a), b, l, row. repeat split; trivial.
    + f_equal. f_equal. lia.
    + cbn [firstn concat]. rewrite length_app. lia.
Qed.

Lemma firstn_length_app {A : Type} (l1 l2 : list A) :
  firstn (length l1) (l1 ++ l2) = l1.
Proof. induction l1 as [|x l1 IH]; simpl; [now destruct l2|now rewrite IH]. Qed.

Lemma skipn_length_app {A : Type} (l1 l2 : list A) :
  skipn (length l1) (l1 ++ l2) = l2.
Proof. induction l1 as [|x l1 IH]; simpl; [reflexivity|exact IH]. Qed.

Lemma skipn_S_length_app {A : Type} (l1 : list A) x l2 :
  skipn (S (length l1)) (l1 ++ x :: l2) = l2.
Proof. induction l1 as [|y l1 IH]; simpl; [reflexivity|exact IH]. Qed.

(** The rows before and after a row of a line of the document. *)
Lemma concat_split {A : Type} (d : list (list A)) a b l row :
  nth_error d a = Some l ->
  nth_error l b = Some row ->
  concat d = (concat (firstn a d) ++ firstn b l)
             ++ row :: (skipn (S b) l ++ concat (skipn (S a) d))
  /\ length (concat (firstn a d) ++ firstn b l)
     = (length (concat (firstn a d)) + b)%nat.
Proof.
  intros Na Nb.
  apply nth_error_split in Na as (d1 & d2 & -> & La).
  apply nth_error_split in Nb as (l1 & l2 & -> & Lb).
  subst a b.
  rewrite !firstn_length_app, !skipn_S_length_app.
  rewrite concat_app, length_app. cbn [concat].
  split; [|reflexivity]. now rewrite <- !app_assoc.
Qed.

(** Subscripts and slices at positions that exist. *)
Lemma getitem_at {A : Type} (l : list A) k x :
  nth_error l k = Some x -> Py.getitem l (Z.of_nat k) = Ok x.
Proof.
  intros N. assert (k < length l)%nat by (apply nth_error_Some; congruence).
  destruct (getitem_nth l (Z.of_nat k)) as (y & G & N'); [unfold len; lia|].
  rewrite Nat2Z.id in N'. congruence.
Qed.

Lemma norm_index_at {A : Type} (l : list A) k :
  (k < length l)%nat -> Py.norm_index l (Z.of_nat k) = Ok k.
Proof.
  intros H. unfold Py.norm_index, len.
  destruct (Z.ltb_spec (Z.of_nat k) 0); [lia|].
  destruct (Z.leb_spec 0 (Z.of_nat k)); [|lia].
  destruct (Z.ltb_spec (Z.of_nat k) (Z.of_nat (length l))); [|lia].
  simpl. now rewrite Nat2Z.id.
Qed.

Lemma clip_at {A : Type} (l : list A) i :
  0 <= i <= len l -> Py.clip l i = Z.to_nat i.
Proof.
  intros H. unfold Py.clip. destruct (Z.ltb_spec i 0); [lia|].
  f_equal. lia.
Qed.

(** [d[ln][r] = v] puts [v] for the row. *)
Lemma set_row_at d a b l row v :
  nth_error d a = Some l ->
  nth_error l b = Some row ->
  exists d',
    set_row d (Z.of_nat a) (Z.of_nat b) v = Ok d'
    /\ rows_of d' = (concat (firstn a d) ++ firstn b l)
                    ++ v :: (skipn (S b) l ++ concat (skipn (S a) d)).
Proof.
  intros Na Nb. unfold set_row, Py.setitem.
  rewrite (getitem_at d a l Na). cbn [bind].
  assert (b < length l)%nat by (apply nth_error_Some; congruence).
  assert (a < length d)%nat by (apply nth_error_Some; congruence).
  rewrite (norm_index_at l b), (norm_index_at d a) by assumption. cbn [bind].
  eexists. split; [reflexivity|]. unfold rows_of.
  apply nth_error_split in Na as (d1 & d2 & -> & La).
  apply nth_error_split in Nb as (l1 & l2 & -> & Lb).
  subst a b.
  rewrite !firstn_length_app, !skipn_S_length_app.
  rewrite concat_app. cbn [concat]. now rewrite <- !app_assoc.
Qed.

(** The entry of the index under the cursor. *)
Lemma cursor_row d s :
  in_bounds d s ->
  exists a b l row,
    Py.getitem (buffer_list s) (buffer_idx_y s) = Ok (Z.of_nat a, Z.of_nat b, row)
    /\ nth_error d a = Some l
    /\ nth_error l b = Some row
    /\ Z.to_nat (buffer_idx_y s) = (length (concat (firstn a d)) + b)%nat
    /\ 0 <= cur_pos_x s <= len row.
Proof.
  intros [].
  assert (L : len (index_lines 0 d) = len (rows_of d)).
  { unfold len. now rewrite <- (index_lines_snd 0 d), length_map. }
  destruct (getitem_nth (index_lines 0 d) (buffer_idx_y s))
    as (e & G & N); [lia|].
  destruct (index_lines_nth d 0 _ e N) as (a & b & l & row & -> & Na & Nb & I).
  exists a, b, l, row. rewrite ib_list0, G. cbn [Z.add].
  repeat split; trivial; destruct ib_len0 as (row0 & N0 & L0).
  - lia.
  - destruct (concat_split d a b l row Na Nb) as (C & Len).
    unfold rows_of in N0. rewrite C, I, <- Len, nth_error_app2 in N0 by lia.
    rewrite Nat.sub_diag in N0. inversion N0. lia.
Qed.

(** The loop rebuilds the index on the document an editing method
    left, where the cursor is in its bounds. *)
Lemma buffer_set_enters_bounds d s :
  text s = Doc d ->
  0 <= win_size_y s ->
  0 <= cur_pos_y s <= win_size_y s ->
  0 <= y_offset s ->
  x_offset s = 0 ->
  cur_pos_y s + y_offset s < len (rows_of d) ->
  (forall row,
      nth_error (rows_of d) (Z.to_nat (cur_pos_y s + y_offset s)) = Some row ->
      0 <= cur_pos_x s <= len row) ->
  exists s', buffer_set s = Ok s' /\ in_bounds d s'.
Proof.
  intros T W Y O X R C.
  destruct (buffer_set_rows s d T) as
    (s1 & row & B & N & L & NR & IY & IX & MC & CY & CX & YO & BL & (T1 & _ & W1 & _ & X1 & _));
    [lia|].
  specialize (C row N).
  exists s1. split; [exact B|].
  split; try congruence; try lia.
  exists row. split; congruence.
Qed.

Lemma in_bounds_row_put d s a b l row v x :
  in_bounds d s ->
  nth_error d a = Some l ->
  nth_error l b = Some row ->
  Z.to_nat (buffer_idx_y s) = (length (concat (firstn a d)) + b)%nat ->
  forall d' s1 post,
  rows_of d' = (concat (firstn a d) ++ firstn b l) ++ v :: post ->
  text s1 = Doc d' ->
  win_size_y s1 = win_size_y s -> cur_pos_y s1 = cur_pos_y s ->
  y_offset s1 = y_offset s -> x_offset s1 = x_offset s ->
  cur_pos_x s1 = x -> 0 <= x <= len v ->
  exists s2, buffer_set s1 = Ok s2 /\ in_bounds d' s2.
Proof.
  intros [] Na Nb I d' s1 post R T W CY YO XO CX Hx.
  destruct (concat_split d a b l row Na Nb) as (_ & Len).
  assert (E : Z.to_nat (cur_pos_y s1 + y_offset s1)
              = length (concat (firstn a d) ++ firstn b l)) by lia.
  apply buffer_set_enters_bounds; trivial; try lia.
  - rewrite R. unfold len. rewrite length_app. cbn [length]. lia.
  - intros row' N. rewrite R, E, nth_error_app2, Nat.sub_diag in N by lia.
    inversion N; subst row'. lia.
Qed.

Lemma slice_to_len {A : Type} (l : list A) x :
  0 <= x <= len l -> len (Py.slice_to l x) = x.
Proof.
  intros H. unfold Py.slice_to, len. rewrite (clip_at l x H), length_firstn.
  unfold len in H. lia.
Qed.

Lemma del_to_eol_in_bounds d s :
  in_bounds d s ->
  exists s1 d' s2,
    del_to_eol s = Ok s1 /\ buffer_set s1 = Ok s2 /\ in_bounds d' s2.
Proof.
  intros I. destruct (cursor_row d s I) as (a & b & l & row & G & Na & Nb & E & X).
  pose proof I as [].
  destruct (set_row_at d a b l row (Py.slice_to row (cur_pos_x s)) Na Nb)
    as (d' & S & R).
  unfold del_to_eol, doc_of. rewrite G, ib_text0. cbn [bind]. rewrite S. cbn [bind].
  destruct (in_bounds_row_put d s a b l row _ (cur_pos_x s) I Na Nb E d'
              (set_text (Doc d') s) _ R) as (s2 & B & I2); trivial.
  - rewrite slice_to_len; lia.
  - do 3 eexists. split; [reflexivity|]. split; eassumption.
Qed.

Lemma del_to_bol_in_bounds d s :
  in_bounds d s ->
  exists s1 d' s2,
    del_to_bol s = Ok s1 /\ buffer_set s1 = Ok s2 /\ in_bounds d' s2.
Proof.
  intros I. destruct (cursor_row d s I) as (a & b & l & row & G & Na & Nb & E & X).
  pose proof I as [].
  destruct (set_row_at d a b l row (Py.slice_from row (cur_pos_x s)) Na Nb)
    as (d' & S & R).
  unfold del_to_bol, doc_of. rewrite G, ib_text0. cbn [bind]. rewrite S. cbn [bind].
  destruct (in_bounds_row_put d s a b l row _ 0 I Na Nb E d'
              (set_cur_pos_x 0 (set_text (Doc d') s)) _ R) as (s2 & B & I2);
    trivial.
  - unfold len. lia.
  - do 3 eexists. split; [reflexivity|]. split; eassumption.
Qed.

Lemma slice_to_at {A : Type} (l : list A) k :
  (k <= length l)%nat -> Py.slice_to l (Z.of_nat k) = firstn k l.
Proof.
  intros H. unfold Py.slice_to. rewrite clip_at by (unfold len; lia).
  now rewrite Nat2Z.id.
Qed.

Lemma slice_from_at {A : Type} (l : list A) k :
  (k <= length l)%nat -> Py.slice_from l (Z.of_nat k) = skipn k l.
Proof.
  intros H. unfold Py.slice_from. rewrite clip_at by (unfold len; lia).
  now rewrite Nat2Z.id.
Qed.

Lemma insert_at {A : Type} (l : list A) k v :
  (k <= length l)%nat ->
  Py.insert l (Z.of_nat k) v = firstn k l ++ v :: skipn k l.
Proof.
  intros H. unfold Py.insert. rewrite clip_at by (unfold len; lia).
  now rewrite Nat2Z.id.
Qed.

Lemma delitem_at {A : Type} (l : list A) k :
  (k < length l)%nat ->
  Py.delitem l (Z.of_nat k) = Ok (firstn k l ++ skipn (S k) l).
Proof.
  intros H. unfold Py.delitem. now rewrite norm_index_at.
Qed.

(** [insert_line_or_quit] splits the row at the cursor into two
    lines and goes down to the second, or leaves the state as it is. *)
Lemma insert_line_or_quit_in_bounds d s :
  in_bounds d s ->
  exists r s1 d',
    insert_line_or_quit s = Ok (r, s1)
    /\ in_bounds d' s1
    /\ (r = RNone \/ (r = RFalse /\ max_text_size s = 1)).
Proof.
  intros I. unfold insert_line_or_quit.
  destruct (Z.eqb_spec (max_text_size s) 1) as [M|_].
  { exists RFalse, s, d. split; [reflexivity|]. split; [exact I|].
    right. now split. }
  destruct (num_rows s =? max_text_size s).
  { exists RNone, s, d. split; [reflexivity|]. split; [exact I|]. now left. }
  destruct (cursor_row d s I) as (a & b & l & row & G & Na & Nb & E & X).
  pose proof I as [].
  rewrite G. cbn [bind]. unfold doc_of. rewrite ib_text0. cbn [bind].
  rewrite (getitem_at d a l Na). cbn [bind].
  pose proof (concat_split d a b l row Na Nb) as (_ & Len).
  pose proof Na as Na'. pose proof Nb as Nb'.
  apply nth_error_split in Na' as (d1 & d2 & Ed & La).
  apply nth_error_split in Nb' as (l1 & l2 & El & Lb).
  assert (Fa : firstn a d = d1) by (subst a d; apply firstn_length_app).
  assert (Fb : firstn b l = l1) by (subst b l; apply firstn_length_app).
  rewrite delitem_at by (subst d a; rewrite length_app; simpl; lia).
  cbn [bind].
  assert (D1 : firstn a d ++ skipn (S a) d = d1 ++ d2).
  { rewrite Fa. subst a d. now rewrite skipn_S_length_app. }
  rewrite D1.
  replace (Z.of_nat b + 1) with (Z.of_nat (S b)) by lia.
  rewrite slice_to_at, slice_from_at
    by (subst b l; rewrite length_app; simpl; lia).
  rewrite Fb.
  assert (L2 : skipn (S b) l = l2) by (subst b l; apply skipn_S_length_app).
  rewrite L2. change 0 with (Z.of_nat 0) at 1.
  rewrite (insert_at l2 0) by lia. cbn [firstn skipn app].
  rewrite (insert_at (d1 ++ d2) a) by (subst a; rewrite length_app; lia).
  assert (F1 : firstn a (d1 ++ d2) = d1) by (subst a; apply firstn_length_app).
  assert (S1 : skipn a (d1 ++ d2) = d2) by (subst a; apply skipn_length_app).
  rewrite F1, S1.
  rewrite (insert_at (d1 ++ _ :: d2) a) by (subst a; rewrite length_app; lia).
  assert (F2 : forall y, firstn a (d1 ++ y :: d2) = d1)
    by (intros y; subst a; apply firstn_length_app).
  assert (S2 : forall y, skipn a (d1 ++ y :: d2) = y :: d2)
    by (intros y; subst a; apply skipn_length_app).
  rewrite F2, S2.
  match goal with
  | |- context [buffer_set (set_text (Doc ?x) s)] => set (d3 := x)
  end.
  assert (R : rows_of d3
              = (concat (firstn a d) ++ firstn b l)
                ++ Py.slice_to row (cur_pos_x s)
                :: (Py.slice_from row (cur_pos_x s) :: l2 ++ concat d2)).
  { unfold rows_of, d3. rewrite Fa, Fb, concat_app. cbn [concat].
    rewrite <- !app_assoc. reflexivity. }
  destruct (in_bounds_row_put d s a b l row _ (cur_pos_x s) I Na Nb E d3
              (set_text (Doc d3) s) _ R) as (s2 & B & I2); trivial.
  { rewrite slice_to_len; lia. }
  destruct (down_in_bounds d3 (set_cur_pos_x 0 s2)) as (s3 & Dn & I3).
  { apply in_bounds_set_cur_pos_x; [exact I2|]. destruct I2. lia. }
  exists RNone, s3, d3. split; [|split; [exact I3|now left]].
  rewrite B. cbn [bind]. rewrite Dn. reflexivity.
Qed.

(** The keys bound to a navigation method. *)
Definition navigation_handler (h : handler) : bool :=
  match h with
  | h_left | h_right | h_up | h_down | h_home | h_end | h_page_up
  | h_page_down => true
  | _ => false
  end.

Definition navigation_key (c : key) : bool :=
  match keys c with
  | Some h => navigation_handler h
  | None => false
  end.

(** The keys of the operations C3 names: navigation and editing. *)
Definition cursor_key (c : key) : bool := navigation_key c || edit_key c.

(** The keys that keep the cursor in its bounds: the navigation
    keys and the keys bound to [del_to_eol], [del_to_bol] and
    [insert_line_or_quit]. *)
Definition bounded_handler (h : handler) : bool :=
  navigation_handler h
  || match h with
     | h_del_to_eol | h_del_to_bol | h_insert_line_or_quit => true
     | _ => false
     end.

Definition bounded_key (c : key) : bool :=
  match keys c with
  | Some h => bounded_handler h
  | None => false
  end.

(** C3, as the specification states it, is not what the code does:
    in the document [a], End and Backspace leave one row, [""], and
    Backspace there deletes it. The document then has no row, and
    the buffer row of the cursor, 0, is not below the row count, 0. *)
Lemma cursor_row_not_below_row_count :
  ~ (forall maxyx c s s',
       reachable s -> cursor_key c = true ->
       step maxyx c s = Ok (Editing s') -> cursor_in_bounds s').
Proof.
  intros H.
  assert (R : exists s, session "a" [KEY_END; KEY_BACKSPACE] = Ok (Editing s))
    by (eexists; vm_compute; reflexivity).
  destruct R as [s R].
  assert (S : exists s', step screen KEY_BACKSPACE s = Ok (Editing s')
                         /\ text s' = Doc []).
  { vm_compute in R. inversion R; subst s. eexists.
    split; [vm_compute; reflexivity|reflexivity]. }
  destruct S as (s' & S & E).
  destruct (H screen KEY_BACKSPACE s s') as (d & row & T & B & _).
  - eapply reachable_session; exact R.
  - reflexivity.
  - exact S.
  - rewrite E in T. inversion T; subst d. unfold len in B. simpl in B. lia.
Qed.

(** Nor do [del_char], [backspace] and [insert_char] bring the
    column back within the row they leave. After [b] is typed into
    [a] the row is [ba ]; End puts the cursor at column 3, and Delete
    there rewraps the row to [ba], of length 2, and leaves the cursor
    at column 3. *)
Example del_char_leaves_the_column :
  exists s,
    session "a" [char "b"; KEY_END; KEY_DC] = Ok (Editing s)
    /\ text s = Doc [[lit "ba"]]
    /\ (cur_pos_y s, cur_pos_x s, buf_length s) = (0, 3, 2).
Proof.
  eexists. split; [vm_compute; reflexivity|]. split; reflexivity.
Qed.

(** After a space is typed at the end of [ab] the row is [ab  ];
    End puts the cursor at column 4, and Backspace there deletes a
    space, rewraps the row to [ab] and leaves the cursor at column
    3. *)
Example backspace_leaves_the_column :
  exists s,
    session "ab" [KEY_END; char " "; KEY_END; KEY_BACKSPACE] = Ok (Editing s)
    /\ text s = Doc [[lit "ab"]]
    /\ (cur_pos_y s, cur_pos_x s, buf_length s) = (0, 3, 2).
Proof.
  eexists. split; [vm_compute; reflexivity|]. split; reflexivity.
Qed.

(** In a window that wraps at 5 columns, [ab cd ef] after the keys
    [a], Enter, Down, space and End is the line [a] and the line of
    the rows [ab] and [cd ef ], the cursor at the end of the last
    row, column 6. Typing [a] there rewraps the line to [ab cd] and
    [ef a ], and leaves the cursor at column 6 of a row of length
    5. *)
Example insert_char_leaves_the_column :
  exists s0 s s',
    init quiet screen (lit "t") (lit "ab cd ef") (20, 7) true 0 false = Ok s0
    /\ run quiet screen [char "a"; KEY_ENTER; KInt 258; char " "; KEY_END] s0
       = Ok (Editing s)
    /\ text s = Doc [[lit "a"]; [lit "ab"; lit "cd ef "]]
    /\ (cur_pos_y s, cur_pos_x s, buf_length s) = (2, 6, 6)
    /\ step screen (char "a") s = Ok (Editing s')
    /\ text s' = Doc [[lit "a"]; [lit "ab cd"; lit "ef a "]]
    /\ (cur_pos_y s', cur_pos_x s', buf_length s') = (2, 6, 5).
Proof.
  do 3 eexists. split; [vm_compute; reflexivity|].
  split; [vm_compute; reflexivity|].
  do 2 (split; [reflexivity|]).
  split; [vm_compute; reflexivity|]. split; reflexivity.
Qed.

(** C3, amended. In a state where the cursor is in bounds, on a
    screen row of a window of height 0 or more, with the row count,
    the row index, the row length and the list of rows of the index
    those of the document and the cursor, a key bound to a
    navigation method ([left], [right], [up], [down], [home], [end],
    [page_up], [page_down]) or to [del_to_eol], [del_to_bol] or
    [insert_line_or_quit] is handled without an exception. The loop
    then goes on, and in the state it is in the same holds: the
    buffer row of the cursor is at least 0 and below the row count,
    and its column is at least 0 and at most the length of that row.
    Or the loop ends: the key is bound to [insert_line_or_quit] and
    the row cap is 1. *)
Theorem keys_keep_cursor_in_bounds maxyx c d s :
  bounded_key c = true ->
  in_bounds d s ->
  exists o,
    step maxyx c s = Ok o
    /\ match o with
       | Editing s' => exists d', in_bounds d' s' /\ cursor_in_bounds s'
       | Finished _ =>
           keys c = Some h_insert_line_or_quit /\ max_text_size s = 1
       end.
Proof.
  intros K I. unfold bounded_key in K. unfold step, get_key.
  destruct (keys c) as [h|]; [|discriminate K].
  assert (N : exists r s1 d1,
             call maxyx h s = Ok (r, s1)
             /\ (exists s2, buffer_set s1 = Ok s2 /\ in_bounds d1 s2)
             /\ (r = RNone
                 \/ (r = RFalse /\ h = h_insert_line_or_quit
                     /\ max_text_size s = 1))).
  { assert (Nav : forall m,
               (exists s1, m = Ok s1 /\ in_bounds d s1) ->
               exists r s1 d1,
                 returns_None m = Ok (r, s1)
                 /\ (exists s2, buffer_set s1 = Ok s2 /\ in_bounds d1 s2)
                 /\ (r = RNone
                     \/ (r = RFalse /\ h = h_insert_line_or_quit
                         /\ max_text_size s = 1))).
    { intros m (s1 & -> & I1). exists RNone, s1, d.
      split; [reflexivity|]. split; [|now left].
      destruct (buffer_set_in_bounds d s1 I1) as (s2 & B & I2 & _). eauto. }
    assert (Del : forall m,
               (exists s1 d1 s2,
                   m = Ok s1 /\ buffer_set s1 = Ok s2 /\ in_bounds d1 s2) ->
               exists r s1 d1,
                 returns_None m = Ok (r, s1)
                 /\ (exists s2, buffer_set s1 = Ok s2 /\ in_bounds d1 s2)
                 /\ (r = RNone
                     \/ (r = RFalse /\ h = h_insert_line_or_quit
                         /\ max_text_size s = 1))).
    { intros m (s1 & d1 & s2 & -> & B & I2). exists RNone, s1, d1.
      split; [reflexivity|]. split; [eauto|now left]. }
    destruct h; try discriminate K; cbn [call].
    - apply Nav, down_in_bounds, I.
    - apply (Nav (Ok (end_ s))). eexists. split; [reflexivity|].
      now apply end_in_bounds.
    - destruct (insert_line_or_quit_in_bounds d s I)
        as (r & s1 & d1 & E & I1 & R).
      exists r, s1, d1. split; [exact E|].
      destruct (buffer_set_in_bounds d1 s1 I1) as (s2 & B & I2 & _).
      split; [eauto|]. destruct R as [R|(R & M)]; [now left|right; auto].
    - apply (Nav (Ok (home s))). eexists. split; [reflexivity|].
      now apply home_in_bounds.
    - apply Nav, left_in_bounds, I.
    - apply Nav, page_down_in_bounds, I.
    - apply Nav, page_up_in_bounds, I.
    - apply Nav, right_in_bounds, I.
    - apply Nav, up_in_bounds, I.
    - apply Del, (del_to_bol_in_bounds d), I.
    - apply Del, (del_to_eol_in_bounds d), I. }
  destruct N as (r & s1 & d1 & E & (s2 & B & I2) & R). rewrite E. cbn [bind].
  destruct R as [->|(-> & -> & M)].
  - rewrite B. cbn [bind]. exists (Editing s2). split; [reflexivity|].
    exists d1. split; [exact I2|]. eapply in_bounds_cursor; exact I2.
  - exists (Finished (exit s1)). split; [reflexivity|]. now split.
Qed.

(** The constructor leaves such a state, where the window has a
    height of 0 or more. *)
Lemma text_init_in_bounds txt s s' :
  txt <> [] ->
  0 <= win_size_y s ->
  cur_pos_y s = 0 -> cur_pos_x s = 0 -> y_offset s = 0 -> x_offset s = 0 ->
  text_init txt s = Ok s' ->
  exists d, in_bounds d s'.
Proof.
  unfold text_init, Py.splitlines_keepends. intros N W CY CX YO XO H.
  destruct (splitlines_from_cons [] txt (or_introl N)) as (l & t & E).
  rewrite E in H.
  apply bind_Ok in H as (d & D & H).
  apply bind_Ok in H as (s1 & B & H).
  assert (R : 0 < len (rows_of d)).
  { unfold rows_of, len. destruct (x_scroll s).
    - inversion D. simpl. lia.
    - apply map_result_cons in D as (y & d' & -> & F).
      apply bind_Ok in F as (w & _ & F). inversion F.
      simpl. rewrite length_app. destruct w; simpl; lia. }
  destruct (buffer_set_enters_bounds d (set_text (Doc d) s))
    as (s2 & B2 & I); cbn; trivial; try lia.
  { intros row _. rewrite CX. unfold len. lia. }
  rewrite B in B2. inversion B2; subst s2. exists d. inversion H.
  destruct ((0 <? max_text_size s1) && (max_text_size s1 <? num_rows s1));
    [|exact I].
  destruct I. split; trivial.
Qed.

Lemma init_in_bounds crs maxyx title_ inittext win_size box_ cap pw s :
  init crs maxyx title_ inittext win_size box_ cap pw = Ok s ->
  0 <= win_size_y s ->
  text s <> TextMinus1 ->
  exists d, in_bounds d s.
Proof.
  intros H W N. apply init_Ok in H as (s0 & H & [->| ->]);
    [clear N|now elim N].
  assert (E : win_size_y s0
              = win_size_y (win_init maxyx (pre_init title_ win_size box_ cap pw))).
  { unfold text_init in H.
    apply bind_Ok in H as (d & _ & H). apply bind_Ok in H as (s1 & B & H).
    apply buffer_set_same in B as (_ & _ & B & _). cbn in B.
    inversion H.
    now destruct ((0 <? max_text_size s1) && (max_text_size s1 <? num_rows s1)). }
  apply (text_init_in_bounds (lor_ inittext (lit " "))
           (win_init maxyx (pre_init title_ win_size box_ cap pw)) s0);
    trivial.
  - destruct inittext; discriminate.
  - lia.
Qed.

(** A document of three rows in a window that wraps at 5 columns. *)
Definition three_rows : result editor :=
  init quiet screen (lit "t") (lit "ab cd ef gh ij") (20, 7) true 0 false.

Example three_rows_down :
  exists s s',
    three_rows = Ok s
    /\ text s = Doc [[lit "ab cd"; lit "ef gh"; lit "ij"]]
    /\ win_size_y s = 19
    /\ step screen (KInt 258) s = Ok (Editing s')
    /\ (cur_pos_y s', cur_pos_x s') = (1, 0).
Proof.
  do 2 eexists. split; [vm_compute; reflexivity|].
  do 2 (split; [reflexivity|]).
  split; [vm_compute; reflexivity|reflexivity].
Qed.

Lemma keys_keep_cursor_in_bounds_witness :
  exists s s',
    three_rows = Ok s
    /\ text s = Doc [[lit "ab cd"; lit "ef gh"; lit "ij"]]
    /\ step screen (KInt 258) s = Ok (Editing s')
    /\ (cur_pos_y s', cur_pos_x s') = (1, 0)
    /\ cursor_in_bounds s'.
Proof.
  destruct three_rows_down as (s & s' & E & T & W & S & P).
  destruct (init_in_bounds quiet screen (lit "t") (lit "ab cd ef gh ij") (20, 7)
              true 0 false s E) as (d & I); [lia|rewrite T; discriminate|].
  destruct (keys_keep_cursor_in_bounds screen (KInt 258) d s)
    as (o & S2 & P2); [reflexivity|exact I|].
  assert (o = Editing s') by congruence. subst o.
  destruct P2 as (d' & _ & C).
  exists s, s'. repeat split; trivial.
Defined.

(** ** The rounds of [wrap]

    [split_from] and [wrap_lines] stand for the loops of
    [wordsep_re.split] and [_wrap_chunks], and run one round per
    character of the text. That is enough: a match of [wordsep_re]
    takes a character, the chunks are not empty, and a round of
    [_wrap_chunks] takes a character off them; on more rounds they
    return the same. *)

Lemma split_from_nil fuel prev : Textwrap.split_from fuel prev [] = [].
Proof. now destruct fuel. Qed.

(** A match of [wordsep_re] takes a character. *)
Lemma match_length_pos prev c s : (1 <= Textwrap.match_length prev (c :: s))%nat.
Proof.
  unfold Textwrap.match_length.
  destruct (Textwrap.whitespace c) eqn:W.
  - cbn [Textwrap.count_whitespace]. rewrite W. lia.
  - destruct (Textwrap.after_word_punct prev); [|lia].
    unfold Textwrap.emdash.
    destruct (2 <=? Textwrap.count_hyphens (c :: s))%nat eqn:K; [|lia].
    apply Nat.leb_le in K.
    destruct (nth_error (c :: s) (Textwrap.count_hyphens (c :: s))); [|lia].
    destruct (Textwrap.word_char a); lia.
Qed.

(** One round per character is enough for [split_from]. *)
Lemma split_from_fuel : forall fuel1 fuel2 prev s,
  (length s <= fuel1)%nat -> (length s <= fuel2)%nat ->
  Textwrap.split_from fuel1 prev s = Textwrap.split_from fuel2 prev s.
Proof.
  induction fuel1 as [|fuel1 IH]; intros fuel2 prev s L1 L2.
  - destruct s; [|simpl in L1; lia]. now rewrite !split_from_nil.
  - destruct s as [|c s]; [now rewrite !split_from_nil|].
    destruct fuel2 as [|fuel2]; [simpl in L2; lia|].
    cbn [Textwrap.split_from]. f_equal.
    pose proof (match_length_pos prev c s) as P.
    assert (K : (length (skipn (Textwrap.match_length prev (c :: s)) (c :: s))
                 <= length s)%nat).
    { rewrite length_skipn. cbn [length]. lia. }
    cbn [length] in L1, L2. apply IH; lia.
Qed.

(** The chunks are the text, cut. *)
Lemma split_from_concat : forall fuel prev s,
  (length s <= fuel)%nat -> concat (Textwrap.split_from fuel prev s) = s.
Proof.
  induction fuel as [|fuel IH]; intros prev s L.
  - destruct s; [reflexivity|simpl in L; lia].
  - destruct s as [|c s]; [reflexivity|].
    cbn [Textwrap.split_from concat].
    pose proof (match_length_pos prev c s) as P.
    rewrite IH; [apply firstn_skipn|].
    rewrite length_skipn. cbn [length] in *. lia.
Qed.

(** No chunk is empty. *)
Lemma split_from_chunks : forall fuel prev s,
  Forall (fun c => c <> []) (Textwrap.split_from fuel prev s).
Proof.
  induction fuel as [|fuel IH]; intros prev s; [constructor|].
  destruct s as [|c s]; [constructor|].
  cbn [Textwrap.split_from]. constructor; [|apply IH].
  pose proof (match_length_pos prev c s) as P.
  destruct (Textwrap.match_length prev (c :: s)); [lia|discriminate].
Qed.

Lemma wrap_lines_nil fuel width lines :
  Textwrap.wrap_lines fuel width lines [] = lines.
Proof. now destruct fuel. Qed.

(** The characters of the chunks. *)
Definition chars (chunks : list str) : nat := length (concat chunks).

(** [fill_line] takes chunks off the head while they fit. *)
Lemma fill_line_takes width : forall chunks cur_len cur_line,
  exists taken,
    chunks = taken ++ snd (Textwrap.fill_line width cur_len cur_line chunks)
    /\ snd (fst (Textwrap.fill_line width cur_len cur_line chunks))
       = cur_len + len (concat taken)
    /\ (taken <> [] ->
        snd (fst (Textwrap.fill_line width cur_len cur_line chunks)) <= width)
    /\ (taken = [] ->
        match chunks with
        | c :: _ => width < cur_len + len c
        | [] => True
        end).
Proof.
  induction chunks as [|c rest IH]; intros cur_len cur_line.
  - exists []. cbn. repeat split; trivial; try lia. intros N. now elim N.
  - cbn [Textwrap.fill_line]. destruct (Z.leb_spec (cur_len + len c) width).
    + destruct (IH (cur_len + len c) (cur_line ++ [c])) as (taken & E & L & W & N).
      exists (c :: taken). split; [cbn; now f_equal|]. split.
      { rewrite L. cbn [concat]. unfold len. rewrite length_app. lia. }
      split; [|discriminate]. intros _. destruct taken; [|apply W; discriminate].
      rewrite L. unfold len in *. cbn [concat length]. lia.
    + exists []. cbn. repeat split; trivial; try lia. intros N. now elim N.
Qed.

Lemma rfind_hyphen_from_lt : forall s i,
  0 <= i -> Textwrap.rfind_hyphen_from i s < i + len s.
Proof.
  induction s as [|c s IH]; intros i I; cbn [Textwrap.rfind_hyphen_from].
  - unfold len. simpl. lia.
  - specialize (IH (i + 1)). unfold len in *. cbn [length].
    destruct (0 <=? Textwrap.rfind_hyphen_from (i + 1) s); [lia|].
    destruct (Textwrap.hyphen c); lia.
Qed.

(** [_handle_long_word] cuts the head chunk short of its end, and
    past its start on an empty line. *)
Lemma handle_long_word_rest c rest cur_line cur_len width :
  0 < width -> 0 <= cur_len <= width -> width < len c ->
  exists e,
    snd (Textwrap._handle_long_word (c :: rest) cur_line cur_len width)
    = skipn e c :: rest
    /\ (e < length c)%nat /\ (cur_len = 0 -> (1 <= e)%nat).
Proof.
  intros W C L. unfold Textwrap._handle_long_word.
  destruct (Z.ltb_spec width 1); [lia|].
  destruct (Z.ltb_spec (width - cur_len) (len c)); [|lia].
  set (h := Textwrap.rfind_hyphen c (width - cur_len)).
  assert (Hh : h < width - cur_len).
  { subst h. unfold Textwrap.rfind_hyphen.
    pose proof (rfind_hyphen_from_lt (Py.slice_to c (width - cur_len)) 0
                  (Z.le_refl 0)) as R.
    rewrite slice_to_len in R by lia. lia. }
  set (e := if (0 <? h)
               && existsb (fun c0 => negb (Textwrap.hyphen c0)) (Py.slice_to c h)
            then h + 1 else width - cur_len).
  assert (He : 0 <= e <= width - cur_len /\ (cur_len = 0 -> 1 <= e)).
  { subst e. destruct (Z.ltb_spec 0 h); cbn [andb]; [|lia].
    destruct (existsb _ _); lia. }
  clearbody e. clear h Hh. cbn [snd].
  exists (Z.to_nat e). split; [|unfold len in *; lia].
  unfold Py.slice_from. rewrite clip_at by lia. reflexivity.
Qed.

Lemma chars_app a b : chars (a ++ b) = (chars a + chars b)%nat.
Proof. unfold chars. now rewrite concat_app, length_app. Qed.

Lemma chars_taken taken :
  Forall (fun c : str => c <> []) taken -> taken <> [] -> (1 <= chars taken)%nat.
Proof.
  intros F N. destruct taken as [|c t]; [now elim N|].
  inversion F; subst. unfold chars. cbn [concat]. rewrite length_app.
  destruct c; [congruence|simpl; lia].
Qed.

(** A round of [_wrap_chunks] leaves fewer characters, in chunks of
    which none is empty. *)
Lemma wrap_line_rest width lines c rest :
  0 < width ->
  Forall (fun c : str => c <> []) (c :: rest) ->
  Forall (fun c : str => c <> []) (snd (Textwrap.wrap_line width lines (c :: rest)))
  /\ (chars (snd (Textwrap.wrap_line width lines (c :: rest)))
      < chars (c :: rest))%nat.
Proof.
  intros W F. unfold Textwrap.wrap_line.
  set (chunks1 := if Textwrap.blank c && negb (is_nil lines) then rest else c :: rest).
  assert (F1 : Forall (fun c : str => c <> []) chunks1).
  { subst chunks1. destruct (_ && _); [now inversion F|exact F]. }
  assert (C1 : (chars chunks1 <= chars (c :: rest))%nat
               /\ (chunks1 = c :: rest \/ (chars chunks1 < chars (c :: rest))%nat)).
  { subst chunks1. destruct (_ && _); [|split; [lia|now left]].
    change (c :: rest) with ([c] ++ rest). rewrite chars_app.
    assert (1 <= chars [c])%nat
      by (apply chars_taken; [inversion F; now constructor|discriminate]).
    split; [lia|right; lia]. }
  clearbody chunks1.
  destruct (fill_line_takes width chunks1 0 []) as (taken & E & L & B & N).
  destruct (Textwrap.fill_line width 0 [] chunks1) as [[cur_line cur_len] chunks2].
  cbn [fst snd] in *.
  assert (F2 : Forall (fun c : str => c <> []) chunks2
               /\ Forall (fun c : str => c <> []) taken).
  { rewrite E in F1. apply Forall_app in F1. tauto. }
  destruct F2 as [F2 Ft].
  assert (C2 : (chars chunks1 = chars taken + chars chunks2)%nat)
    by (rewrite E at 1; apply chars_app).
  assert (Lc : 0 <= cur_len <= width).
  { destruct taken; [cbn in L; lia|].
    split; [unfold len in L; lia|apply B; discriminate]. }
  assert (Done : forall cl,
    (chars chunks2 < chars (c :: rest))%nat ->
    Forall (fun c0 : str => c0 <> [])
      (snd (if is_nil (Textwrap.drop_last_blank cl) then lines
            else lines ++ [concat (Textwrap.drop_last_blank cl)], chunks2))
    /\ (chars (snd (if is_nil (Textwrap.drop_last_blank cl) then lines
            else lines ++ [concat (Textwrap.drop_last_blank cl)], chunks2))
        < chars (c :: rest))%nat).
  { intros cl H. cbn [snd]. now split. }
  destruct chunks2 as [|c2 rest2].
  { apply Done. destruct C1 as [C1 [->|C]]; [|lia].
    rewrite C2. rewrite E in *. rewrite app_nil_r in *.
    assert (1 <= chars taken)%nat by (apply chars_taken; [exact Ft|]; congruence).
    change (chars []) with 0%nat. lia. }
  destruct (Z.ltb_spec width (len c2)) as [Long|Short].
  - destruct (handle_long_word_rest c2 rest2 cur_line cur_len width W Lc Long)
      as (e & H & He & H1).
    match goal with
    | |- context [Textwrap._handle_long_word ?a ?b ?x ?y] =>
        change (snd (Textwrap._handle_long_word a b x y) = skipn e c2 :: rest2)
          in H;
        destruct (Textwrap._handle_long_word a b x y) as [cl ch]
    end.
    cbn [snd] in *. rewrite H. clear H.
    split.
    + inversion F2; subst. constructor; [|assumption].
      intros Z. apply (f_equal (@length _)) in Z. rewrite length_skipn in Z.
      simpl in Z. lia.
    + assert (K : (chars (skipn e c2 :: rest2) + e = chars (c2 :: rest2))%nat).
      { unfold chars. cbn [concat]. rewrite !length_app, length_skipn. lia. }
      destruct C1 as [C1 [C|C]]; [|lia].
      destruct taken as [|t ts].
      * cbn in L. specialize (H1 L). cbn [app] in E. rewrite <- E, C in K. lia.
      * assert (1 <= chars (t :: ts))%nat
          by (apply chars_taken; [exact Ft|discriminate]). lia.
  - apply Done. destruct C1 as [C1 [C|C]]; [|lia].
    destruct taken as [|t ts].
    + specialize (N eq_refl). cbn [app] in E. rewrite E in N. lia.
    + assert (1 <= chars (t :: ts))%nat
        by (apply chars_taken; [exact Ft|discriminate]). lia.
Qed.

(** One round per character is enough for [wrap_lines]. *)
Lemma wrap_lines_fuel width :
  0 < width ->
  forall fuel1 fuel2 lines chunks,
    Forall (fun c : str => c <> []) chunks ->
    (chars chunks <= fuel1)%nat -> (chars chunks <= fuel2)%nat ->
    Textwrap.wrap_lines fuel1 width lines chunks
    = Textwrap.wrap_lines fuel2 width lines chunks.
Proof.
  intros W. induction fuel1 as [|fuel1 IH]; intros fuel2 lines chunks F L1 L2.
  - destruct chunks as [|c rest]; [now rewrite !wrap_lines_nil|].
    assert (1 <= chars (c :: rest))%nat by (apply chars_taken; [exact F|discriminate]).
    lia.
  - destruct chunks as [|c rest]; [now rewrite !wrap_lines_nil|].
    assert (1 <= chars (c :: rest))%nat by (apply chars_taken; [exact F|discriminate]).
    destruct fuel2 as [|fuel2]; [lia|].
    cbn [Textwrap.wrap_lines].
    destruct (wrap_line_rest width lines c rest W F) as [F' L'].
    destruct (Textwrap.wrap_line width lines (c :: rest)) as [lines' chunks'].
    cbn [snd] in *. apply IH; [exact F'|lia|lia].
Qed.

(** [textwrap.wrap] on more rounds than the characters of the text
    returns what it returns on one round per character. *)
Lemma wrap_fuel text width fuel1 fuel2 :
  0 < width ->
  (length (Textwrap._munge_whitespace text) <= fuel1)%nat ->
  (length (Textwrap._munge_whitespace text) <= fuel2)%nat ->
  Textwrap.wrap text width
  = Ok (Textwrap.wrap_lines fuel2 width []
          (Textwrap.split_from fuel1 [] (Textwrap._munge_whitespace text))).
Proof.
  intros W L1 L2. unfold Textwrap.wrap, Textwrap._wrap_chunks, Textwrap._split.
  destruct (Z.leb_spec width 0); [lia|]. f_equal.
  rewrite (split_from_fuel fuel1 (length (Textwrap._munge_whitespace text)))
    by lia.
  apply wrap_lines_fuel; [exact W|apply split_from_chunks| |];
    unfold chars; rewrite split_from_concat; lia.
Qed.

(** ** Reading a text in and writing it out *)

(** The words of a text: what its whitespace separates. *)
Fixpoint words_from (cur : str) (s : str) : list str :=
  match s with
  | [] => [rev cur]
  | c :: s' =>
      if Py.isspace c then rev cur :: words_from [] s'
      else words_from (c :: cur) s'
  end.

Definition words (s : str) : list str := words_from [] s.


Definition nl : str := ["010"%char].

(** Other texts that do not come back: a word of the width of the
    window, a hyphenated word, an empty line, a newline at the end. *)
Example texts_that_change :
  Textwrap.wrap (lit "abcde") 4 = Ok [lit "abcd"; lit "e"]
  /\ Textwrap.wrap (lit "x ab-cd") 6 = Ok [lit "x ab-"; lit "cd"]
  /\ (exists s,
        init quiet screen (lit "t") (lit "a" ++ nl ++ nl ++ lit "b") (20, 40)
             true 0 false = Ok s
        /\ text s = Doc [[lit "a"]; [lit " "]; [lit "b"]])
  /\ (exists s,
        init quiet screen (lit "t") (lit "a" ++ nl) (20, 40) true 0 false = Ok s
        /\ exit s = ExitText (lit "a")).
Proof.
  repeat split; try (eexists; split; [vm_compute; reflexivity|reflexivity]);
    vm_compute; reflexivity.
Qed.













(** *** The chunks of a line *)











(** *** The rows of a line *)





















(** *** The lines of a text *)










(** Without a box and without a title the constructor makes no
    window [boxscr], its [display] calls [close] at the first row, and
    what [exit] returns is [-1], whatever the text. *)
Example no_box_no_title :
  exists s,
    init quiet screen [] (lit "hello") (20, 40) false 0 false = Ok s
    /\ text s = TextMinus1 /\ exit s = ExitMinus1.
Proof. eexists. split; [vm_compute; reflexivity|]. split; reflexivity. Qed.

(** * More of the editor

    ** The index that [buffer_set] builds *)

(** [buffer_set] reads the document, the cursor, the offsets and the
    width of the window, and writes the index only: on the state it
    returned it returns that state again. *)
Lemma buffer_set_again s s' : buffer_set s = Ok s' -> buffer_set s' = Ok s'.
Proof.
  unfold buffer_set. intros H.
  destruct (doc_of s) as [d|] eqn:D; [|discriminate H]. cbn [bind] in H.
  destruct (Py.max _) as [m|] eqn:M; [|discriminate H]. cbn [bind] in H.
  destruct (Py.getitem _ _) as [e|] eqn:G; [|discriminate H]. cbn [bind] in H.
  inversion H as [E]. clear H.
  unfold doc_of in *. cbn.
  destruct (text s); try discriminate D. inversion D; subst d.
  cbn [bind]. rewrite M. cbn [bind]. rewrite G. reflexivity.
Qed.

Lemma buffer_set_set_max_text_size v s s' :
  buffer_set s = Ok s' ->
  buffer_set (set_max_text_size v s) = Ok (set_max_text_size v s').
Proof.
  unfold buffer_set. intros H.
  destruct (doc_of s) as [d|] eqn:D; [|discriminate H]. cbn [bind] in H.
  destruct (Py.max _) as [m|] eqn:M; [|discriminate H]. cbn [bind] in H.
  destruct (Py.getitem _ _) as [e|] eqn:G; [|discriminate H]. cbn [bind] in H.
  inversion H as [E]. clear H.
  unfold doc_of in *. cbn.
  destruct (text s); try discriminate D. inversion D; subst d.
  cbn [bind]. rewrite M. cbn [bind]. rewrite G. reflexivity.
Qed.

Lemma buffer_set_index s s' d :
  buffer_set s = Ok s' -> text s = Doc d ->
  text s' = Doc d
  /\ buffer_idx_y s' = cur_pos_y s' + y_offset s'
  /\ buffer_idx_x s' = cur_pos_x s' + x_offset s'
  /\ num_rows s' = len (rows_of d)
  /\ buffer_list s' = lor_ (index_lines 0 d) [(0, 0, [])].
Proof.
  unfold buffer_set, doc_of. intros H T. rewrite T in H. cbn [bind] in H.
  destruct (Py.max _) as [m|] eqn:M; [|discriminate H]. cbn [bind] in H.
  destruct (Py.getitem _ _) as [e|] eqn:G; [|discriminate H]. cbn [bind] in H.
  inversion H. cbn. rewrite sum_rows. repeat split; exact T.
Qed.

(** In every state of a session, but for those where [display] has
    called [close] and the text is [-1], the text is a document and
    the index is the one of the document and the cursor: [buffer_set]
    would leave the state as it is. *)
Theorem reachable_index_is_current s :
  reachable s ->
  text s = TextMinus1
  \/ exists d,
       text s = Doc d
       /\ buffer_set s = Ok s
       /\ buffer_idx_y s = cur_pos_y s + y_offset s
       /\ buffer_idx_x s = cur_pos_x s + x_offset s
       /\ num_rows s = len (rows_of d)
       /\ buffer_list s = lor_ (index_lines 0 d) [(0, 0, [])].
Proof.
  assert (K : forall s0 s1, buffer_set s0 = Ok s1 ->
              exists d,
                text s1 = Doc d
                /\ buffer_set s1 = Ok s1
                /\ buffer_idx_y s1 = cur_pos_y s1 + y_offset s1
                /\ buffer_idx_x s1 = cur_pos_x s1 + x_offset s1
                /\ num_rows s1 = len (rows_of d)
                /\ buffer_list s1 = lor_ (index_lines 0 d) [(0, 0, [])]).
  { intros s0 s1 B.
    assert (T : exists d, text s0 = Doc d).
    { unfold buffer_set, doc_of in B. destruct (text s0); try discriminate B.
      eauto. }
    destruct T as (d & T). exists d.
    destruct (buffer_set_index s0 s1 d B T) as (T1 & R).
    split; [exact T1|]. split; [now apply buffer_set_again in B|exact R]. }
  intros R. destruct R as [crs maxyx title_ inittext win_size box_ cap pw s H
                          |crs maxyx c s s' _ H].
  - apply init_Ok in H as (s0 & H & [->| ->]); [right|now left].
    unfold text_init in H.
    apply bind_Ok in H as (d & _ & H). apply bind_Ok in H as (s1 & B & H).
    destruct (K _ _ B) as (d1 & T & B1 & R).
    inversion H as [E]. clear H E.
    destruct ((0 <? max_text_size s1) && (max_text_size s1 <? num_rows s1)).
    + exists d1. split; [exact T|].
      split; [now apply buffer_set_set_max_text_size|exact R].
    + exists d1. split; [exact T|]. split; [exact B1|exact R].
  - unfold round in H.
    destruct (crs s (stdscr_move (cur_pos_y s) (cur_pos_x s)));
      [discriminate H|].
    apply bind_Ok in H as (o & S & H).
    destruct o as [s2|v]; [|discriminate H].
    apply bind_Ok in H as (s3 & D & H). inversion H; subst s'.
    apply display_state in D as [->| ->]; [right|now left].
    unfold step in S. apply bind_Ok in S as ([loop s1] & _ & S).
    destruct loop; try discriminate S;
      apply bind_Ok in S as (s4 & B & S); inversion S; subst s2; eauto.
Qed.

Lemma reachable_index_is_current_witness :
  exists s, session "ab" [char "c"; KEY_ENTER] = Ok (Editing s)
            /\ buffer_set s = Ok s.
Proof.
  eexists. split; [vm_compute; reflexivity|].
  match goal with |- buffer_set ?s = _ =>
    destruct (reachable_index_is_current s) as [T|(d & _ & B & _)];
      [apply (reachable_session "ab" [char "c"; KEY_ENTER]);
       vm_compute; reflexivity|discriminate T|exact B]
  end.
Defined.

Lemma index_lines_length d : length (index_lines 0 d) = length (rows_of d).
Proof. now rewrite <- (index_lines_snd 0 d), length_map. Qed.

Lemma index_or_stand_in d :
  len (lor_ (index_lines 0 d) [(0, 0, @nil ascii)])
  = Z.max 1 (len (rows_of d)).
Proof.
  unfold len. rewrite <- index_lines_length.
  destruct (index_lines 0 d); cbn [lor_ is_nil length]; lia.
Qed.

(** A subscript returns at the positions [-len(l)] to [len(l) - 1]
    and raises [IndexError] at the others. *)
Lemma getitem_returns {A : Type} (l : list A) i :
  if (- len l <=? i) && (i <? len l)
  then exists x, Py.getitem l i = Ok x
  else Py.getitem l i = Raise IndexError.
Proof.
  assert (N : forall j, 0 <= j < len l ->
                        exists x, nth_error l (Z.to_nat j) = Some x).
  { intros j H. destruct (nth_error l (Z.to_nat j)) as [x|] eqn:E; [eauto|].
    apply nth_error_None in E. unfold len in H. lia. }
  unfold Py.getitem, Py.norm_index.
  destruct (Z.ltb_spec i 0);
    repeat match goal with
           | |- context [Z.ltb ?a ?b] => destruct (Z.ltb_spec a b)
           | |- context [Z.leb ?a ?b] => destruct (Z.leb_spec a b)
           end;
    cbn [andb bind]; try reflexivity; try (unfold len in *; lia);
    match goal with
    | |- context [nth_error l (Z.to_nat ?j)] =>
        destruct (N j) as (x & ->); [lia|eauto]
    end.
Qed.

(** [buffer_set] raises [TypeError] where the text is [False] or
    [-1], and [IndexError] where the buffer row of the cursor,
    [cur_pos_y + y_offset], is no position of the index, counted from
    either end; the index has an entry for each row, and one entry if
    there is no row. Otherwise it returns. *)
Theorem buffer_set_errors s :
  match text s with
  | Doc d =>
      let n := Z.max 1 (len (rows_of d)) in
      let i := cur_pos_y s + y_offset s in
      if (- n <=? i) && (i <? n)
      then exists s', buffer_set s = Ok s'
      else buffer_set s = Raise IndexError
  | TextFalse | TextMinus1 => buffer_set s = Raise TypeError
  end.
Proof.
  unfold buffer_set, doc_of.
  destruct (text s) as [d| |]; [|reflexivity|reflexivity].
  cbn [bind].
  assert (M : forall (l : list Z) w, exists m, Py.max (lor_ l [w]) = Ok m)
    by (intros [|x l] w; cbn; eauto).
  match goal with
  | |- context [Py.max (lor_ ?l [?w])] => destruct (M l w) as (m & ->)
  end.
  cbn [bind]. cbv zeta.
  pose proof (getitem_returns (lor_ (index_lines 0 d) [(0, 0, @nil ascii)])
                              (cur_pos_y s + y_offset s)) as G.
  rewrite index_or_stand_in in G.
  destruct ((- Z.max 1 (len (rows_of d)) <=? cur_pos_y s + y_offset s)
            && (cur_pos_y s + y_offset s <? Z.max 1 (len (rows_of d)))).
  - destruct G as (e & ->). cbn [bind]. eauto.
  - rewrite G. reflexivity.
Qed.

(** For a document without rows the index has the one entry
    [(0, 0, "")], of length 0; the row count is 0 and the width of the
    widest row is taken to be the width of the window. *)
Theorem buffer_set_without_rows s d :
  text s = Doc d ->
  rows_of d = [] ->
  cur_pos_y s + y_offset s = 0 ->
  exists s',
    buffer_set s = Ok s'
    /\ buffer_list s' = [(0, 0, [])]
    /\ num_rows s' = 0
    /\ max_cols s' = win_size_x s
    /\ buf_length s' = 0.
Proof.
  intros T R I. unfold buffer_set, doc_of. rewrite T. cbn [bind].
  rewrite lens_rows, sum_rows, R, I.
  assert (N : index_lines 0 d = []).
  { pose proof (index_lines_length d) as L. rewrite R in L.
    now destruct (index_lines 0 d). }
  rewrite N. cbn. eexists. split; [reflexivity|]. repeat split.
Qed.

Lemma buffer_set_without_rows_witness :
  exists s s',
    session "a" [KEY_END; KEY_BACKSPACE; KEY_BACKSPACE] = Ok (Editing s)
    /\ text s = Doc []
    /\ buffer_set s = Ok s'
    /\ buffer_list s' = [(0, 0, [])]
    /\ num_rows s' = 0.
Proof.
  assert (E : exists s,
             session "a" [KEY_END; KEY_BACKSPACE; KEY_BACKSPACE]
             = Ok (Editing s)
             /\ text s = Doc [] /\ cur_pos_y s + y_offset s = 0).
  { eexists. split; [vm_compute; reflexivity|]. split; reflexivity. }
  destruct E as (s & E & T & I).
  destruct (buffer_set_without_rows s [] T eq_refl I) as (s' & B & L & N & _).
  exists s, s'. repeat split; assumption.
Defined.

(** The index has an entry for each row of the document, in the order
    of the rows: entry [k] holds row [k] and the numbers of its line
    and of its place in the line, by which the document gives that
    row. *)
Theorem index_addresses_rows s s' d :
  buffer_set s = Ok s' ->
  text s = Doc d ->
  rows_of d <> [] ->
  length (buffer_list s') = length (rows_of d)
  /\ forall k ln r row,
       nth_error (buffer_list s') k = Some (ln, r, row) ->
       nth_error (rows_of d) k = Some row /\ get_row d ln r = Ok row.
Proof.
  intros B T R.
  destruct (buffer_set_index s s' d B T) as (_ & _ & _ & _ & L).
  assert (E : buffer_list s' = index_lines 0 d).
  { rewrite L. pose proof (index_lines_length d) as N.
    destruct (index_lines 0 d); [|reflexivity].
    destruct (rows_of d); [now elim R|discriminate N]. }
  rewrite E. split; [apply index_lines_length|].
  intros k ln r row N. split.
  - rewrite <- (index_lines_snd 0 d).
    apply (map_nth_error snd) in N. exact N.
  - apply index_lines_nth in N as (a & b & l & row' & Eq & Na & Nb & _).
    inversion Eq; subst. unfold get_row. cbn [Z.add].
    rewrite (getitem_at d a l Na). cbn [bind]. now apply getitem_at.
Qed.

Lemma index_addresses_rows_witness :
  exists s,
    init quiet screen (lit "t") (lit "ab cd ef") (20, 7) true 0 false = Ok s
    /\ text s = Doc [[lit "ab cd"; lit "ef"]]
    /\ nth_error (buffer_list s) 1 = Some (0, 1, lit "ef")
    /\ get_row [[lit "ab cd"; lit "ef"]] 0 1 = Ok (lit "ef").
Proof.
  assert (E : exists s,
             init quiet screen (lit "t") (lit "ab cd ef") (20, 7) true 0 false = Ok s
             /\ text s = Doc [[lit "ab cd"; lit "ef"]]
             /\ buffer_set s = Ok s
             /\ nth_error (buffer_list s) 1 = Some (0, 1, lit "ef")).
  { eexists. split; [vm_compute; reflexivity|].
    split; [reflexivity|]. split; [vm_compute; reflexivity|reflexivity]. }
  destruct E as (s & E & T & B & N).
  exists s. split; [exact E|]. split; [exact T|]. split; [exact N|].
  destruct (index_addresses_rows s s _ B T) as (_ & K); [discriminate|].
  apply (K 1%nat 0 1 (lit "ef") N).
Defined.

(** ** Sessions of keys that keep the cursor in its bounds *)

(** The navigation methods and the methods that cut a row or break a
    line leave the editor the window [boxscr] if it had it. *)
Lemma end_of_line_check_boxscr s s' :
  end_of_line_check s = Ok s' -> has_boxscr s' = has_boxscr s.
Proof.
  unfold end_of_line_check. intros H.
  apply bind_Ok in H as (s1 & H1 & H). apply buffer_set_boxscr in H1.
  inversion H. rewrite <- H1. now destruct (buf_length s1 <? cur_pos_x s1).
Qed.

Lemma up_boxscr s s' : up s = Ok s' -> has_boxscr s' = has_boxscr s.
Proof.
  unfold up. intros H. apply end_of_line_check_boxscr in H.
  rewrite H. now destruct (0 <? cur_pos_y s).
Qed.

Lemma down_boxscr s s' : down s = Ok s' -> has_boxscr s' = has_boxscr s.
Proof.
  unfold down. intros H.
  destruct ((cur_pos_y s <? win_size_y s - 1)
            && (buffer_idx_y s <? num_rows s - 1)).
  - apply end_of_line_check_boxscr in H. exact H.
  - destruct (buffer_idx_y s =? num_rows s - 1).
    + now inversion H.
    + apply end_of_line_check_boxscr in H. exact H.
Qed.

Lemma left_boxscr s s' : left s = Ok s' -> has_boxscr s' = has_boxscr s.
Proof.
  unfold left. intros H.
  destruct (0 <? cur_pos_x s); [now inversion H|].
  destruct (0 <? cur_pos_y s); [|now inversion H].
  apply bind_Ok in H as (s1 & H1 & H).
  apply up_boxscr in H1. apply end_of_line_check_boxscr in H.
  rewrite H. exact H1.
Qed.

Lemma right_boxscr s s' : right s = Ok s' -> has_boxscr s' = has_boxscr s.
Proof.
  unfold right. intros H.
  destruct (cur_pos_x s <? buf_length s); [now inversion H|].
  destruct (buffer_idx_y s <? num_rows s - 1); [|now inversion H].
  apply down_boxscr in H. exact H.
Qed.

Lemma insert_line_or_quit_boxscr s r s' :
  insert_line_or_quit s = Ok (r, s') -> has_boxscr s' = has_boxscr s.
Proof.
  unfold insert_line_or_quit. intros H.
  destruct (max_text_size s =? 1); [now inversion H|].
  destruct (num_rows s =? max_text_size s); [now inversion H|].
  apply bind_Ok in H as ([[ln r0] line] & _ & H). cbv zeta in H.
  apply bind_Ok in H as (d & _ & H).
  apply bind_Ok in H as (l & _ & H).
  apply bind_Ok in H as (d1 & _ & H).
  apply bind_Ok in H as (s1 & B & H).
  apply bind_Ok in H as (s2 & D & H).
  inversion H; subst s2 r.
  apply buffer_set_boxscr in B. apply down_boxscr in D.
  rewrite D. exact B.
Qed.

Lemma del_to_eol_boxscr s s' :
  del_to_eol s = Ok s' -> has_boxscr s' = has_boxscr s.
Proof.
  unfold del_to_eol. intros H.
  apply bind_Ok in H as ([[ln r] line] & _ & H).
  apply bind_Ok in H as (d & _ & H).
  apply bind_Ok in H as (d1 & _ & H).
  now inversion H.
Qed.

Lemma del_to_bol_boxscr s s' :
  del_to_bol s = Ok s' -> has_boxscr s' = has_boxscr s.
Proof.
  unfold del_to_bol. intros H.
  apply bind_Ok in H as ([[ln r] line] & _ & H).
  apply bind_Ok in H as (d & _ & H).
  apply bind_Ok in H as (d1 & _ & H).
  now inversion H.
Qed.

Lemma returns_None_boxscr m r s s' :
  (forall s1, m = Ok s1 -> has_boxscr s1 = has_boxscr s) ->
  returns_None m = Ok (r, s') -> has_boxscr s' = has_boxscr s.
Proof.
  intros K H. apply returns_None_Ok in H as (H & _). now apply K.
Qed.

Lemma bounded_step_boxscr maxyx c s s' :
  bounded_key c = true ->
  step maxyx c s = Ok (Editing s') ->
  has_boxscr s' = has_boxscr s.
Proof.
  unfold bounded_key, bounded_handler, step, get_key. intros K H.
  destruct (keys c) as [h|]; [|discriminate K].
  apply bind_Ok in H as ([loop s1] & C & H).
  assert (B : has_boxscr s1 = has_boxscr s).
  { destruct h; try discriminate K; cbn [call] in C.
    - eapply returns_None_boxscr; [|exact C]. intros s2. apply down_boxscr.
    - now inversion C.
    - eapply insert_line_or_quit_boxscr; exact C.
    - now inversion C.
    - eapply returns_None_boxscr; [|exact C]. intros s2. apply left_boxscr.
    - eapply returns_None_boxscr; [|exact C]. intros s2 P.
      now apply end_of_line_check_boxscr in P.
    - eapply returns_None_boxscr; [|exact C]. intros s2 P.
      now apply end_of_line_check_boxscr in P.
    - eapply returns_None_boxscr; [|exact C]. intros s2. apply right_boxscr.
    - eapply returns_None_boxscr; [|exact C]. intros s2. apply up_boxscr.
    - eapply returns_None_boxscr; [|exact C]. intros s2. apply del_to_bol_boxscr.
    - eapply returns_None_boxscr; [|exact C]. intros s2. apply del_to_eol_boxscr. }
  destruct loop; try discriminate H;
    apply bind_Ok in H as (s2 & S & H); inversion H; subst s';
    apply buffer_set_boxscr in S; congruence.
Qed.

(** A round of the loop on a navigation key. *)
Lemma navigation_step maxyx c d s :
  navigation_key c = true ->
  in_bounds d s ->
  exists s', step maxyx c s = Ok (Editing s') /\ in_bounds d s'.
Proof.
  intros K I. unfold navigation_key in K. unfold step, get_key.
  destruct (keys c) as [h|]; [|discriminate K].
  assert (N : exists s1, call maxyx h s = Ok (RNone, s1) /\ in_bounds d s1).
  { assert (R : forall m, (exists s1, m = Ok s1 /\ in_bounds d s1) ->
                exists s1, returns_None m = Ok (RNone, s1) /\ in_bounds d s1).
    { intros m (s1 & -> & I1). exists s1. split; [reflexivity|exact I1]. }
    destruct h; try discriminate K; cbn [call].
    - apply R, down_in_bounds, I.
    - eexists. split; [reflexivity|]. now apply end_in_bounds.
    - eexists. split; [reflexivity|]. now apply home_in_bounds.
    - apply R, left_in_bounds, I.
    - apply R, page_down_in_bounds, I.
    - apply R, page_up_in_bounds, I.
    - apply R, right_in_bounds, I.
    - apply R, up_in_bounds, I. }
  destruct N as (s1 & -> & I1). cbn [bind].
  destruct (buffer_set_in_bounds d s1 I1) as (s2 & -> & I2 & _).
  cbn [bind]. eauto.
Qed.

Lemma navigation_is_bounded c : navigation_key c = true -> bounded_key c = true.
Proof.
  unfold navigation_key, bounded_key, bounded_handler.
  destruct (keys c); [|discriminate]. now intros ->.
Qed.

(** However many navigation keys a session reads, from a state where
    the cursor is in its bounds, in an editor that has the window
    [boxscr] and on a terminal where no call raises: no key raises an
    exception, the loop goes on, the cursor is in its bounds again,
    and the document, and so what [exit] would return, is the one it
    was. *)
Theorem navigation_keeps_the_document crs maxyx cs d s :
  calm crs ->
  has_boxscr s = true ->
  forallb navigation_key cs = true ->
  in_bounds d s ->
  exists s',
    run crs maxyx cs s = Ok (Editing s')
    /\ in_bounds d s'
    /\ text s' = text s
    /\ exit s' = exit s.
Proof.
  intros Q. revert s. induction cs as [|c cs IH]; intros s B K I.
  - exists s. split; [reflexivity|]. split; [exact I|]. split; reflexivity.
  - cbn [forallb] in K. apply andb_prop in K as (Kc & K).
    destruct (navigation_step maxyx c d s Kc I) as (s1 & S & I1).
    assert (B1 : has_boxscr s1 = true).
    { rewrite (bounded_step_boxscr maxyx c s s1); trivial.
      now apply navigation_is_bounded. }
    destruct (IH s1 B1 K I1) as (s' & R & I' & T & E).
    exists s'. cbn [run].
    rewrite (round_calm crs maxyx c s (Editing s1) Q S)
      by (intros s2 Eq; inversion Eq; now subst).
    cbn [bind].
    split; [exact R|]. split; [exact I'|].
    assert (T1 : text s1 = text s)
      by (destruct I, I1; congruence).
    split; [congruence|]. unfold exit in *. now rewrite <- T1.
Qed.

Lemma navigation_keeps_the_document_witness :
  exists s s',
    init quiet screen (lit "t") (lit "ab cd ef gh ij") (20, 7) true 0 false = Ok s
    /\ run quiet screen [KInt 258; KEY_END; KInt 258; KInt 260; KInt 259; KInt 339] s
       = Ok (Editing s')
    /\ exit s' = ExitText (lit "ab cd ef gh ij").
Proof.
  assert (E : exists s,
             init quiet screen (lit "t") (lit "ab cd ef gh ij") (20, 7) true 0 false
             = Ok s
             /\ 0 <= win_size_y s
             /\ has_boxscr s = true
             /\ exit s = ExitText (lit "ab cd ef gh ij")).
  { eexists. split; [vm_compute; reflexivity|].
    split; [vm_compute; discriminate|]. split; vm_compute; reflexivity. }
  destruct E as (s & E & W & B & X).
  destruct (init_in_bounds quiet screen (lit "t") (lit "ab cd ef gh ij") (20, 7)
              true 0 false s E W) as (d & I);
    [intros Q; vm_compute in E; inversion E; subst s; discriminate Q|].
  destruct (navigation_keeps_the_document quiet screen
              [KInt 258; KEY_END; KInt 258; KInt 260; KInt 259; KInt 339] d s)
    as (s' & R & _ & _ & X');
    [intros s0 c; reflexivity|exact B|reflexivity|exact I|].
  exists s, s'. split; [exact E|]. split; [exact R|]. congruence.
Defined.

(** A round of the loop on a key bound to a navigation method, to
    [del_to_eol], to [del_to_bol] or to [insert_line_or_quit]. *)
Lemma bounded_step maxyx c d s :
  bounded_key c = true ->
  in_bounds d s ->
  exists o,
    step maxyx c s = Ok o
    /\ match o with
       | Editing s' => exists d', in_bounds d' s'
       | Finished v => v = exit s
       end.
Proof.
  intros K I.
  destruct (navigation_key c) eqn:Nav.
  { destruct (navigation_step maxyx c d s Nav I) as (s' & S & I').
    exists (Editing s'). split; [exact S|eauto]. }
  unfold bounded_key, bounded_handler in K.
  unfold navigation_key in Nav. unfold step, get_key.
  destruct (keys c) as [h|]; [|discriminate K].
  rewrite Nav in K. cbn [orb] in K.
  destruct h; try discriminate K; cbn [call].
  - destruct (insert_line_or_quit_in_bounds d s I)
      as (r & s1 & d1 & E & I1 & R).
    rewrite E. cbn [bind].
    destruct R as [->|(-> & M)].
    + destruct (buffer_set_in_bounds d1 s1 I1) as (s2 & -> & I2 & _).
      cbn [bind]. exists (Editing s2). split; [reflexivity|eauto].
    + exists (Finished (exit s1)). split; [reflexivity|].
      unfold insert_line_or_quit in E. rewrite M in E. cbn in E.
      now inversion E.
  - destruct (del_to_bol_in_bounds d s I) as (s1 & d1 & s2 & -> & B & I2).
    cbn [returns_None bind]. rewrite B. cbn [bind].
    exists (Editing s2). split; [reflexivity|eauto].
  - destruct (del_to_eol_in_bounds d s I) as (s1 & d1 & s2 & -> & B & I2).
    cbn [returns_None bind]. rewrite B. cbn [bind].
    exists (Editing s2). split; [reflexivity|eauto].
Qed.

(** A session that reads navigation keys, Ctrl-K, Ctrl-U and Enter
    only, from a state where the cursor is in its bounds, in an
    editor that has the window [boxscr] and on a terminal where no
    call raises, never raises an exception: it is still editing, the
    cursor in its bounds, when the keys are used up, or it has ended
    (on Enter, where the row cap is 1) and returned the text of a
    document. *)
Theorem bounded_keys_never_raise crs maxyx cs d s :
  calm crs ->
  has_boxscr s = true ->
  forallb bounded_key cs = true ->
  in_bounds d s ->
  exists o,
    run crs maxyx cs s = Ok o
    /\ match o with
       | Editing s' => exists d', in_bounds d' s'
       | Finished v => exists t, v = ExitText t
       end.
Proof.
  intros Q. revert d s. induction cs as [|c cs IH]; intros d s B K I.
  - exists (Editing s). split; [reflexivity|eauto].
  - cbn [forallb] in K. apply andb_prop in K as (Kc & K).
    destruct (bounded_step maxyx c d s Kc I) as ([s1|v] & S & P);
      cbn [run].
    + assert (B1 : has_boxscr s1 = true)
        by (rewrite (bounded_step_boxscr maxyx c s s1); trivial).
      rewrite (round_calm crs maxyx c s (Editing s1) Q S)
        by (intros s2 Eq; inversion Eq; now subst).
      cbn [bind]. destruct P as (d1 & I1). apply (IH d1 s1 B1 K I1).
    + rewrite (round_calm crs maxyx c s (Finished v) Q S) by discriminate.
      cbn [bind]. exists (Finished v). split; [reflexivity|]. subst v.
      unfold exit. destruct I as [T]. rewrite T. eauto.
Qed.

Lemma bounded_keys_never_raise_witness :
  exists s o,
    init quiet screen (lit "t") (lit "ab cd ef gh ij") (20, 7) true 0 false = Ok s
    /\ run quiet screen [KInt 258; KStr ["011"%char]; KEY_ENTER; KInt 259; KStr ["021"%char]] s
       = Ok o.
Proof.
  assert (E : exists s,
             init quiet screen (lit "t") (lit "ab cd ef gh ij") (20, 7) true 0 false
             = Ok s
             /\ 0 <= win_size_y s
             /\ has_boxscr s = true).
  { eexists. split; [vm_compute; reflexivity|].
    split; [vm_compute; discriminate|vm_compute; reflexivity]. }
  destruct E as (s & E & W & B).
  destruct (init_in_bounds quiet screen (lit "t") (lit "ab cd ef gh ij") (20, 7)
              true 0 false s E W) as (d & I);
    [intros Q; vm_compute in E; inversion E; subst s; discriminate Q|].
  destruct (bounded_keys_never_raise quiet screen
              [KInt 258; KStr ["011"%char]; KEY_ENTER; KInt 259; KStr ["021"%char]] d s)
    as (o & R & _); [intros s0 c; reflexivity|exact B|reflexivity|exact I|].
  exists s, o. split; [exact E|exact R].
Defined.

(** ** What the keys that cut a row do to the document *)

(** The row under the cursor, with the lines before and after its
    line and the rows before and after it in its line. *)
Lemma cursor_line d s :
  in_bounds d s ->
  exists d1 l1 row l2 d2,
    d = d1 ++ (l1 ++ row :: l2) :: d2
    /\ Py.getitem (buffer_list s) (buffer_idx_y s)
       = Ok (Z.of_nat (length d1), Z.of_nat (length l1), row)
    /\ buffer_idx_y s = len (concat d1 ++ l1)
    /\ 0 <= cur_pos_x s <= len row.
Proof.
  intros I. destruct (cursor_row d s I) as (a & b & l & row & G & Na & Nb & E & X).
  apply nth_error_split in Na as (d1 & d2 & -> & La).
  apply nth_error_split in Nb as (l1 & l2 & -> & Lb).
  subst a b. exists d1, l1, row, l2, d2.
  rewrite firstn_length_app in E.
  split; [reflexivity|]. split; [exact G|]. split; [|exact X].
  destruct I. unfold len. rewrite length_app. lia.
Qed.

Lemma set_row_in_place d1 l1 row l2 d2 v :
  set_row (d1 ++ (l1 ++ row :: l2) :: d2)
          (Z.of_nat (length d1)) (Z.of_nat (length l1)) v
  = Ok (d1 ++ (l1 ++ v :: l2) :: d2).
Proof.
  unfold set_row, Py.setitem.
  rewrite (getitem_at _ (length d1) (l1 ++ row :: l2))
    by (rewrite nth_error_app2, Nat.sub_diag by lia; reflexivity).
  cbn [bind].
  rewrite !norm_index_at by (rewrite length_app; simpl; lia).
  cbn [bind].
  now rewrite !firstn_length_app, !skipn_S_length_app.
Qed.

(** Ctrl-K, where the cursor is in its bounds, leaves of the row
    under the cursor the characters before the cursor, and every
    other row, the lines and the cursor as they are. *)
Theorem del_to_eol_cuts_the_row d s :
  in_bounds d s ->
  exists d1 l1 row l2 d2,
    d = d1 ++ (l1 ++ row :: l2) :: d2
    /\ buffer_idx_y s = len (concat d1 ++ l1)
    /\ 0 <= cur_pos_x s <= len row
    /\ del_to_eol s
       = Ok (set_text
               (Doc (d1 ++ (l1 ++ firstn (Z.to_nat (cur_pos_x s)) row :: l2)
                        :: d2)) s).
Proof.
  intros I. destruct (cursor_line d s I) as (d1 & l1 & row & l2 & d2 & E & G & B & X).
  exists d1, l1, row, l2, d2.
  split; [exact E|]. split; [exact B|]. split; [exact X|].
  unfold del_to_eol, doc_of. rewrite G. cbn [bind].
  destruct I as [T]. rewrite T, E. cbn [bind].
  rewrite set_row_in_place. cbn [bind].
  unfold Py.slice_to. now rewrite clip_at.
Qed.

Lemma del_to_eol_cuts_the_row_witness :
  exists s s',
    session "abcd" [KEY_RIGHT; KEY_RIGHT] = Ok (Editing s)
    /\ del_to_eol s = Ok s'
    /\ text s' = Doc [[lit "ab"]].
Proof.
  assert (E : exists s,
             session "abcd" [KEY_RIGHT; KEY_RIGHT] = Ok (Editing s)
             /\ cur_pos_x s = 2
             /\ in_bounds [[lit "abcd"]] s).
  { eexists. split; [vm_compute; reflexivity|]. split; [reflexivity|].
    split; try reflexivity; cbn; try lia.
    exists (lit "abcd"). split; reflexivity. }
  destruct E as (s & E & X & I).
  destruct (del_to_eol_cuts_the_row _ s I)
    as (d1 & l1 & row & l2 & d2 & D & B & _ & K).
  exists s. eexists. split; [exact E|]. split; [exact K|].
  destruct d1 as [|x d1]; [|destruct d1; discriminate D].
  destruct l1 as [|y l1]; [|destruct l1; discriminate D].
  inversion D; subst. rewrite X. reflexivity.
Defined.

(** Ctrl-U, where the cursor is in its bounds, leaves of the row
    under the cursor the characters from the cursor on, and puts the
    cursor at the start of the row; every other row and the lines are
    left as they are. *)
Theorem del_to_bol_cuts_the_row d s :
  in_bounds d s ->
  exists d1 l1 row l2 d2,
    d = d1 ++ (l1 ++ row :: l2) :: d2
    /\ buffer_idx_y s = len (concat d1 ++ l1)
    /\ 0 <= cur_pos_x s <= len row
    /\ del_to_bol s
       = Ok (set_cur_pos_x 0
               (set_text
                  (Doc (d1 ++ (l1 ++ skipn (Z.to_nat (cur_pos_x s)) row :: l2)
                           :: d2)) s)).
Proof.
  intros I. destruct (cursor_line d s I) as (d1 & l1 & row & l2 & d2 & E & G & B & X).
  exists d1, l1, row, l2, d2.
  split; [exact E|]. split; [exact B|]. split; [exact X|].
  unfold del_to_bol, doc_of. rewrite G. cbn [bind].
  destruct I as [T]. rewrite T, E. cbn [bind].
  rewrite set_row_in_place. cbn [bind].
  unfold Py.slice_from. now rewrite clip_at.
Qed.

Lemma del_to_bol_cuts_the_row_witness :
  exists s s',
    session "abcd" [KEY_RIGHT; KEY_RIGHT] = Ok (Editing s)
    /\ del_to_bol s = Ok s'
    /\ text s' = Doc [[lit "cd"]] /\ cur_pos_x s' = 0.
Proof.
  assert (E : exists s,
             session "abcd" [KEY_RIGHT; KEY_RIGHT] = Ok (Editing s)
             /\ cur_pos_x s = 2
             /\ in_bounds [[lit "abcd"]] s).
  { eexists. split; [vm_compute; reflexivity|]. split; [reflexivity|].
    split; try reflexivity; cbn; try lia.
    exists (lit "abcd"). split; reflexivity. }
  destruct E as (s & E & X & I).
  destruct (del_to_bol_cuts_the_row _ s I)
    as (d1 & l1 & row & l2 & d2 & D & B & _ & K).
  exists s. eexists. split; [exact E|]. split; [exact K|].
  destruct d1 as [|x d1]; [|destruct d1; discriminate D].
  destruct l1 as [|y l1]; [|destruct l1; discriminate D].
  inversion D; subst. rewrite X. split; reflexivity.
Defined.

(** ** Up and down *)

Lemma buffer_set_cursor s s' :
  buffer_set s = Ok s' ->
  cur_pos_y s' = cur_pos_y s /\ cur_pos_x s' = cur_pos_x s
  /\ y_offset s' = y_offset s.
Proof.
  unfold buffer_set. intros H.
  apply bind_Ok in H as (d & _ & H).
  apply bind_Ok in H as (m & _ & H).
  apply bind_Ok in H as (e & _ & H).
  inversion H; subst s'. repeat split.
Qed.

(** [end_of_line_check] leaves the row of the cursor and the offset
    as they are, and brings the column back to the length of the
    row. *)
Lemma end_of_line_check_cursor s s' :
  end_of_line_check s = Ok s' ->
  cur_pos_y s' = cur_pos_y s /\ y_offset s' = y_offset s
  /\ cur_pos_x s' = Z.min (cur_pos_x s) (buf_length s').
Proof.
  unfold end_of_line_check. intros H.
  apply bind_Ok in H as (s1 & B & H).
  apply buffer_set_cursor in B as (Y & X & O).
  inversion H; subst s'.
  destruct (Z.ltb_spec (buf_length s1) (cur_pos_x s1)); cbn; lia.
Qed.

(** Where the cursor is in its bounds, Down goes to the next row of
    the buffer and Up to the one before, the cursor moving in the
    window or, from its last or first row, the window scrolling by
    one row; on the last row of the buffer Down, and on the first Up,
    stay. The column is brought back to the length of the row they
    go to. *)
Theorem up_and_down_move_by_a_row d s :
  in_bounds d s ->
  (exists s',
      down s = Ok s' /\ in_bounds d s'
      /\ buffer_idx_y s' = Z.min (num_rows s - 1) (buffer_idx_y s + 1)
      /\ y_offset s'
         = (if (cur_pos_y s <? win_size_y s - 1)
               || (buffer_idx_y s =? num_rows s - 1)
            then y_offset s else y_offset s + 1)
      /\ cur_pos_x s' = Z.min (cur_pos_x s) (buf_length s'))
  /\ (exists s',
         up s = Ok s' /\ in_bounds d s'
         /\ buffer_idx_y s' = Z.max 0 (buffer_idx_y s - 1)
         /\ y_offset s'
            = (if 0 <? cur_pos_y s then y_offset s
               else Z.max 0 (y_offset s - 1))
         /\ cur_pos_x s' = Z.min (cur_pos_x s) (buf_length s')).
Proof.
  intros I. split.
  - destruct (down_in_bounds d s I) as (s' & D & I').
    exists s'. split; [exact D|]. split; [exact I'|].
    pose proof I as []. pose proof I' as [].
    unfold down in D.
    destruct (Z.ltb_spec (cur_pos_y s) (win_size_y s - 1)); cbn [andb orb] in *.
    + destruct (Z.ltb_spec (buffer_idx_y s) (num_rows s - 1)).
      * apply end_of_line_check_cursor in D as (Y & O & X). cbn in Y, O, X.
        repeat split; lia.
      * destruct (Z.eqb_spec (buffer_idx_y s) (num_rows s - 1)); [|lia].
        inversion D; subst s'. repeat split; lia.
    + destruct (Z.eqb_spec (buffer_idx_y s) (num_rows s - 1)).
      * inversion D; subst s'. repeat split; lia.
      * apply end_of_line_check_cursor in D as (Y & O & X). cbn in Y, O, X.
        repeat split; lia.
  - destruct (up_in_bounds d s I) as (s' & U & I').
    exists s'. split; [exact U|]. split; [exact I'|].
    pose proof I as []. pose proof I' as [].
    unfold up in U.
    destruct (Z.ltb_spec 0 (cur_pos_y s));
      apply end_of_line_check_cursor in U as (Y & O & X); cbn in Y, O, X;
      repeat split; lia.
Qed.

Lemma up_and_down_move_by_a_row_witness :
  exists s s',
    init quiet screen (lit "t") (lit "ab cd ef gh ij") (20, 7) true 0 false = Ok s
    /\ down s = Ok s'
    /\ buffer_idx_y s' = 1.
Proof.
  assert (E : exists s,
             init quiet screen (lit "t") (lit "ab cd ef gh ij") (20, 7) true 0 false
             = Ok s
             /\ 0 <= win_size_y s
             /\ num_rows s = 3 /\ buffer_idx_y s = 0).
  { eexists. split; [vm_compute; reflexivity|].
    split; [vm_compute; discriminate|]. split; reflexivity. }
  destruct E as (s & E & W & N & B).
  destruct (init_in_bounds quiet screen (lit "t") (lit "ab cd ef gh ij") (20, 7)
              true 0 false s E W) as (d & I);
    [intros Q; vm_compute in E; inversion E; subst s; discriminate Q|].
  destruct (up_and_down_move_by_a_row d s I) as ((s' & D & _ & Y & _) & _).
  exists s, s'. split; [exact E|]. split; [exact D|].
  rewrite Y, N, B. reflexivity.
Defined.

(** ** Enter *)

(** Enter, where the cursor is in its bounds, the row cap is not 1
    and the row count is not the cap, breaks the line of the cursor at
    the cursor: the rows before the row under the cursor and the
    characters of that row before the cursor make one line, the
    characters from the cursor on and the rows after make the next.
    No other line changes, and the cursor goes to the start of the
    new line, the next row of the buffer. *)
Theorem enter_breaks_the_line d s :
  in_bounds d s ->
  max_text_size s <> 1 ->
  num_rows s <> max_text_size s ->
  exists d1 l1 row l2 d2 s',
    d = d1 ++ (l1 ++ row :: l2) :: d2
    /\ buffer_idx_y s = len (concat d1 ++ l1)
    /\ 0 <= cur_pos_x s <= len row
    /\ insert_line_or_quit s = Ok (RNone, s')
    /\ text s'
       = Doc (d1 ++ (l1 ++ [firstn (Z.to_nat (cur_pos_x s)) row])
                 :: (skipn (Z.to_nat (cur_pos_x s)) row :: l2) :: d2)
    /\ cur_pos_x s' = 0
    /\ buffer_idx_y s' = buffer_idx_y s + 1
    /\ cursor_in_bounds s'.
Proof.
  intros I M1 M2.
  destruct (cursor_line d s I) as (d1 & l1 & row & l2 & d2 & E & G & B & X).
  exists d1, l1, row, l2, d2.
  set (x := Z.to_nat (cur_pos_x s)).
  set (d3 := d1 ++ (l1 ++ [firstn x row]) :: (skipn x row :: l2) :: d2).
  assert (Na : nth_error d (length d1) = Some (l1 ++ row :: l2))
    by (rewrite E, nth_error_app2, Nat.sub_diag by lia; reflexivity).
  assert (Nb : nth_error (l1 ++ row :: l2) (length l1) = Some row)
    by (rewrite nth_error_app2, Nat.sub_diag by lia; reflexivity).
  assert (F : firstn (length d1) d = d1)
    by (rewrite E; apply firstn_length_app).
  assert (R : rows_of d3
              = (concat (firstn (length d1) d)
                 ++ firstn (length l1) (l1 ++ row :: l2))
                ++ firstn x row :: (skipn x row :: l2 ++ concat d2)).
  { rewrite F, firstn_length_app. unfold rows_of, d3.
    rewrite concat_app. cbn [concat]. now rewrite <- !app_assoc. }
  assert (Bi : Z.to_nat (buffer_idx_y s)
               = (length (concat (firstn (length d1) d)) + length l1)%nat).
  { rewrite F, B. unfold len. rewrite length_app. lia. }
  destruct (in_bounds_row_put d s (length d1) (length l1) _ row
              (firstn x row) (cur_pos_x s) I Na Nb Bi d3
              (set_text (Doc d3) s) _ R) as (s2 & B2 & I2); trivial.
  { unfold len. rewrite length_firstn. unfold len in X. lia. }
  assert (I0 : in_bounds d3 (set_cur_pos_x 0 s2)).
  { apply in_bounds_set_cur_pos_x; [exact I2|]. destruct I2. lia. }
  destruct (down_in_bounds d3 _ I0) as (s3 & Dn & I3).
  assert (K : insert_line_or_quit s = Ok (RNone, s3)).
  { unfold insert_line_or_quit.
    destruct (Z.eqb_spec (max_text_size s) 1); [contradiction|].
    destruct (Z.eqb_spec (num_rows s) (max_text_size s)); [contradiction|].
    rewrite G. cbn [bind]. unfold doc_of.
    destruct I as [T]. rewrite T. cbn [bind].
    rewrite (getitem_at d _ _ Na). cbn [bind].
    rewrite delitem_at by (rewrite E, length_app; simpl; lia).
    cbn [bind].
    assert (Sk : skipn (S (length d1)) d = d2)
      by (rewrite E; apply skipn_S_length_app).
    rewrite F, Sk.
    replace (Z.of_nat (length l1) + 1) with (Z.of_nat (S (length l1))) by lia.
    rewrite slice_to_at, slice_from_at by (rewrite length_app; simpl; lia).
    rewrite firstn_length_app, skipn_S_length_app.
    change 0 with (Z.of_nat 0) at 1.
    rewrite (insert_at l2 0) by lia. cbn [firstn skipn app].
    rewrite (insert_at (d1 ++ d2) (length d1)) by (rewrite length_app; lia).
    rewrite firstn_length_app, skipn_length_app.
    rewrite (insert_at (d1 ++ _ :: d2) (length d1))
      by (rewrite length_app; lia).
    rewrite firstn_length_app, skipn_length_app.
    unfold Py.slice_to, Py.slice_from. rewrite !clip_at by lia.
    fold x. fold d3.
    match goal with
    | |- context [buffer_set ?t] =>
        change (buffer_set t) with (buffer_set (set_text (Doc d3) s))
    end.
    rewrite B2. cbn [bind]. rewrite Dn. reflexivity. }
  exists s3. split; [exact E|]. split; [exact B|]. split; [exact X|].
  split; [exact K|].
  split; [now destruct I3|].
  assert (C2 : cur_pos_y s2 = cur_pos_y s /\ y_offset s2 = y_offset s).
  { apply buffer_set_cursor in B2 as (Y & _ & O). cbn in Y, O. now split. }
  assert (N2 : num_rows s2 = num_rows s + 1).
  { rewrite (ib_rows _ _ I2), (ib_rows _ _ I), R.
    unfold rows_of. rewrite (proj1 (concat_split d _ _ _ _ Na Nb)).
    unfold len. rewrite !length_app. cbn [length]. rewrite !length_app.
    rewrite skipn_S_length_app.
    replace (skipn (S (length d1)) d) with d2
      by (rewrite E; symmetry; apply skipn_S_length_app).
    lia. }
  pose proof I as []. pose proof I2 as []. pose proof I3 as [].
  assert (P : cur_pos_x s3 = 0 /\ buffer_idx_y s3 = buffer_idx_y s + 1).
  { unfold down in Dn. cbn in Dn.
    destruct (Z.ltb_spec (cur_pos_y s2) (win_size_y s2 - 1)); cbn [andb] in Dn.
    - destruct (Z.ltb_spec (buffer_idx_y s2) (num_rows s2 - 1)); [|lia].
      apply end_of_line_check_cursor in Dn as (Y & O & Cx). cbn in Y, O, Cx.
      lia.
    - destruct (Z.eqb_spec (buffer_idx_y s2) (num_rows s2 - 1)); [lia|].
      apply end_of_line_check_cursor in Dn as (Y & O & Cx). cbn in Y, O, Cx.
      lia. }
  split; [tauto|]. split; [tauto|]. eapply in_bounds_cursor; exact I3.
Qed.

Lemma enter_breaks_the_line_witness :
  exists s s',
    session "abcd" [KEY_RIGHT; KEY_RIGHT] = Ok (Editing s)
    /\ insert_line_or_quit s = Ok (RNone, s')
    /\ text s' = Doc [[lit "ab"]; [lit "cd"]]
    /\ (cur_pos_x s', buffer_idx_y s') = (0, 1).
Proof.
  assert (E : exists s,
             session "abcd" [KEY_RIGHT; KEY_RIGHT] = Ok (Editing s)
             /\ cur_pos_x s = 2 /\ buffer_idx_y s = 0
             /\ max_text_size s = 0 /\ num_rows s = 1
             /\ in_bounds [[lit "abcd"]] s).
  { eexists. split; [vm_compute; reflexivity|].
    do 4 (split; [reflexivity|]).
    split; try reflexivity; cbn; try lia.
    exists (lit "abcd"). split; reflexivity. }
  destruct E as (s & E & X & Y & M & N & I).
  destruct (enter_breaks_the_line _ s I)
    as (d1 & l1 & row & l2 & d2 & s' & D & B & _ & K & T & X' & Y' & _);
    [lia|lia|].
  exists s, s'. split; [exact E|]. split; [exact K|].
  destruct d1 as [|z d1]; [|destruct d1; discriminate D].
  destruct l1 as [|y l1]; [|destruct l1; discriminate D].
  inversion D; subst. rewrite X in T. split; [exact T|].
  rewrite X', Y', Y. reflexivity.
Defined.

(** ** Left and right *)

(** Within a row Left undoes Right and Right undoes Left: the state
    is the one it was. *)
Theorem left_and_right_undo_each_other s :
  (0 <= cur_pos_x s < buf_length s ->
   exists s1, right s = Ok s1 /\ left s1 = Ok s)
  /\ (0 < cur_pos_x s <= buf_length s ->
      exists s1, left s = Ok s1 /\ right s1 = Ok s).
Proof.
  split; intros H.
  - exists (set_cur_pos_x (cur_pos_x s + 1) s). unfold right, left.
    destruct (Z.ltb_spec (cur_pos_x s) (buf_length s)); [|lia].
    split; [reflexivity|]. cbn.
    destruct (Z.ltb_spec 0 (cur_pos_x s + 1)); [|lia].
    destruct s; cbn. unfold set_cur_pos_x; cbn. do 2 f_equal. lia.
  - exists (set_cur_pos_x (cur_pos_x s - 1) s). unfold right, left.
    destruct (Z.ltb_spec 0 (cur_pos_x s)); [|lia].
    split; [reflexivity|]. cbn.
    destruct (Z.ltb_spec (cur_pos_x s - 1) (buf_length s)); [|lia].
    destruct s; cbn. unfold set_cur_pos_x; cbn. do 2 f_equal. lia.
Qed.

Lemma left_and_right_undo_each_other_witness :
  exists s s1,
    editor_on "abc" = Ok s /\ right s = Ok s1 /\ left s1 = Ok s.
Proof.
  assert (E : exists s, editor_on "abc" = Ok s
                        /\ 0 <= cur_pos_x s < buf_length s).
  { eexists. split; [vm_compute; reflexivity|]. cbn. lia. }
  destruct E as (s & E & H).
  destruct (proj1 (left_and_right_undo_each_other s) H) as (s1 & R & L).
  exists s, s1. repeat split; assumption.
Defined.

(** ** The end of the session *)

(** F2 and Ctrl-X end the session with what [exit] returns for the
    state, the text of the document; F5 and Escape with [False], and
    Ctrl-D and Ctrl-C with [-1], whatever the document is; the keys
    that follow are not read. (The [stdscr.move] that opens the round
    comes before the key: where it raises, [run] raises.) *)
Theorem keys_that_end_the_session crs maxyx c cs s :
  let ends v :=
    run crs maxyx (c :: cs) s
    = (if crs s (stdscr_move (cur_pos_y s) (cur_pos_x s))
       then Raise CursesError else Ok (Finished v)) in
  match keys c with
  | Some h_quit => ends (exit s)
  | Some h_quit_nosave => ends ExitFalse
  | Some h_close => ends ExitMinus1
  | _ => True
  end.
Proof.
  cbv zeta. cbn [run]. unfold round, step, get_key.
  destruct (keys c) as [h|]; [|exact I].
  destruct h; try exact I;
    now destruct (crs s (stdscr_move (cur_pos_y s) (cur_pos_x s))).
Qed.

(** ** What [display] writes *)

Lemma display_rows_writes crs y x t : forall rows s y0,
  In (stdscr_addstr y x t) (fst (display_rows crs s y0 rows)) ->
  pw_mode s = false /\ x = 0
  /\ exists k ln r,
       y = y0 + Z.of_nat k /\ nth_error rows k = Some (ln, r, t).
Proof.
  induction rows as [|[[ln r] row] rows IH]; intros s y0 H; [destruct H|].
  cbn [display_rows] in H.
  pose proof (attempt_made (crs s) (row_calls s y0 (ln, r, row))
                (stdscr_addstr y x t)) as A.
  destruct (attempt (crs s) (row_calls s y0 (ln, r, row))) as [made raised].
  set (s1 := if raised || negb (has_boxscr s) then snd (close s) else s) in *.
  assert (P1 : pw_mode s1 = pw_mode s)
    by (subst s1; now destruct (raised || negb (has_boxscr s))).
  specialize (IH s1 (y0 + 1)).
  destruct (display_rows crs s1 (y0 + 1) rows) as [made' s2].
  cbn [fst] in *. apply in_app_or in H as [H|H].
  - apply A in H. unfold row_calls in H. cbn [snd] in H.
    repeat (apply in_app_or in H as [H|H]).
    + destruct H as [H|[H|[]]]; discriminate H.
    + destruct (pw_mode s); [destruct H|].
      destruct H as [H|[]]. inversion H; subst.
      split; [reflexivity|]. split; [reflexivity|].
      exists 0%nat, ln, r. split; [lia|reflexivity].
    + destruct (has_boxscr s); [|destruct H].
      destruct H as [H|[H|[]]]; discriminate H.
  - apply IH in H as (P & X & k & ln' & r' & Y & N).
    split; [congruence|]. split; [exact X|].
    exists (S k), ln', r'. split; [lia|exact N].
Qed.

(** Where the window has a height of 0 or more and is not scrolled
    above the first row, all that [display] writes into the text
    window is rows of the index, from column 0: on line [y] the row
    [y_offset + y], for the lines of the window (one line, if its
    height is 0). With [pw_mode] on it writes none. *)
Theorem display_shows_the_window crs s y x t :
  0 <= y_offset s ->
  0 <= win_size_y s ->
  In (stdscr_addstr y x t) (fst (display crs s)) ->
  pw_mode s = false
  /\ x = 0
  /\ 0 <= y < Z.max 1 (win_size_y s)
  /\ exists ln r,
       nth_error (buffer_list s) (Z.to_nat (y_offset s + y)) = Some (ln, r, t).
Proof.
  intros O W H. unfold display in H.
  pose proof (display_rows_writes crs y x t
                (Py.slice (buffer_list s) (y_offset s)
                   (if y_offset s + win_size_y s =? 0 then 1
                    else y_offset s + win_size_y s)) s 0) as D.
  destruct (display_rows crs s 0 _) as [made s1].
  match type of H with
  | context [attempt ?r ?cs] =>
      pose proof (attempt_made r cs (stdscr_addstr y x t)) as A;
      destruct (attempt r cs) as [made' raised]
  end.
  cbn [fst] in *.
  apply in_app_or in H as [H|H].
  2:{ apply A in H. cbn [app] in H. destruct H as [H|H]; [discriminate H|].
      apply in_app_or in H as [H|H].
      - destruct (box s1); [destruct H as [H|[]]; discriminate H|destruct H].
      - destruct H as [H|[]]; discriminate H. }
  apply D in H as (P & X & k & ln & r & Y & N).
  split; [exact P|]. split; [exact X|].
  unfold Py.slice in N.
  set (l := buffer_list s) in *.
  set (b := if y_offset s + win_size_y s =? 0 then 1
            else y_offset s + win_size_y s) in *.
  assert (Ca : Py.clip l (y_offset s) = Z.to_nat (Z.min (y_offset s) (len l))).
  { unfold Py.clip. destruct (Z.ltb_spec (y_offset s) 0); [lia|].
    f_equal. unfold len. lia. }
  assert (Cb : Py.clip l b = Z.to_nat (Z.min b (len l))).
  { unfold Py.clip.
    assert (0 <= b) by (subst b; destruct (_ =? 0); lia).
    destruct (Z.ltb_spec b 0); [lia|]. f_equal. unfold len. lia. }
  assert (K : (k < Py.clip l b - Py.clip l (y_offset s))%nat
              /\ nth_error l (Py.clip l (y_offset s) + k) = Some (ln, r, t)).
  { assert (Lt : (k < length (firstn (Py.clip l b - Py.clip l (y_offset s))
                                     (skipn (Py.clip l (y_offset s)) l)))%nat)
      by (apply nth_error_Some; congruence).
    rewrite length_firstn in Lt.
    split; [lia|].
    rewrite nth_error_firstn in N.
    destruct (Nat.ltb_spec k (Py.clip l b - Py.clip l (y_offset s)));
      [|discriminate N].
    now rewrite nth_error_skipn in N. }
  destruct K as (Kl & Kn).
  assert (In : (Py.clip l (y_offset s) + k < length l)%nat)
    by (apply nth_error_Some; congruence).
  rewrite Ca, Cb in Kl. rewrite Ca in Kn, In. unfold len in *.
  assert (B : b = Z.max 1 (y_offset s + win_size_y s)).
  { subst b. destruct (Z.eqb_spec (y_offset s + win_size_y s) 0); lia. }
  split; [lia|].
  exists ln, r. rewrite <- Kn. f_equal. lia.
Qed.

Lemma display_shows_the_window_witness :
  exists s,
    editor_on "pass" = Ok s
    /\ In (stdscr_addstr 0 0 (lit "pass")) (fst (display quiet s))
    /\ exists ln r,
         nth_error (buffer_list s) (Z.to_nat (y_offset s + 0))
         = Some (ln, r, lit "pass").
Proof.
  assert (E : exists s,
             editor_on "pass" = Ok s
             /\ 0 <= y_offset s /\ 0 <= win_size_y s
             /\ In (stdscr_addstr 0 0 (lit "pass")) (fst (display quiet s))).
  { eexists. split; [vm_compute; reflexivity|].
    split; [cbn; lia|]. split; [vm_compute; discriminate|].
    vm_compute. tauto. }
  destruct E as (s & E & O & W & D).
  destruct (display_shows_the_window quiet s 0 0 (lit "pass") O W D)
    as (_ & _ & _ & N).
  exists s. split; [exact E|]. split; [exact D|exact N].
Defined.

(** ** The state the constructor builds *)

Lemma buffer_set_frame s s' :
  buffer_set s = Ok s' ->
  win_size_y s' = win_size_y s /\ win_size_x s' = win_size_x s
  /\ x_scroll s' = x_scroll s /\ max_text_size s' = max_text_size s
  /\ space_counter s' = space_counter s /\ x_offset s' = x_offset s
  /\ text s' = text s.
Proof.
  unfold buffer_set. intros H.
  apply bind_Ok in H as (d & _ & H).
  apply bind_Ok in H as (m & _ & H).
  apply bind_Ok in H as (e & _ & H).
  inversion H; subst s'. repeat split.
Qed.

(** What [text_init] leaves of the state it is given. *)
Lemma text_init_frame txt s s' :
  text_init txt s = Ok s' ->
  win_size_y s' = win_size_y s /\ win_size_x s' = win_size_x s
  /\ x_scroll s' = x_scroll s /\ space_counter s' = space_counter s
  /\ cur_pos_y s' = cur_pos_y s /\ cur_pos_x s' = cur_pos_x s
  /\ y_offset s' = y_offset s /\ x_offset s' = x_offset s
  /\ max_text_size s'
     = (if 0 <? max_text_size s
        then Z.max (max_text_size s) (num_rows s') else max_text_size s).
Proof.
  unfold text_init. intros H.
  apply bind_Ok in H as (d & _ & H). apply bind_Ok in H as (s1 & B & H).
  pose proof (buffer_set_frame _ _ B) as (Wy & Wx & Xs & M & Sc & Xo & _).
  pose proof (buffer_set_cursor _ _ B) as (Cy & Cx & Yo).
  cbn in Wy, Wx, Xs, M, Sc, Xo, Cy, Cx, Yo.
  inversion H as [E]. clear H E.
  destruct (Z.ltb_spec 0 (max_text_size s1));
    destruct (Z.ltb_spec (max_text_size s1) (num_rows s1)); cbn [andb];
    rewrite <- ?M; cbn;
    repeat match goal with
           | |- context [0 <? ?a] => destruct (Z.ltb_spec 0 a)
           end;
    repeat split; trivial; lia.
Qed.

(** The editor the constructor returns has the window it was asked
    for, cut to the terminal less 4 rows and 3 columns, and less one
    row and one column; the cursor is at the start of the text and
    nothing is scrolled. It scrolls sideways instead of wrapping
    where the window asked for has fewer than 2 rows and the row cap
    is 1. *)
Theorem init_window crs maxyx title_ inittext win_size box_ cap pw s :
  init crs maxyx title_ inittext win_size box_ cap pw = Ok s ->
  win_size_y s = Z.min (fst win_size) (Z.max 0 (fst maxyx - 4)) - 1
  /\ win_size_x s = Z.min (snd win_size) (Z.max 0 (snd maxyx - 3)) - 1
  /\ x_scroll s = (fst win_size <? 2) && (cap =? 1)
  /\ cur_pos_y s = 0 /\ cur_pos_x s = 0
  /\ y_offset s = 0 /\ x_offset s = 0.
Proof.
  intros H. apply init_Ok in H as (s0 & H & E).
  apply text_init_frame in H as (Wy & Wx & Xs & _ & Cy & Cx & Yo & Xo & _).
  assert (F : win_size_y s = win_size_y s0 /\ win_size_x s = win_size_x s0
              /\ x_scroll s = x_scroll s0
              /\ cur_pos_y s = cur_pos_y s0 /\ cur_pos_x s = cur_pos_x s0
              /\ y_offset s = y_offset s0 /\ x_offset s = x_offset s0)
    by (destruct E as [->| ->]; repeat split).
  destruct F as (-> & -> & -> & -> & -> & -> & ->).
  rewrite Wy, Wx, Xs, Cy, Cx, Yo, Xo. cbn.
  repeat split;
    repeat match goal with
           | |- context [Z.ltb ?a ?b] => destruct (Z.ltb_spec a b)
           end; cbn [orb]; lia.
Qed.

Lemma init_window_witness :
  exists s,
    init quiet (24, 80) (lit "t") (lit "a") (30, 40) true 0 false = Ok s
    /\ win_size_y s = 19 /\ win_size_x s = 39.
Proof.
  eexists. split; [vm_compute; reflexivity|].
  match goal with |- win_size_y ?s = _ /\ _ =>
    destruct (init_window quiet (24, 80) (lit "t") (lit "a") (30, 40) true 0 false s)
      as (Wy & Wx & _); [vm_compute; reflexivity|]
  end.
  split; [exact Wy|exact Wx].
Defined.

(** A row cap above 0 that the rows of the initial text exceed is
    raised to the number of those rows; otherwise the cap is the one
    the constructor was given. So no cap above 0 is below the number
    of rows. *)
Theorem init_row_cap crs maxyx title_ inittext win_size box_ cap pw s :
  init crs maxyx title_ inittext win_size box_ cap pw = Ok s ->
  max_text_size s = (if 0 <? cap then Z.max cap (num_rows s) else cap)
  /\ (0 < cap -> num_rows s <= max_text_size s).
Proof.
  intros H. apply init_Ok in H as (s0 & H & E).
  apply text_init_frame in H as (_ & _ & _ & _ & _ & _ & _ & _ & M).
  assert (F : max_text_size s = max_text_size s0 /\ num_rows s = num_rows s0)
    by (destruct E as [->| ->]; split; reflexivity).
  destruct F as (-> & ->).
  cbn in M. rewrite M. split; [reflexivity|].
  intros C. destruct (Z.ltb_spec 0 cap); lia.
Qed.

Lemma init_row_cap_witness :
  exists s,
    init quiet screen (lit "t") (lit "ab cd ef gh ij") (20, 7) true 2 false = Ok s
    /\ num_rows s = 3 /\ max_text_size s = 3.
Proof.
  eexists. split; [vm_compute; reflexivity|]. split; [reflexivity|].
  match goal with |- max_text_size ?s = _ =>
    destruct (init_row_cap quiet screen (lit "t") (lit "ab cd ef gh ij") (20, 7)
                true 2 false s) as (M & _); [vm_compute; reflexivity|];
      rewrite M; reflexivity
  end.
Defined.



(** ** What [wrap] makes of a text *)

(** The characters of a text that are no whitespace, the ink of the
    text. *)
Definition ink (s : str) : str := filter (fun c => negb (Py.isspace c)) s.

Lemma ink_app a b : ink (a ++ b) = ink a ++ ink b.
Proof. apply filter_app. Qed.

Lemma ink_rev a : ink (rev a) = rev (ink a).
Proof. apply filter_rev. Qed.

Lemma ink_concat l : ink (concat l) = concat (map ink l).
Proof.
  induction l as [|x l IH]; [reflexivity|].
  cbn [concat map]. now rewrite ink_app, IH.
Qed.

Lemma ink_spaces n : ink (Py.spaces n) = [].
Proof.
  unfold Py.spaces. induction (Z.to_nat n) as [|k IH]; [reflexivity|exact IH].
Qed.

Lemma lstrip_ink s : ink (Py.lstrip s) = ink s.
Proof.
  induction s as [|c s IH]; [reflexivity|].
  cbn [Py.lstrip]. destruct (Py.isspace c) eqn:E; [|reflexivity].
  rewrite IH. unfold ink. cbn [filter]. now rewrite E.
Qed.

(** A chunk that [strip] empties has no ink. *)
Lemma blank_ink c : Textwrap.blank c = true -> ink c = [].
Proof.
  unfold Textwrap.blank, Py.strip, Py.rstrip. intros H.
  destruct (rev (Py.lstrip (rev (Py.lstrip c)))) eqn:E; [|discriminate H].
  apply (f_equal (@rev ascii)) in E. rewrite rev_involutive in E. cbn in E.
  assert (K : ink (rev (Py.lstrip c)) = [])
    by (rewrite <- lstrip_ink, E; reflexivity).
  rewrite ink_rev in K. apply (f_equal (@rev ascii)) in K.
  rewrite rev_involutive in K. cbn in K. now rewrite <- lstrip_ink.
Qed.

Lemma blank_nil : Textwrap.blank [] = true.
Proof. reflexivity. Qed.

(** [fill_line]: the line with the chunks it took, their length, and
    the chunks it left. *)
Lemma fill_line_spec width : forall chunks cur_len cur_line,
  exists taken rest,
    Textwrap.fill_line width cur_len cur_line chunks
    = (cur_line ++ taken, cur_len + len (concat taken), rest)
    /\ chunks = taken ++ rest
    /\ (taken <> [] -> cur_len + len (concat taken) <= width).
Proof.
  induction chunks as [|c rest IH]; intros cur_len cur_line.
  - exists [], []. cbn. rewrite app_nil_r, Z.add_0_r.
    repeat split. intros N. now elim N.
  - cbn [Textwrap.fill_line]. destruct (Z.leb_spec (cur_len + len c) width).
    + destruct (IH (cur_len + len c) (cur_line ++ [c])) as (taken & rest' & E & C & W).
      exists (c :: taken), rest'. rewrite E.
      assert (L : cur_len + len c + len (concat taken)
                  = cur_len + len (concat (c :: taken))).
      { cbn [concat]. unfold len. rewrite length_app. lia. }
      rewrite <- app_assoc, L. split; [reflexivity|].
      split; [cbn; now f_equal|]. intros _. rewrite <- L.
      destruct taken; [unfold len in *; cbn [concat length]; lia
                      |apply W; discriminate].
    + exists [], (c :: rest). cbn. rewrite app_nil_r, Z.add_0_r.
      repeat split. intros N. now elim N.
Qed.

(** [_handle_long_word] on a chunk longer than the width: the part of
    the chunk it puts on the line fits the room left. *)
Lemma handle_long_word_spec c rest cur_line cur_len width :
  0 < width -> 0 <= cur_len <= width -> width < len c ->
  exists e,
    Textwrap._handle_long_word (c :: rest) cur_line cur_len width
    = (cur_line ++ [firstn e c], skipn e c :: rest)
    /\ Z.of_nat e <= width - cur_len.
Proof.
  intros W C L. unfold Textwrap._handle_long_word.
  destruct (Z.ltb_spec width 1); [lia|].
  destruct (Z.ltb_spec (width - cur_len) (len c)); [|lia].
  set (h := Textwrap.rfind_hyphen c (width - cur_len)).
  assert (Hh : h < width - cur_len).
  { subst h. unfold Textwrap.rfind_hyphen.
    pose proof (rfind_hyphen_from_lt (Py.slice_to c (width - cur_len)) 0
                  (Z.le_refl 0)) as R.
    rewrite slice_to_len in R by lia. lia. }
  set (e := if (0 <? h)
               && existsb (fun c0 => negb (Textwrap.hyphen c0)) (Py.slice_to c h)
            then h + 1 else width - cur_len).
  assert (He : 0 <= e <= width - cur_len).
  { subst e. destruct (Z.ltb_spec 0 h); cbn [andb]; [|lia].
    destruct (existsb _ _); lia. }
  clearbody e. clear h Hh.
  exists (Z.to_nat e). split; [|lia].
  unfold Py.slice_to, Py.slice_from. rewrite clip_at by lia. reflexivity.
Qed.

Lemma drop_last_blank_spec l :
  (Textwrap.drop_last_blank l = l
   /\ forall b c, l = b ++ [c] -> Textwrap.blank c = false)
  \/ exists b c,
       l = b ++ [c] /\ Textwrap.blank c = true
       /\ Textwrap.drop_last_blank l = b.
Proof.
  unfold Textwrap.drop_last_blank.
  destruct (rev l) as [|c before] eqn:E.
  - left. split; [reflexivity|]. intros b c ->.
    rewrite rev_app_distr in E. discriminate E.
  - apply (f_equal (@rev str)) in E. rewrite rev_involutive in E.
    cbn [rev] in E.
    destruct (Textwrap.blank c) eqn:Bl.
    + right. exists (rev before), c. repeat split; assumption.
    + left. split; [reflexivity|]. intros b c' El.
      rewrite E in El. apply app_inj_tail in El as (_ & <-). exact Bl.
Qed.

Lemma Forall_removelast {A : Type} (P : A -> Prop) l :
  Forall P l -> Forall P (removelast l).
Proof.
  induction 1 as [|x l Hx Hl IH]; [constructor|].
  cbn [removelast]. destruct l; [constructor|]. constructor; assumption.
Qed.

(** The line without its last chunk, if that is blank: no chunk of
    it is empty if none but the last was, and it has the ink of the
    line. *)
Lemma drop_last_blank_facts cl :
  Forall (fun c : str => c <> []) (removelast cl) ->
  Forall (fun c : str => c <> []) (Textwrap.drop_last_blank cl)
  /\ len (concat (Textwrap.drop_last_blank cl)) <= len (concat cl)
  /\ ink (concat (Textwrap.drop_last_blank cl)) = ink (concat cl).
Proof.
  intros Fc. destruct cl as [|y cl'] using rev_ind.
  - split; [constructor|]. split; [cbn; lia|reflexivity].
  - clear IHcl'. rewrite removelast_last in Fc.
    unfold Textwrap.drop_last_blank. rewrite rev_app_distr. cbn [rev app].
    destruct (Textwrap.blank y) eqn:Bl.
    + rewrite rev_involutive. split; [exact Fc|].
      rewrite concat_app. cbn [concat]. rewrite app_nil_r.
      split; [unfold len; rewrite length_app; lia|].
      now rewrite ink_app, (blank_ink y Bl), app_nil_r.
    + split; [|split; [lia|reflexivity]].
      apply Forall_app. split; [exact Fc|].
      constructor; [|constructor]. intros ->. discriminate Bl.
Qed.

(** A row of [wrap]: it has a character and fits the width. *)
Definition fits (width : Z) (row : str) : Prop := 1 <= len row <= width.

(** A round of [_wrap_chunks] adds no row or a row that fits the
    width, and between the row and the chunks it leaves no ink is
    lost. *)
Lemma wrap_line_spec width lines c rest :
  0 < width ->
  Forall (fun c : str => c <> []) (c :: rest) ->
  exists row,
    fst (Textwrap.wrap_line width lines (c :: rest))
    = (if is_nil row then lines else lines ++ [row])
    /\ len row <= width
    /\ ink (row ++ concat (snd (Textwrap.wrap_line width lines (c :: rest))))
       = ink (concat (c :: rest)).
Proof.
  intros W F. unfold Textwrap.wrap_line.
  set (chunks1 := if Textwrap.blank c && negb (is_nil lines) then rest else c :: rest).
  assert (F1 : Forall (fun c : str => c <> []) chunks1).
  { subst chunks1. destruct (_ && _); [now inversion F|exact F]. }
  assert (I1 : ink (concat chunks1) = ink (concat (c :: rest))).
  { subst chunks1. destruct (Textwrap.blank c) eqn:Bl; cbn [andb];
      [|reflexivity].
    destruct (negb (is_nil lines)); [|reflexivity].
    cbn [concat]. now rewrite ink_app, (blank_ink c Bl). }
  rewrite <- I1. clearbody chunks1. clear I1 F c rest.
  destruct (fill_line_spec width chunks1 0 []) as (taken & chunks2 & -> & E & B).
  cbn [app Z.add].
  assert (Ft : Forall (fun c : str => c <> []) taken
               /\ Forall (fun c : str => c <> []) chunks2).
  { rewrite E in F1. now apply Forall_app in F1. }
  destruct Ft as [Ft F2].
  assert (Lt : 0 <= len (concat taken) <= width).
  { destruct taken; [unfold len; cbn; lia|].
    split; [unfold len; lia|apply B; discriminate]. }
  assert (Done : forall cl chunks3,
             Forall (fun c : str => c <> []) (removelast cl) ->
             len (concat cl) <= width ->
             ink (concat cl ++ concat chunks3) = ink (concat chunks1) ->
             exists row,
               fst (if is_nil (Textwrap.drop_last_blank cl) then lines
                    else lines ++ [concat (Textwrap.drop_last_blank cl)],
                    chunks3)
               = (if is_nil row then lines else lines ++ [row])
               /\ len row <= width
               /\ ink (row ++ concat
                         (snd (if is_nil (Textwrap.drop_last_blank cl)
                               then lines
                               else lines
                                    ++ [concat (Textwrap.drop_last_blank cl)],
                               chunks3)))
                  = ink (concat chunks1)).
  { intros cl chunks3 Fc Lc Ic.
    destruct (drop_last_blank_facts cl Fc) as (Fd & Ld & Id).
    exists (concat (Textwrap.drop_last_blank cl)). cbn [fst snd].
    split; [|split; [lia|]].
    - destruct (Textwrap.drop_last_blank cl) as [|x l]; [reflexivity|].
      inversion Fd; subst. cbn [concat is_nil].
      destruct x; [congruence|reflexivity].
    - rewrite ink_app, Id, <- ink_app. exact Ic. }
  assert (Plain : ink (concat taken ++ concat chunks2) = ink (concat chunks1))
    by (now rewrite E, concat_app).
  destruct chunks2 as [|c2 rest2].
  { apply Done; [now apply Forall_removelast|lia|exact Plain]. }
  destruct (Z.ltb_spec width (len c2)) as [Long|Short].
  - destruct (handle_long_word_spec c2 rest2 taken (len (concat taken)) width
                W Lt Long) as (e & H & He).
    match goal with
    | |- context [Textwrap._handle_long_word ?a ?b ?x ?y] =>
        change (Textwrap._handle_long_word a b x y
                = (taken ++ [firstn e c2], skipn e c2 :: rest2)) in H;
        rewrite H
    end.
    apply Done.
    + now rewrite removelast_last.
    + rewrite concat_app. cbn [concat]. rewrite app_nil_r.
      unfold len in *. rewrite length_app, length_firstn. lia.
    + rewrite <- Plain, concat_app. cbn [concat].
      rewrite app_nil_r, <- !app_assoc.
      now rewrite (app_assoc (firstn e c2)), firstn_skipn.
  - apply Done; [now apply Forall_removelast|lia|exact Plain].
Qed.

(** The rounds of [_wrap_chunks], one for each character the chunks
    have or more: each row they add fits the width, and the rows they
    add have the ink of the chunks. *)
Lemma wrap_lines_spec width :
  0 < width ->
  forall fuel lines chunks,
    Forall (fun c : str => c <> []) chunks ->
    (chars chunks <= fuel)%nat ->
    exists rows,
      Textwrap.wrap_lines fuel width lines chunks = lines ++ rows
      /\ Forall (fits width) rows
      /\ ink (concat rows) = ink (concat chunks).
Proof.
  intros W. induction fuel as [|fuel IH]; intros lines chunks F L.
  - destruct chunks as [|c rest].
    + exists []. rewrite wrap_lines_nil, app_nil_r. repeat split. constructor.
    + assert (1 <= chars (c :: rest))%nat
        by (apply chars_taken; [exact F|discriminate]). lia.
  - destruct chunks as [|c rest].
    + exists []. rewrite wrap_lines_nil, app_nil_r. repeat split. constructor.
    + cbn [Textwrap.wrap_lines].
      destruct (wrap_line_rest width lines c rest W F) as [F' L'].
      destruct (wrap_line_spec width lines c rest W F) as (row & E & Lr & I).
      destruct (Textwrap.wrap_line width lines (c :: rest)) as [lines' chunks'].
      cbn [fst snd] in *.
      destruct (IH lines' chunks' F') as (rows & R & Fr & Ir); [lia|].
      rewrite R, E. destruct row as [|a row]; cbn [is_nil].
      * exists rows. split; [reflexivity|]. split; [exact Fr|].
        now rewrite Ir, <- I.
      * exists ((a :: row) :: rows). rewrite <- app_assoc.
        split; [reflexivity|]. split.
        -- constructor; [|exact Fr]. unfold fits, len in *. cbn [length] in *.
           lia.
        -- cbn [concat]. rewrite ink_app, Ir, <- ink_app. exact I.
Qed.

Lemma isspace_of_whitespace c : Textwrap.whitespace c = true -> Py.isspace c = true.
Proof.
  destruct c as [[|] [|] [|] [|] [|] [|] [|] [|]]; vm_compute; congruence.
Qed.

Lemma tab_is_space c : Ascii.eqb c "009" = true -> Py.isspace c = true.
Proof. intros H. apply Ascii.eqb_eq in H. now subst c. Qed.

Lemma expandtabs_ink tabsize : forall s col,
  ink (Py.expandtabs_from tabsize col s) = ink s.
Proof.
  induction s as [|c s IH]; intros col; [reflexivity|].
  cbn [Py.expandtabs_from].
  destruct (Ascii.eqb c "009") eqn:T.
  - apply tab_is_space in T.
    assert (E : ink (c :: s) = ink s) by (unfold ink; cbn; now rewrite T).
    rewrite E. destruct (0 <? tabsize); [|apply IH].
    now rewrite ink_app, ink_spaces, IH.
  - destruct (_ || _); unfold ink; cbn [filter]; fold ink;
      fold (ink (Py.expandtabs_from tabsize 0 s));
      fold (ink (Py.expandtabs_from tabsize (col + 1) s));
      fold (ink s); now rewrite IH.
Qed.

Lemma munge_ink text : ink (Textwrap._munge_whitespace text) = ink text.
Proof.
  unfold Textwrap._munge_whitespace.
  rewrite <- (expandtabs_ink 8 text 0). unfold Py.expandtabs.
  induction (Py.expandtabs_from 8 0 text) as [|c s IH]; [reflexivity|].
  cbn [map]. unfold ink in *. cbn [filter]. rewrite IH.
  destruct (Textwrap.whitespace c) eqn:Ws; [|reflexivity].
  now rewrite (isspace_of_whitespace c Ws).
Qed.

(** [wrap] on a width above 0 returns rows that each have a character
    and fit the width, with the ink of the text, in its order. *)
Lemma wrap_spec text width :
  0 < width ->
  exists rows,
    Textwrap.wrap text width = Ok rows
    /\ Forall (fits width) rows
    /\ ink (concat rows) = ink text.
Proof.
  intros W. unfold Textwrap.wrap, Textwrap._wrap_chunks, Textwrap._split.
  destruct (Z.leb_spec width 0); [lia|].
  set (t := Textwrap._munge_whitespace text).
  destruct (wrap_lines_spec width W (length (concat (Textwrap.split_from (length t) [] t)))
              [] (Textwrap.split_from (length t) [] t))
    as (rows & E & F & I); [apply split_from_chunks|unfold chars; lia|].
  exists rows. split; [now rewrite E|]. split; [exact F|].
  rewrite I, split_from_concat by lia. apply munge_ink.
Qed.

(** ** What the constructor and [resize] make of a text *)

Lemma join_ink sep l : ink sep = [] -> ink (Py.join sep l) = ink (concat l).
Proof.
  intros S. induction l as [|x l IH]; [reflexivity|].
  cbn [Py.join concat]. destruct l as [|y l].
  - cbn [concat]. now rewrite app_nil_r.
  - now rewrite !ink_app, S, IH.
Qed.



(** The lines [splitlines(True)] returns are the text, cut. *)
Lemma splitlines_from_concat s cur :
  concat (Py.splitlines_from cur s) = rev cur ++ s.
Proof.
  remember (length s) as n eqn:L.
  assert (Le : (length s <= n)%nat) by lia. clear L.
  revert s cur Le. induction n as [|n IH]; intros s cur Le.
  - destruct s; [|simpl in Le; lia].
    cbn. destruct cur; cbn; now rewrite ?app_nil_r.
  - destruct s as [|c s].
    + cbn. destruct cur; cbn; now rewrite ?app_nil_r.
    + cbn [length] in Le. cbn [Py.splitlines_from].
      destruct (Ascii.eqb c "013").
      * destruct s as [|d s]; [cbn; now rewrite app_nil_r|].
        cbn [length] in Le.
        destruct (Ascii.eqb d "010"); cbn [concat rev];
          rewrite IH by (cbn [length]; lia);
          cbn [rev app]; now rewrite <- ?app_assoc.
      * destruct (Py.is_linebreak c); cbn [concat rev]; rewrite IH by lia;
          cbn [rev app]; now rewrite <- ?app_assoc.
Qed.

Lemma buffer_set_at_origin s d :
  text s = Doc d ->
  cur_pos_y s + y_offset s = 0 ->
  exists s', buffer_set s = Ok s'.
Proof.
  intros T O. unfold buffer_set, doc_of. rewrite T. cbn [bind].
  assert (M : forall (l : list Z) w, exists m, Py.max (lor_ l [w]) = Ok m)
    by (intros [|x l] w; cbn; eauto).
  match goal with
  | |- context [Py.max (lor_ ?l [?w])] => destruct (M l w) as (m & ->)
  end.
  cbn [bind]. rewrite O.
  pose proof (getitem_returns (lor_ (index_lines 0 d) [(0, 0, @nil ascii)]) 0)
    as G.
  rewrite index_or_stand_in in G.
  destruct (Z.leb_spec (- Z.max 1 (len (rows_of d))) 0); [|lia].
  destruct (Z.ltb_spec 0 (Z.max 1 (len (rows_of d)))); [|lia].
  destruct G as (e & ->). cbn [bind]. eauto.
Qed.

(** The rows [text_init] makes of the lines, where it wraps at a
    width above 0. *)
Lemma wrap_the_lines width : 0 < width -> forall t,
  exists d,
    map_result (fun i => w <- Textwrap.wrap i width ;; Ok (lor_ w [lit " "])) t
    = Ok d
    /\ ink (concat (concat d)) = ink (concat t)
    /\ Forall (fits width) (rows_of d)
    /\ Forall (fun l : list str => l <> []) d.
Proof.
  intros W. induction t as [|i t (d & E & I & F & N)].
  - exists []. repeat split; constructor.
  - destruct (wrap_spec i width W) as (rows & Ew & Fw & Iw).
    exists (lor_ rows [lit " "] :: d).
    cbn [map_result]. rewrite Ew. cbn [bind]. rewrite E. cbn [bind].
    split; [reflexivity|].
    assert (K : ink (concat (lor_ rows [lit " "])) = ink i
                /\ Forall (fits width) (lor_ rows [lit " "])
                /\ lor_ rows [lit " "] <> []).
    { destruct rows as [|r rows]; cbn [lor_ is_nil].
      - split; [now rewrite <- Iw|]. split; [|discriminate].
        constructor; [|constructor]. unfold fits, len. cbn. lia.
      - split; [exact Iw|]. split; [exact Fw|discriminate]. }
    destruct K as (Ki & Kf & Kn).
    split; [|split].
    + cbn [concat]. now rewrite concat_app, !ink_app, Ki, I.
    + unfold rows_of in *. cbn [concat]. apply Forall_app. now split.
    + constructor; assumption.
Qed.

(** [text_init], with the cursor on the first row of the buffer,
    where the editor scrolls sideways or has a width above 0 to wrap
    at. *)
Lemma text_init_spec txt s :
  x_scroll s = true \/ 0 < win_size_x s - 1 ->
  cur_pos_y s + y_offset s = 0 ->
  exists s' d,
    text_init txt s = Ok s'
    /\ text s' = Doc d
    /\ ink (concat (concat d)) = ink txt
    /\ (x_scroll s = false ->
        Forall (fits (win_size_x s - 1)) (rows_of d)
        /\ Forall (fun l : list str => l <> []) d).
Proof.
  intros X O. unfold text_init.
  assert (D : exists d,
             (if x_scroll s then Ok [Py.splitlines_keepends txt]
              else map_result
                     (fun i => w <- Textwrap.wrap i (win_size_x s - 1) ;;
                               Ok (lor_ w [lit " "]))
                     (Py.splitlines_keepends txt)) = Ok d
             /\ ink (concat (concat d)) = ink txt
             /\ (x_scroll s = false ->
                 Forall (fits (win_size_x s - 1)) (rows_of d)
                 /\ Forall (fun l : list str => l <> []) d)).
  { pose proof (splitlines_from_concat txt []) as C. cbn [rev app] in C.
    destruct (x_scroll s) eqn:Xs.
    - eexists. split; [reflexivity|]. split; [|discriminate].
      cbn [concat]. rewrite app_nil_r. unfold Py.splitlines_keepends.
      now rewrite C.
    - destruct X as [X|X]; [discriminate X|].
      destruct (wrap_the_lines _ X (Py.splitlines_keepends txt))
        as (d & E & I & F & N).
      exists d. split; [exact E|]. split; [|intros _; now split].
      rewrite I. unfold Py.splitlines_keepends. now rewrite C. }
  destruct D as (d & -> & I & F). cbn [bind].
  destruct (buffer_set_at_origin (set_text (Doc d) s) d eq_refl O) as (s1 & B).
  rewrite B. cbn [bind].
  apply buffer_set_frame in B as (_ & _ & _ & _ & _ & _ & T). cbn in T.
  eexists. exists d. split; [reflexivity|].
  split; [|split; assumption].
  now destruct ((0 <? max_text_size s1) && (max_text_size s1 <? num_rows s1)).
Qed.



(** Where the constructor wraps, every line of the document it builds
    has a row, and every row has a character and is no longer than
    the width it wraps at, the width of the window less 1. *)
Theorem init_rows_fit crs maxyx title_ inittext win_size box_ cap pw s d :
  init crs maxyx title_ inittext win_size box_ cap pw = Ok s ->
  x_scroll s = false ->
  text s = Doc d ->
  Forall (fun row => 1 <= len row <= win_size_x s - 1) (rows_of d)
  /\ Forall (fun l : list str => l <> []) d.
Proof.
  intros E X T.
  apply init_Ok in E as (s1 & E & [->| ->]); [|discriminate T].
  set (s0 := win_init maxyx (pre_init title_ win_size box_ cap pw)) in *.
  pose proof (text_init_frame _ _ _ E) as (_ & Wx & Xs & _).
  rewrite Xs in X.
  assert (W : 0 < win_size_x s0 - 1).
  { destruct (Z.ltb_spec 0 (win_size_x s0 - 1)) as [|Le]; [assumption|].
    exfalso. unfold text_init in E. rewrite X in E.
    unfold Py.splitlines_keepends in E.
    destruct (splitlines_from_cons [] (lor_ inittext (lit " "))) as (l & t & Es).
    { left. destruct inittext; discriminate. }
    rewrite Es in E. cbn [map_result] in E.
    unfold Textwrap.wrap at 1, Textwrap._wrap_chunks in E.
    destruct (Z.leb_spec (win_size_x s0 - 1) 0); [discriminate E|lia]. }
  destruct (text_init_spec (lor_ inittext (lit " ")) s0 (or_intror W) eq_refl)
    as (s' & d' & E' & T' & _ & F).
  rewrite E in E'. inversion E'; subst s'.
  rewrite T in T'. inversion T'; subst d'.
  rewrite Wx. exact (F X).
Qed.

Lemma init_rows_fit_witness :
  exists s,
    init quiet screen (lit "t") (lit "ab cd ef gh ij") (20, 7) true 0 false = Ok s
    /\ text s = Doc [[lit "ab cd"; lit "ef gh"; lit "ij"]]
    /\ Forall (fun row => 1 <= len row <= win_size_x s - 1)
              [lit "ab cd"; lit "ef gh"; lit "ij"].
Proof.
  assert (E : exists s,
             init quiet screen (lit "t") (lit "ab cd ef gh ij") (20, 7) true 0 false
             = Ok s
             /\ x_scroll s = false
             /\ text s = Doc [[lit "ab cd"; lit "ef gh"; lit "ij"]]).
  { eexists. split; [vm_compute; reflexivity|]. split; reflexivity. }
  destruct E as (s & E & X & T).
  exists s. split; [exact E|]. split; [exact T|].
  exact (proj1 (init_rows_fit _ _ _ _ _ _ _ _ s _ E X T)).
Defined.



(** ** The editor that scrolls sideways *)





(** With a line boundary in the text that editor puts a space after
    it: the lines, with their ends, are the rows of one line, which
    [exit] joins by spaces. *)
Example scrolling_adds_a_space :
  exists s,
    init quiet screen (lit "t") (lit "a" ++ nl ++ lit "b") (1, 40) false 1 true = Ok s
    /\ text s = Doc [[lit "a" ++ nl; lit "b"]]
    /\ exit s = ExitText (lit "a" ++ nl ++ lit " b").
Proof.
  eexists. split; [vm_compute; reflexivity|]. split; reflexivity.
Qed.

(** ** Delete and typing *)

(** [wrap(" ".join(d[ln]), win_size_x - 1) or [""]], where there is a
    column to wrap at: the line has a row again, its rows fit the
    width and have the ink of its rows before; the other lines are
    left as they are. *)
Lemma rewrap_at s d1 l d2 :
  0 < win_size_x s - 1 ->
  exists w,
    Textwrap.wrap (Py.join (lit " ") l) (win_size_x s - 1) = Ok w
    /\ rewrap s (d1 ++ l :: d2) (Z.of_nat (length d1))
       = Ok (d1 ++ lor_ w [[]] :: d2)
    /\ lor_ w [[]] <> []
    /\ Forall (fun row => len row <= win_size_x s - 1) (lor_ w [[]])
    /\ ink (concat (lor_ w [[]])) = ink (concat l).
Proof.
  intros W.
  destruct (wrap_spec (Py.join (lit " ") l) _ W) as (w & E & F & I).
  exists w. split; [exact E|]. unfold rewrap, Py.setitem.
  rewrite (getitem_at _ (length d1) l)
    by (rewrite nth_error_app2, Nat.sub_diag by lia; reflexivity).
  cbn [bind]. rewrite E. cbn [bind].
  rewrite norm_index_at by (rewrite length_app; simpl; lia). cbn [bind].
  rewrite firstn_length_app, skipn_S_length_app.
  split; [reflexivity|].
  rewrite join_ink in I by reflexivity.
  destruct w as [|r w]; cbn [lor_ is_nil].
  - split; [discriminate|]. split; [|now rewrite <- I].
    constructor; [unfold len; cbn; lia|constructor].
  - split; [discriminate|]. split; [|exact I].
    eapply Forall_impl; [|exact F]. unfold fits. intros; lia.
Qed.

Lemma firstn_skipn_end {A : Type} (row : list A) :
  firstn (length row) row ++ skipn (S (length row)) row = row.
Proof.
  rewrite firstn_all, skipn_all2 by lia. apply app_nil_r.
Qed.

(** Delete, where the cursor is in its bounds and there is a column
    to wrap at, returns. It takes the character under the cursor out
    of the row (none, at the end of the row) and wraps the line of
    the row anew: the line has a row, its rows fit the width, and
    its ink is the ink it had, less that character. The other lines
    and the cursor are left as they are. *)
Theorem del_char_deletes_a_character d s :
  in_bounds d s ->
  buffer_idx_x s = cur_pos_x s ->
  0 < win_size_x s - 1 ->
  exists d1 l1 row l2 d2 l',
    d = d1 ++ (l1 ++ row :: l2) :: d2
    /\ buffer_idx_y s = len (concat d1 ++ l1)
    /\ 0 <= cur_pos_x s <= len row
    /\ del_char s = Ok (set_text (Doc (d1 ++ l' :: d2)) s)
    /\ l' <> []
    /\ Forall (fun r => len r <= win_size_x s - 1) l'
    /\ ink (concat l')
       = ink (concat l1
              ++ (firstn (Z.to_nat (cur_pos_x s)) row
                  ++ skipn (S (Z.to_nat (cur_pos_x s))) row)
              ++ concat l2).
Proof.
  intros I Bx W.
  destruct (cursor_line d s I) as (d1 & l1 & row & l2 & d2 & E & G & B & X).
  set (x := Z.to_nat (cur_pos_x s)).
  set (row' := firstn x row ++ skipn (S x) row).
  destruct (rewrap_at s d1 (l1 ++ row' :: l2) d2 W) as (w & _ & R & N & F & K).
  exists d1, l1, row, l2, d2, (lor_ w [[]]).
  split; [exact E|]. split; [exact B|]. split; [exact X|].
  split; [|split; [exact N|split; [exact F|]]].
  - unfold del_char. rewrite G. cbn [bind].
    assert (L : (if negb (is_nil row) && (cur_pos_x s <? len row)
                 then Py.delitem row (buffer_idx_x s) else Ok row) = Ok row').
    { destruct (Z.ltb_spec (cur_pos_x s) (len row)).
      - destruct row as [|a row0] eqn:Er; [unfold len in *; simpl in *; lia|].
        cbn [is_nil negb andb]. rewrite Bx.
        replace (cur_pos_x s) with (Z.of_nat x) by lia.
        rewrite delitem_at by (unfold len in *; lia). reflexivity.
      - rewrite andb_false_r. f_equal. subst row'.
        replace x with (length row) by (unfold len in *; lia).
        symmetry. apply firstn_skipn_end. }
    rewrite L. cbn [bind]. unfold doc_of.
    destruct I as [T]. rewrite T, E. cbn [bind].
    rewrite set_row_in_place. cbn [bind].
    match goal with
    | |- context [rewrap ?a ?b ?c] =>
        change (rewrap a b c)
          with (rewrap s (d1 ++ (l1 ++ row' :: l2) :: d2)
                       (Z.of_nat (length d1)))
    end.
    rewrite R. reflexivity.
  - rewrite K, concat_app. cbn [concat]. reflexivity.
Qed.

Lemma del_char_deletes_a_character_witness :
  exists s s',
    session "abcd" [KEY_RIGHT] = Ok (Editing s)
    /\ del_char s = Ok s'
    /\ exists l', text s' = Doc [l'] /\ ink (concat l') = lit "acd".
Proof.
  assert (E : exists s,
             session "abcd" [KEY_RIGHT] = Ok (Editing s)
             /\ cur_pos_x s = 1 /\ buffer_idx_x s = cur_pos_x s
             /\ 0 < win_size_x s - 1
             /\ in_bounds [[lit "abcd"]] s).
  { eexists. split; [vm_compute; reflexivity|].
    do 2 (split; [reflexivity|]). split; [reflexivity|].
    split; try reflexivity; cbn; try lia.
    exists (lit "abcd"). split; reflexivity. }
  destruct E as (s & E & X & Bx & W & I).
  destruct (del_char_deletes_a_character _ s I Bx W)
    as (d1 & l1 & row & l2 & d2 & l' & D & _ & _ & K & _ & _ & Ik).
  exists s. eexists. split; [exact E|]. split; [exact K|].
  destruct d1 as [|z d1]; [|destruct d1; discriminate D].
  destruct l1 as [|y l1]; [|destruct l1; discriminate D].
  inversion D; subst. exists l'. split; [reflexivity|].
  rewrite Ik, X. reflexivity.
Defined.

(** Delete on the one character of a row that its line can do
    without leaves fewer rows than the row of the cursor: the loop,
    which builds the index next, raises [IndexError], and so does
    Backspace after that character. *)
Example delete_on_a_lonely_character :
  exists s,
    init quiet screen (lit "t") (lit "ab cd e") (20, 7) true 0 false = Ok s
    /\ text s = Doc [[lit "ab cd"; lit "e"]]
    /\ run quiet screen [KInt 258; KEY_DC] s = Raise IndexError
    /\ run quiet screen [KInt 258; KEY_END; KEY_BACKSPACE] s = Raise IndexError.
Proof.
  eexists. split; [vm_compute; reflexivity|]. split; [reflexivity|].
  split; vm_compute; reflexivity.
Qed.

Lemma get_row_in_place d1 l1 row l2 d2 :
  get_row (d1 ++ (l1 ++ row :: l2) :: d2)
          (Z.of_nat (length d1)) (Z.of_nat (length l1))
  = Ok row.
Proof.
  unfold get_row.
  rewrite (getitem_at _ (length d1) (l1 ++ row :: l2))
    by (rewrite nth_error_app2, Nat.sub_diag by lia; reflexivity).
  cbn [bind]. apply getitem_at.
  rewrite nth_error_app2, Nat.sub_diag by lia. reflexivity.
Qed.

(** [d[ln][r] = v], where [d[ln][r]] is [old]: [v] is put for [old]
    in the line. *)
Lemma set_row_line d1 l d2 r old v d' :
  get_row (d1 ++ l :: d2) (Z.of_nat (length d1)) r = Ok old ->
  set_row (d1 ++ l :: d2) (Z.of_nat (length d1)) r v = Ok d' ->
  exists a b, l = a ++ old :: b /\ d' = d1 ++ (a ++ v :: b) :: d2.
Proof.
  intros G H. unfold get_row in G. unfold set_row in H.
  rewrite (getitem_at _ (length d1) l) in G, H
    by (rewrite nth_error_app2, Nat.sub_diag by lia; reflexivity).
  cbn [bind] in G, H. unfold Py.getitem in G.
  destruct (Py.norm_index l r) as [k|] eqn:K; [|discriminate G].
  cbn [bind] in G.
  destruct (nth_error l k) as [y|] eqn:N; [|discriminate G].
  injection G as ->.
  apply nth_error_split in N as (a & b & -> & La). subst k.
  unfold Py.setitem at 1 in H. rewrite K in H. cbn [bind] in H.
  rewrite firstn_length_app, skipn_S_length_app in H.
  unfold Py.setitem in H.
  rewrite norm_index_at in H by (rewrite length_app; simpl; lia).
  cbn [bind] in H.
  rewrite firstn_length_app, skipn_S_length_app in H.
  exists a, b. split; [reflexivity|congruence].
Qed.

(** The characters of a row, with [c] put in at a place of the row. *)
Lemma insert_in_row (row : str) x c :
  (x <= length row)%nat ->
  concat (Py.insert (lor_ (map (fun a => [a]) row) [[]]) (Z.of_nat x) c)
  = firstn x row ++ c ++ skipn x row.
Proof.
  intros L.
  assert (C : forall l : str, concat (map (fun a => [a]) l) = l).
  { induction l as [|a l IH]; [reflexivity|]. cbn. now rewrite IH. }
  destruct row as [|a row].
  - assert (x = 0%nat) by (simpl in L; lia). subst x.
    cbn. now rewrite app_nil_r.
  - cbn [map lor_ is_nil].
    rewrite insert_at by (cbn [length]; rewrite length_map; exact L).
    change ([a] :: map (fun a0 => [a0]) row)
      with (map (fun a0 : ascii => [a0]) (a :: row)).
    rewrite concat_app. cbn [concat].
    now rewrite firstn_map, skipn_map, !C.
Qed.

(** Typing a character, where the cursor is in its bounds: if
    [insert_char] returns, the line of the row under the cursor has
    the ink it had with the character put in at the cursor, and the
    other lines are left as they are. *)
Theorem insert_char_adds_the_character d s c s' :
  in_bounds d s ->
  buffer_idx_x s = cur_pos_x s ->
  insert_char (KStr c) s = Ok s' ->
  exists d1 l1 row l2 d2 l',
    d = d1 ++ (l1 ++ row :: l2) :: d2
    /\ buffer_idx_y s = len (concat d1 ++ l1)
    /\ 0 <= cur_pos_x s <= len row
    /\ text s' = Doc (d1 ++ l' :: d2)
    /\ ink (concat l')
       = ink (concat l1
              ++ (firstn (Z.to_nat (cur_pos_x s)) row ++ c
                  ++ skipn (Z.to_nat (cur_pos_x s)) row)
              ++ concat l2).
Proof.
  intros I Bx H.
  destruct (cursor_line d s I) as (d1 & l1 & row & l2 & d2 & E & G & B & X).
  exists d1, l1, row, l2, d2.
  set (x := Z.to_nat (cur_pos_x s)) in *.
  set (row1 := firstn x row ++ c ++ skipn x row).
  unfold insert_char in H. rewrite G in H. cbn [bind] in H.
  rewrite Bx in H. replace (cur_pos_x s) with (Z.of_nat x) in H by lia.
  rewrite insert_in_row in H by (unfold len in *; lia). fold row1 in H.
  unfold doc_of in H. destruct I as [T]. rewrite T, E in H. cbn [bind] in H.
  rewrite set_row_in_place in H. cbn [bind] in H.
  rewrite get_row_in_place in H. cbn [bind] in H.
  set (s1 := set_space_counter _ s) in H.
  assert (G1 : Py.getitem (buffer_list s1) (buffer_idx_y s1)
               = Ok (Z.of_nat (length d1), Z.of_nat (length l1), row))
    by exact G.
  apply bind_Ok in H as (d3 & R & H).
  assert (Wd : 0 < win_size_x s1 - 1).
  { pose proof R as R0. unfold rewrap in R0.
    rewrite (getitem_at _ (length d1) (l1 ++ row1 :: l2)) in R0
      by (rewrite nth_error_app2, Nat.sub_diag by lia; reflexivity).
    cbn [bind] in R0. apply bind_Ok in R0 as (w & Ew & _).
    unfold Textwrap.wrap, Textwrap._wrap_chunks in Ew.
    destruct (Z.leb_spec (win_size_x s1 - 1) 0); [discriminate Ew|lia]. }
  assert (D3 : exists l3, d3 = d1 ++ l3 :: d2
                          /\ ink (concat l3) = ink (concat (l1 ++ row1 :: l2))).
  { destruct (rewrap_at s1 d1 (l1 ++ row1 :: l2) d2 Wd)
      as (w & _ & R' & _ & _ & K).
    exists (lor_ w [[]]). split; [|exact K].
    pose proof (eq_trans (eq_sym R) R') as Q. now injection Q. }
  destruct D3 as (l3 & -> & I3).
  apply bind_Ok in H as (row3 & Gr & H).
  apply bind_Ok in H as (d4 & D4 & H).
  assert (L4 : exists l4, d4 = d1 ++ l4 :: d2
                          /\ ink (concat l4) = ink (concat l3)).
  { destruct (space_counter s1 =? 0).
    - inversion D4; subst d4. eauto.
    - rewrite G1 in D4. cbn [bind] in D4.
      apply bind_Ok in D4 as (row4 & Gr4 & D4).
      rewrite Gr in Gr4. inversion Gr4; subst row4.
      destruct (set_row_line _ _ _ _ _ _ _ Gr D4) as (a & b & El & ->).
      exists (a ++ (row3 ++ Py.spaces (space_counter s1)) :: b).
      split; [reflexivity|]. subst l3.
      rewrite !concat_app. cbn [concat].
      now rewrite !ink_app, ink_spaces, app_nil_r. }
  destruct L4 as (l4 & -> & I4).
  apply bind_Ok in H as (s2 & B2 & H).
  apply bind_Ok in H as (s3 & R3 & H).
  apply buffer_set_same in B2 as (T2 & _). cbn [text set_text] in T2.
  apply right_same in R3 as (T3 & _).
  apply word_wrap_jump_same in H as (T4 & _).
  exists l4. split; [exact E|]. split; [exact B|]. split; [exact X|].
  split; [congruence|].
  rewrite I4, I3, concat_app. cbn [concat]. reflexivity.
Qed.

Lemma insert_char_adds_the_character_witness :
  exists s s',
    session "abcd" [KEY_RIGHT] = Ok (Editing s)
    /\ insert_char (char "x") s = Ok s'
    /\ exists l', text s' = Doc [l'] /\ ink (concat l') = lit "axbcd".
Proof.
  assert (E : exists s s',
             session "abcd" [KEY_RIGHT] = Ok (Editing s)
             /\ cur_pos_x s = 1 /\ buffer_idx_x s = cur_pos_x s
             /\ in_bounds [[lit "abcd"]] s
             /\ insert_char (char "x") s = Ok s').
  { do 2 eexists. split; [vm_compute; reflexivity|].
    do 2 (split; [reflexivity|]). split; [|vm_compute; reflexivity].
    split; try reflexivity; cbn; try lia.
    exists (lit "abcd"). split; reflexivity. }
  destruct E as (s & s' & E & X & Bx & I & K).
  destruct (insert_char_adds_the_character _ s (lit "x") s' I Bx K)
    as (d1 & l1 & row & l2 & d2 & l' & D & _ & _ & T & Ik).
  exists s, s'. split; [exact E|]. split; [exact K|].
  destruct d1 as [|z d1]; [|destruct d1; discriminate D].
  destruct l1 as [|y l1]; [|destruct l1; discriminate D].
  inversion D; subst. exists l'. split; [exact T|].
  rewrite Ik, X. reflexivity.
Defined.

(** Backspace with the cursor past the start of the row, where the
    cursor is in its bounds: if [backspace] returns, the line of the
    row under the cursor has the ink it had less the character
    before the cursor, and the other lines are left as they are. *)
Theorem backspace_deletes_the_character d s r s' :
  in_bounds d s ->
  buffer_idx_x s = cur_pos_x s ->
  0 < cur_pos_x s ->
  backspace s = Ok (r, s') ->
  exists d1 l1 row l2 d2 l',
    d = d1 ++ (l1 ++ row :: l2) :: d2
    /\ buffer_idx_y s = len (concat d1 ++ l1)
    /\ 0 < cur_pos_x s <= len row
    /\ r = RNone
    /\ text s' = Doc (d1 ++ l' :: d2)
    /\ ink (concat l')
       = ink (concat l1
              ++ (firstn (Z.to_nat (cur_pos_x s) - 1) row
                  ++ skipn (Z.to_nat (cur_pos_x s)) row)
              ++ concat l2).
Proof.
  intros I Bx P H.
  destruct (cursor_line d s I) as (d1 & l1 & row & l2 & d2 & E & G & B & X).
  exists d1, l1, row, l2, d2.
  set (x := Z.to_nat (cur_pos_x s)) in *.
  set (row1 := firstn (x - 1) row ++ skipn x row).
  unfold backspace in H. rewrite G in H. cbn [bind] in H.
  unfold doc_of in H. destruct I as [T]. rewrite T, E in H. cbn [bind] in H.
  destruct (Z.ltb_spec 0 (cur_pos_x s)); [|lia].
  assert (Dl : Py.delitem row (buffer_idx_x s - 1) = Ok row1).
  { rewrite Bx. replace (cur_pos_x s - 1) with (Z.of_nat (x - 1)) by lia.
    rewrite delitem_at by (unfold len in *; lia).
    subst row1. now replace (S (x - 1)) with x by lia. }
  rewrite Dl in H. cbn [bind try_IndexError] in H.
  rewrite set_row_in_place in H. cbn [bind] in H.
  unfold left in H at 1. cbn [cur_pos_x set_text] in H.
  destruct (Z.ltb_spec 0 (cur_pos_x s)); [|lia]. cbn [bind] in H.
  rewrite get_row_in_place in H. cbn [bind] in H.
  set (s1 := set_cur_pos_x _ _) in H.
  apply bind_Ok in H as (d3 & R & H).
  assert (Wd : 0 < win_size_x s1 - 1).
  { pose proof R as R0. unfold rewrap in R0.
    rewrite (getitem_at _ (length d1) (l1 ++ row1 :: l2)) in R0
      by (rewrite nth_error_app2, Nat.sub_diag by lia; reflexivity).
    cbn [bind] in R0. apply bind_Ok in R0 as (w & Ew & _).
    unfold Textwrap.wrap, Textwrap._wrap_chunks in Ew.
    destruct (Z.leb_spec (win_size_x s1 - 1) 0); [discriminate Ew|lia]. }
  destruct (rewrap_at s1 d1 (l1 ++ row1 :: l2) d2 Wd)
    as (w & _ & R' & _ & _ & K).
  assert (D3 : d3 = d1 ++ lor_ w [[]] :: d2).
  { pose proof (eq_trans (eq_sym R) R') as Q. now injection Q. }
  subst d3.
  apply bind_Ok in H as (cw & _ & H).
  apply bind_Ok in H as (s2 & B2 & H).
  apply bind_Ok in H as (s3 & J & H).
  apply buffer_set_same in B2 as (T2 & _). cbn [text set_text] in T2.
  apply word_wrap_jump_same in J as (T3 & _).
  inversion H; subst r s'.
  exists (lor_ w [[]]).
  split; [exact E|]. split; [exact B|]. split; [lia|].
  split; [reflexivity|]. split; [congruence|].
  rewrite K, concat_app. cbn [concat]. reflexivity.
Qed.

Lemma backspace_deletes_the_character_witness :
  exists s s',
    session "abcd" [KEY_RIGHT; KEY_RIGHT] = Ok (Editing s)
    /\ backspace s = Ok (RNone, s')
    /\ exists l', text s' = Doc [l'] /\ ink (concat l') = lit "acd".
Proof.
  assert (E : exists s s',
             session "abcd" [KEY_RIGHT; KEY_RIGHT] = Ok (Editing s)
             /\ cur_pos_x s = 2 /\ buffer_idx_x s = cur_pos_x s
             /\ in_bounds [[lit "abcd"]] s
             /\ backspace s = Ok (RNone, s')).
  { do 2 eexists. split; [vm_compute; reflexivity|].
    do 2 (split; [reflexivity|]). split; [|vm_compute; reflexivity].
    split; try reflexivity; cbn; try lia.
    exists (lit "abcd"). split; reflexivity. }
  destruct E as (s & s' & E & X & Bx & I & K).
  destruct (backspace_deletes_the_character _ s RNone s' I Bx)
    as (d1 & l1 & row & l2 & d2 & l' & D & _ & _ & _ & T & Ik);
    [lia|exact K|].
  exists s, s'. split; [exact E|]. split; [exact K|].
  destruct d1 as [|z d1]; [|destruct d1; discriminate D].
  destruct l1 as [|y l1]; [|destruct l1; discriminate D].
  inversion D; subst. exists l'. split; [exact T|].
  rewrite Ik, X. reflexivity.
Defined.

(** At the start of a row that is not the first, Backspace deletes
    the last character of the row before, not a line boundary: of the
    lines [ab] and [cd] it makes the line [a cd]. *)
Example backspace_at_the_start_of_a_line :
  exists s s',
    init quiet screen (lit "t") (lit "ab" ++ nl ++ lit "cd") (20, 7) true 0 false
    = Ok s
    /\ run quiet screen [KInt 258; KEY_BACKSPACE] s = Ok (Editing s')
    /\ exit s' = ExitText (lit "a cd").
Proof.
  do 2 eexists. split; [vm_compute; reflexivity|].
  split; [vm_compute; reflexivity|reflexivity].
Qed.
